(** * Oracle Cloud resource adapter: launch and decommission orchestration

    A shallow embedding of [tortuga/resourceAdapter/oracleadapter.py]
    ([OciSession] and [Oracleadapter]) and the properties of its launch
    pipeline, instance-state waiter, instance cache and rollback logic.

    Conventions.
    - A Python [str] is a [string] whose characters are the code points
      0..255.
    - A Python [dict] is a [gmap]; [d[k]] on a missing key raises
      [KeyError].
    - Code that runs inside a gevent greenlet is a computation in the
      resumption monad [GM]: it runs atomically up to the next
      [gevent.sleep], where the other greenlets may run.
    - Collaborators that live outside the adapter (the OCI clients, the
      file system, the add-host API, the configuration manager) are the
      fields of an environment record [Env] over an abstract state. *)

From Stdlib Require Import ZArith Ascii String List Bool Lia.
From stdpp Require Import base option list gmap strings pretty.

Local Open Scope string_scope.
Local Open Scope Z_scope.

(** ** Python strings *)

Module PyStr.

(** [s.split(sep)] for a one-character separator: never empty. *)
Fixpoint split (sep : ascii) (s : string) : list string :=
  match s with
  | EmptyString => [ EmptyString ]
  | String c s' =>
      if Ascii.eqb c sep then EmptyString :: split sep s'
      else match split sep s' with
           | seg :: rest => String c seg :: rest
           | [] => [ String c EmptyString ]
           end
  end.

(** [s.split(sep, 1)]: cut at the first separator only. *)
Fixpoint split1 (sep : ascii) (s : string) : list string :=
  match s with
  | EmptyString => [ EmptyString ]
  | String c s' =>
      if Ascii.eqb c sep then [ EmptyString; s' ]
      else match split1 sep s' with
           | seg :: rest => String c seg :: rest
           | [] => [ String c EmptyString ]
           end
  end.

(** [sep.join(l)] *)
Fixpoint join (sep : string) (l : list string) : string :=
  match l with
  | [] => EmptyString
  | [ x ] => x
  | x :: rest => x ++ sep ++ join sep rest
  end.

(** The characters [int()] skips as white space, among the code points
    below 256. *)
Definition is_space (c : ascii) : bool :=
  let n := N_of_ascii c in
  ((9 <=? n) && (n <=? 13) || (n =? 32) || (n =? 133) || (n =? 160))%N.

Definition digit_val (c : ascii) : option Z :=
  let n := N_of_ascii c in
  if ((48 <=? n) && (n <=? 57))%N then Some (Z.of_N n - 48) else None.

(** What is left of [s] after the white space [int()] skips. *)
Fixpoint lstrip (s : string) : string :=
  match s with
  | String c s' => if is_space c then lstrip s' else s
  | EmptyString => EmptyString
  end.

Fixpoint all_space (s : string) : bool :=
  match s with
  | String c s' => is_space c && all_space s'
  | EmptyString => true
  end.

(** The characters [str.strip()] removes, among the code points below
    256: those above and the separators 0x1C to 0x1F. *)
Definition is_str_space (c : ascii) : bool :=
  let n := N_of_ascii c in
  (is_space c || (28 <=? n) && (n <=? 31))%N.

Fixpoint str_lstrip (s : string) : string :=
  match s with
  | String c s' => if is_str_space c then str_lstrip s' else s
  | EmptyString => EmptyString
  end.

Fixpoint all_str_space (s : string) : bool :=
  match s with
  | String c s' => is_str_space c && all_str_space s'
  | EmptyString => true
  end.

(** [s.rstrip()]: drop the longest all-white-space suffix. *)
Fixpoint str_rstrip (s : string) : string :=
  match s with
  | String c s' =>
      if all_str_space s then EmptyString else String c (str_rstrip s')
  | EmptyString => EmptyString
  end.

(** [s.strip()] *)
Definition strip (s : string) : string := str_rstrip (str_lstrip s).

(** The digit loop of [int(s)]: digits, with single underscores allowed
    between two digits. [after_us] says that the previous character was
    an underscore. Returns the value and the unread rest. *)
Fixpoint scan_digits (acc : Z) (after_us : bool) (s : string)
  : option (Z * string) :=
  match s with
  | String c s' =>
      match digit_val c with
      | Some d => scan_digits (10 * acc + d) false s'
      | None =>
          if after_us then None
          else if Ascii.eqb c "_" then scan_digits acc true s'
          else Some (acc, s)
      end
  | EmptyString => if after_us then None else Some (acc, EmptyString)
  end.

(** [int(s)] in base 10: [None] stands for [ValueError]. White space
    around the literal is skipped, one sign is allowed, the first
    character after it has to be a digit. *)
Definition int (s : string) : option Z :=
  let s1 := lstrip s in
  let '(neg, s2) :=
    match s1 with
    | String c r =>
        if Ascii.eqb c "+" then (false, r)
        else if Ascii.eqb c "-" then (true, r)
        else (false, s1)
    | EmptyString => (false, s1)
    end in
  match s2 with
  | String c _ =>
      match digit_val c with
      | None => None
      | Some _ =>
          match scan_digits 0 false s2 with
          | Some (v, rest) =>
              if all_space rest then Some (if neg then - v else v) else None
          | None => None
          end
      end
  | EmptyString => None
  end.

(** *** Decimal integers

    What a decimal integer is, said without reference to the scanner:
    optional white space, an optional sign, one or more groups of one or
    more decimal digits separated by single underscores, optional white
    space. Its value is the one of the digits read in base 10, negated
    under a minus sign. *)

Fixpoint all_digits (s : string) : bool :=
  match s with
  | String c s' => bool_decide (is_Some (digit_val c)) && all_digits s'
  | EmptyString => true
  end.

(** The value of the digits of [s] read after [acc]. *)
Fixpoint horner (acc : Z) (s : string) : Z :=
  match s with
  | String c s' => horner (10 * acc + default 0 (digit_val c)) s'
  | EmptyString => acc
  end.

Definition digit_group (g : string) : Prop :=
  g <> EmptyString /\ all_digits g = true.

Inductive Sign := Plus | Minus | NoSign.

Definition sign_string (sg : Sign) : string :=
  match sg with
  | Plus => "+"
  | Minus => "-"
  | NoSign => ""
  end.

Definition signed (sg : Sign) (v : Z) : Z :=
  match sg with
  | Minus => - v
  | _ => v
  end.

Inductive DecimalInteger : string -> Z -> Prop :=
| decimal_integer pre sg groups post :
    all_space pre = true ->
    all_space post = true ->
    groups <> [] ->
    Forall digit_group groups ->
    DecimalInteger (pre ++ sign_string sg ++ join "_" groups ++ post)
                   (signed sg (horner 0 (join "" groups))).

End PyStr.

(** ** Python values, exceptions and results *)

(** The scalar values an adapter configuration holds. *)
Inductive PyVal : Type :=
| VNone
| VBool (b : bool)
| VInt (n : Z)
| VStr (s : string).

#[global] Instance PyVal_eq_dec : EqDecision PyVal.
Proof. solve_decision. Defined.

(** [bool(v)] *)
Definition truthy (v : PyVal) : bool :=
  match v with
  | VNone => false
  | VBool b => b
  | VInt n => negb (n =? 0)
  | VStr s => negb (String.eqb s "")
  end.

(** The subclasses of [Exception] the adapter can meet; everything here
    is caught by [except Exception]. *)
Inductive exn : Type :=
| ResourceNotFound
| ConfigurationError (fn : string)
| ValueError
| KeyError (key : string)
| IndexError
| TypeError
| AttributeError
| OSError
| RuntimeError (msg : string)
| ServiceError (status : Z).

#[global] Instance exn_eq_dec : EqDecision exn.
Proof. solve_decision. Defined.

(** The result of a call: a value, or a raised exception. *)
Inductive Outcome (A : Type) : Type :=
| Ok (a : A)
| Exc (e : exn).
Arguments Ok {A} a.
Arguments Exc {A} e.

(** ** Records of the registry and of the provider *)

Record Nic := mkNic { nic_ip : string; nic_boot : bool }.

Record Profile := mkProfile {
  profile_name : string;
  nameFormat : string;
  profile_nics : list Nic
}.

(** [tortuga.db.models.node.Node]; [node_state] is unset until assigned. *)
Record Node := mkNode {
  node_name : string;
  node_state : option string;
  softwareprofile : option Profile;
  hardwareprofile : Profile;
  isIdle : bool;
  addHostSession : string;
  node_nics : list Nic
}.

(** A reference to a [Node] object. *)
Definition NodeRef := nat.

(** The database session all launch units of a request share: the
    objects, the ones the session tracks, the ones marked for deletion,
    and the rows as of the last commit. *)
Record Registry := mkRegistry {
  heap : gmap nat Node;
  next_ref : nat;
  attached : gset nat;
  doomed : gset nat;
  rows : gmap nat Node
}.

(** [oci] instance, as returned by [get_instance(...).data]. *)
Record Instance := mkInstance {
  instance_id : string;
  lifecycle_state : string;
  display_name : string;
  compartment_id : string
}.

Record VnicAttachment := mkVnicAttachment {
  va_instance_id : string;
  va_lifecycle_state : string;
  va_vnic_id : string
}.

Record Vnic := mkVnic { public_ip : string; private_ip : string }.

(** The value under ['metadata'] of a session configuration: the
    dictionary the session builds, or a scalar that overrode it. *)
Inductive MetaVal : Type :=
| MetaDict (ssh_authorized_keys : PyVal) (user_data : option string)
| MetaScalar (v : PyVal).

(** [oci.core.models.LaunchInstanceDetails]: attributes start as [None]. *)
Record LaunchInstanceDetails := mkLaunch {
  ld_availability_domain : PyVal;
  ld_compartment_id : PyVal;
  ld_shape : PyVal;
  ld_subnet_id : PyVal;
  ld_image_id : PyVal;
  ld_metadata : MetaVal;
  ld_display_name : option string;
  ld_hostname_label : option string
}.

(** ** What a greenlet emits *)

Inductive Level := Debug | Info | Warning | Error.

Inductive Msg : Type :=
| MStart
| MShortfall (requested : Z) (launched : nat)
| MCompleted
| MLaunchError (e : exn)
| MSetVcpus (n : Z)
| MOverrideName (name : string)
| MInstance (ocid_tail : string) (text : string)
| MPostLaunch (ocid : string)
| MPostLaunchDone (node : NodeRef)
| MTemplate (fn : PyVal)
| MDeleted (n : nat).

Inductive Delay := Seconds (n : Z) | RandomSleep (retries : nat).

Inductive Event : Type :=
| EvLog (lvl : Level) (m : Msg)
| EvSleep (d : Delay)
| EvLaunchInstance (d : LaunchInstanceDetails)
| EvGetInstance (ocid : string) (reported : option string)
| EvTerminateInstance (ocid : string)
| EvListVnicAttachments (compartment : string)
| EvGetVnic (vnic : string)
| EvGenerateNodeName (fmt : string)
| EvOpen (fn : string)
| EvDbAdd (n : NodeRef)
| EvDbDelete (n : NodeRef)
| EvDbCommit
| EvCacheGet (name : string)
| EvCacheSet (name : string) (entry : gmap string string)
| EvCacheDelete (name : string)
| EvPreAddHost (name hw sw ip : string)
| EvDeleteNodeCleanup (n : NodeRef)
| EvClearSessionNodes (ns : list NodeRef)
| EvGreenlet (i : nat) (e : Event).

#[global] Instance Nic_eq_dec : EqDecision Nic.
Proof. solve_decision. Defined.
#[global] Instance MetaVal_eq_dec : EqDecision MetaVal.
Proof. solve_decision. Defined.
#[global] Instance LaunchInstanceDetails_eq_dec : EqDecision LaunchInstanceDetails.
Proof. solve_decision. Defined.
#[global] Instance Level_eq_dec : EqDecision Level.
Proof. solve_decision. Defined.
#[global] Instance Msg_eq_dec : EqDecision Msg.
Proof. solve_decision. Defined.
#[global] Instance Delay_eq_dec : EqDecision Delay.
Proof. solve_decision. Defined.
#[global] Instance Event_eq_dec : EqDecision Event.
Proof.
  intros x y. unfold Decision. decide equality; try apply (decide (_ = _)).
Defined.

(** ** The collaborators *)

(** Everything the adapter calls but does not define: the OCI compute and
    network clients, the add-host API, the file system and the
    installer's settings, over a state [Ext] of their own. *)
Record Env := mkEnv {
  Ext : Type;
  launch_instance : LaunchInstanceDetails -> Ext -> Outcome string * Ext;
  get_instance : string -> Ext -> Outcome Instance * Ext;
  terminate_instance : string -> Ext -> Outcome unit * Ext;
  list_vnic_attachments : string -> Ext -> Outcome (list VnicAttachment) * Ext;
  get_vnic : string -> Ext -> Outcome (option Vnic) * Ext;
  generate_node_name : Registry -> string -> string -> Ext -> Outcome string * Ext;
  path_exists : string -> Ext -> bool;
  isfile : string -> Ext -> bool;
  read_file : string -> Ext -> Outcome string;
  readlines : string -> Ext -> Outcome (list string);
  base_adapter_config : Ext -> Outcome (gmap string PyVal);
  kit_config_base : string;
  home_dir : string;
  installer_public_hostname : string;
  installer_public_ipaddress : string;
  private_dns_zone : string;
  admin_port : Z;
  cfm_user : string;
  cfm_password : string;
  add_host_session : string;
  b64encode : string -> string
}.

(** The state a greenlet runs on: the collaborators' state, the shared
    database session, the instance cache (node name to entry) and the two
    adapter-wide fields [__vcpus] and [__installer_ip]. *)
Record World (env : Env) := mkWorld {
  ext : Ext env;
  db : Registry;
  cache : gmap string (gmap string string);
  adapter_vcpus : PyVal;
  adapter_installer_ip : option string
}.
Arguments mkWorld {env}.
Arguments ext {env}.
Arguments db {env}.
Arguments cache {env}.
Arguments adapter_vcpus {env}.
Arguments adapter_installer_ip {env}.

(** ** Greenlets *)

Section Greenlets.
Context {env : Env}.

(** A greenlet that has run up to a [gevent.sleep] (or has not been
    started): finished, blocked for ever, or suspended with the code to
    run when it is switched to again. That code runs from the world it
    is resumed in up to the next suspension, and gives what is left to
    run, the new world and the events emitted. *)
Inductive G (A : Type) : Type :=
| Done (r : Outcome A)
| Hang
| Susp (k : World env -> Ran A)
with Ran (A : Type) : Type :=
| Run (g : G A) (w : World env) (evs : list Event).
Arguments Done {A} r.
Arguments Hang {A}.
Arguments Susp {A} k.
Arguments Run {A} g w evs.

(** Code of a greenlet. *)
Definition GM (A : Type) : Type := World env -> Ran A.

Definition emitted {A} (evs : list Event) (r : Ran A) : Ran A :=
  match r with Run g w evs' => Run g w (evs ++ evs') end.

Fixpoint and_then {A B} (g : G A) (f : Outcome A -> GM B) : GM B :=
  fun w =>
    match g with
    | Done r => f r w
    | Hang => Run Hang w []
    | Susp k =>
        Run (Susp (fun w1 =>
                     match k w1 with
                     | Run g1 w2 evs => emitted evs (and_then g1 f w2)
                     end))
            w []
    end.

(** [and_then] on the result of a run. *)
Definition seq_ran {A B} (r : Ran A) (f : Outcome A -> GM B) : Ran B :=
  match r with Run g w evs => emitted evs (and_then g f w) end.

Definition seq_gm {A B} (m : GM A) (f : Outcome A -> GM B) : GM B :=
  fun w => seq_ran (m w) f.

Definition ret {A} (a : A) : GM A := fun w => Run (Done (Ok a)) w [].
Definition raise {A} (e : exn) : GM A := fun w => Run (Done (Exc e)) w [].

Definition bind {A B} (m : GM A) (f : A -> GM B) : GM B :=
  seq_gm m (fun r => match r with Ok a => f a | Exc e => raise e end).

(** [try: m] / [except Exception as exc: h exc] *)
Definition try_except {A} (m : GM A) (h : exn -> GM A) : GM A :=
  seq_gm m (fun r => match r with Ok a => ret a | Exc e => h e end).

(** [gevent.sleep(d)]: the greenlet is suspended here. *)
Definition sleep (d : Delay) : GM unit :=
  fun w => Run (Susp (fun w' => Run (Done (Ok tt)) w' [])) w [EvSleep d].

Definition hang {A} : GM A := fun w => Run Hang w [].

Definition emit (e : Event) : GM unit := fun w => Run (Done (Ok tt)) w [e].
Definition get_world : GM (World env) := fun w => Run (Done (Ok w)) w [].
Definition put_world (w' : World env) : GM unit :=
  fun _ => Run (Done (Ok tt)) w' [].
Definition lift_outcome {A} (r : Outcome A) : GM A := fun w => Run (Done r) w [].

End Greenlets.

Arguments Done {env A} r.
Arguments Hang {env A}.
Arguments Susp {env A} k.
Arguments Run {env A} g w evs.

Declare Scope gm_scope.
Delimit Scope gm_scope with gm.
Notation "x <- m ;; k" := (bind m (fun x => k))
  (at level 100, m at next level, right associativity) : gm_scope.
Notation "m ;;; k" := (bind m (fun _ => k))
  (at level 100, right associativity) : gm_scope.

(** ** Built-ins used by the adapter *)

Definition outcome_bind {A B} (r : Outcome A) (f : A -> Outcome B) : Outcome B :=
  match r with Ok a => f a | Exc e => Exc e end.

(** [d[k]] *)
Definition getitem (d : gmap string PyVal) (k : string) : Outcome PyVal :=
  match d !! k with
  | Some v => Ok v
  | None => Exc (KeyError k)
  end.

(** [l[-1]] *)
Definition last_item {A} (l : list A) : Outcome A :=
  match last l with
  | Some a => Ok a
  | None => Exc IndexError
  end.

(** [l[0]] *)
Definition first_item {A} (l : list A) : Outcome A :=
  match l with
  | a :: _ => Ok a
  | [] => Exc IndexError
  end.

(** [str(v)], which is also ['%s' % v] and ['{0}'.format(v)]. *)
Definition py_str (v : PyVal) : string :=
  match v with
  | VNone => "None"
  | VBool true => "True"
  | VBool false => "False"
  | VInt n => pretty n
  | VStr s => s
  end.

(** ['%d' % v]: a number is required. *)
Definition format_d (v : PyVal) : Outcome Z :=
  match v with
  | VInt n => Ok n
  | VBool b => Ok (if b then 1 else 0)
  | VNone | VStr _ => Exc TypeError
  end.

(** [os.path.join(a, b)] *)
Definition os_path_join (a b : string) : string :=
  if String.prefix "/" b then b
  else match a with
       | EmptyString => b
       | _ => if String.eqb (substring (String.length a - 1) 1 a) "/"
              then a ++ b else a ++ "/" ++ b
       end.

(** [s[-6:]] *)
Definition last6 (s : string) : string :=
  substring (String.length s - 6) 6 s.

(** A string without ['.']: one label of a host name. *)
Fixpoint dotless (s : string) : bool :=
  match s with
  | EmptyString => true
  | String c s' => negb (Ascii.eqb c ".") && dotless s'
  end.

(** ** [class OciSession] *)

(** [OciSession.config]: the scalar settings, and the value under
    ['metadata']. *)
Record OciSession := mkSession {
  config : gmap string PyVal;
  metadata : MetaVal
}.

Section Session.
Context (env : Env).

(** [OciSession._get_ssh_key]: the contents of [~/.ssh/id_rsa.pub],
    stripped, or [None] when there is no such file. *)
Definition _get_ssh_key (x : Ext env) : Outcome PyVal :=
  let pub_key_path := os_path_join (home_dir env) ".ssh/id_rsa.pub" in
  if isfile env pub_key_path x then
    outcome_bind (read_file env pub_key_path x)
                 (fun s => Ok (VStr (PyStr.strip s)))
  else Ok VNone.

(** The defaults of [OciSession.__init__], ['metadata'] apart. *)
Definition default_config : gmap string PyVal :=
  list_to_map
    [ ("availability_domain", VNone);
      ("compartment_id", VNone);
      ("shape", VStr "VM.Standard1.1");
      ("vcpus", VNone);
      ("subnet_id", VNone);
      ("image_id", VNone);
      ("user_data_script_template",
        VStr (os_path_join (kit_config_base env) "oci_bootstrap.tmpl"));
      ("override_dns_domain", VBool false);
      ("dns_options", VNone);
      ("dns_search", VNone);
      ("dns_nameservers", VNone) ].

(** [OciSession.cores_from_shape]:
    [int(self.config['shape'].split('.')[-1])]. *)
Definition cores_from_shape (cfg : gmap string PyVal) : Outcome Z :=
  outcome_bind (getitem cfg "shape") (fun shape =>
  match shape with
  | VStr s =>
      outcome_bind (last_item (PyStr.split "." s)) (fun seg =>
      match PyStr.int seg with
      | Some n => Ok n
      | None => Exc ValueError
      end)
  | _ => Exc AttributeError
  end).

(** [OciSession.__init__(override_config)] *)
Definition OciSession_init (override_config : gmap string PyVal) (x : Ext env)
  : Outcome OciSession :=
  outcome_bind (_get_ssh_key x) (fun ssh =>
  let cfg := delete "metadata" override_config ∪ default_config in
  let meta :=
    match override_config !! "metadata" with
    | Some v => MetaScalar v
    | None => MetaDict ssh None
    end in
  outcome_bind (getitem cfg "vcpus") (fun vcpus =>
  if truthy vcpus then Ok (mkSession cfg meta)
  else
    outcome_bind (cores_from_shape cfg) (fun cores =>
    Ok (mkSession (<["vcpus" := VInt cores]> cfg) meta)))).

(** [OciSession._validate_config]; the adapter never calls it. *)
Definition _validate_config (s : OciSession) : Outcome unit :=
  let required := ["availability_domain"; "compartment_id"; "subnet_id"; "image_id"] in
  fold_left
    (fun acc key =>
       outcome_bind acc (fun _ =>
       outcome_bind (getitem (config s) key) (fun v =>
       if truthy v then Ok tt
       else Exc (RuntimeError (key ++ " is missing from config")))))
    required (Ok tt).

(** [OciSession.launch_config] *)
Definition launch_config (s : OciSession) : LaunchInstanceDetails :=
  let attr key := default VNone (config s !! key) in
  {| ld_availability_domain := attr "availability_domain";
     ld_compartment_id := attr "compartment_id";
     ld_shape := attr "shape";
     ld_subnet_id := attr "subnet_id";
     ld_image_id := attr "image_id";
     ld_metadata := metadata s;
     ld_display_name := None;
     ld_hostname_label := None |}.

End Session.

(** ** [class Oracleadapter] *)

(** [node_spec]: the launch specification all units of a request share;
    its ['db_session'] is the registry of the world. *)
Record NodeSpec := mkNodeSpec {
  db_hardware_profile : Profile;
  db_software_profile : option Profile;
  configDict : gmap string PyVal
}.

(** [node_dict]: the instance/node mapping of one launch unit. Only its
    ['node'] entry is ever read. *)
Record NodeDict := mkNodeDict { nd_node : option NodeRef }.

Section Adapter.
Context (env : Env).

Local Abbreviation M := (@GM env).
Local Open Scope gm_scope.

(** *** State updates *)

Definition with_ext (w : World env) (x : Ext env) : World env :=
  mkWorld x (db w) (cache w) (adapter_vcpus w) (adapter_installer_ip w).
Definition with_db (w : World env) (r : Registry) : World env :=
  mkWorld (ext w) r (cache w) (adapter_vcpus w) (adapter_installer_ip w).
Definition with_cache (w : World env) (c : gmap string (gmap string string))
  : World env :=
  mkWorld (ext w) (db w) c (adapter_vcpus w) (adapter_installer_ip w).
Definition with_vcpus (w : World env) (v : PyVal) : World env :=
  mkWorld (ext w) (db w) (cache w) v (adapter_installer_ip w).
Definition with_installer_ip (w : World env) (ip : option string) : World env :=
  mkWorld (ext w) (db w) (cache w) (adapter_vcpus w) ip.

(** A call to a collaborator: one event, and its effect on [Ext]. *)
Definition call {A} (ev : Event) (op : Ext env -> Outcome A * Ext env) : M A :=
  fun w => let (r, x) := op (ext w) in Run (Done r) (with_ext w x) [ev].

(** A read of the collaborators' state. *)
Definition peek {A} (op : Ext env -> Outcome A) : M A :=
  fun w => Run (Done (op (ext w))) w [].

Definition log (lvl : Level) (m : Msg) : M unit := emit (EvLog lvl m).

(** [CustomAdapter(logger, {'instance_ocid': ocid}).debug(text)] *)
Definition log_adapter_debug (ocid text : string) : M unit :=
  log Debug (MInstance (last6 ocid) text).

(** *** The registry session *)

(** Modelled from the spec: the registry gateway (the SQLAlchemy session
    of Tortuga, which is not part of this repository). [add] tracks an
    object, [delete] marks a tracked object, [commit] writes the state of
    every tracked object to its row and drops the marked ones. *)
Definition commit_rows (r : Registry) : gmap nat Node :=
  filter (fun kv => kv.1 ∈ attached r ∖ doomed r) (heap r)
  ∪ filter (fun kv => kv.1 ∉ doomed r) (rows r).

Definition registry_new (n : Node) (r : Registry) : NodeRef * Registry :=
  (next_ref r,
   mkRegistry (<[next_ref r := n]> (heap r)) (S (next_ref r))
              (attached r) (doomed r) (rows r)).

Definition registry_update (ref : NodeRef) (f : Node -> Node) (r : Registry)
  : Registry :=
  mkRegistry (alter f ref (heap r)) (next_ref r) (attached r) (doomed r) (rows r).

Definition registry_add (ref : NodeRef) (r : Registry) : Registry :=
  mkRegistry (heap r) (next_ref r) ({[ref]} ∪ attached r) (doomed r) (rows r).

Definition registry_delete (ref : NodeRef) (r : Registry) : Registry :=
  mkRegistry (heap r) (next_ref r) (attached r) ({[ref]} ∪ doomed r) (rows r).

Definition registry_commit (r : Registry) : Registry :=
  mkRegistry (heap r) (next_ref r) (attached r ∖ doomed r) ∅ (commit_rows r).

(** [Node(name=...)]: a new object. *)
Definition Node_new (n : Node) : M NodeRef :=
  fun w => let (ref, r) := registry_new n (db w) in
           Run (Done (Ok ref)) (with_db w r) [].

(** [node.attr = value] *)
Definition setattr (ref : NodeRef) (f : Node -> Node) : M unit :=
  fun w => Run (Done (Ok tt)) (with_db w (registry_update ref f (db w))) [].

(** [node.attr] *)
Definition getattr {A} (ref : NodeRef) (f : Node -> A) : M A :=
  fun w => match heap (db w) !! ref with
           | Some n => Run (Done (Ok (f n))) w []
           | None => Run (Done (Exc AttributeError)) w []
           end.

Definition db_session_add (ref : NodeRef) : M unit :=
  fun w => Run (Done (Ok tt)) (with_db w (registry_add ref (db w))) [EvDbAdd ref].
Definition db_session_delete (ref : NodeRef) : M unit :=
  fun w => Run (Done (Ok tt)) (with_db w (registry_delete ref (db w))) [EvDbDelete ref].
Definition db_session_commit : M unit :=
  fun w => Run (Done (Ok tt)) (with_db w (registry_commit (db w))) [EvDbCommit].

(** *** The instance cache *)

(** Modelled from the spec: the instance cache of the base class
    [ResourceAdapter] (not part of this repository): an associative store
    from node name to entry; a lookup of an absent name raises
    [ResourceNotFound]. *)
Definition instanceCacheGet (name : string) : M (gmap string string) :=
  fun w => match cache w !! name with
           | Some e => Run (Done (Ok e)) w [EvCacheGet name]
           | None => Run (Done (Exc ResourceNotFound)) w [EvCacheGet name]
           end.
Definition instanceCacheSet (name : string) (entry : gmap string string) : M unit :=
  fun w => Run (Done (Ok tt)) (with_cache w (<[name := entry]> (cache w)))
               [EvCacheSet name entry].
Definition instanceCacheDelete (name : string) : M unit :=
  fun w => Run (Done (Ok tt)) (with_cache w (delete name (cache w)))
               [EvCacheDelete name].

(** *** The OCI clients and the host *)

Definition client_launch_instance (d : LaunchInstanceDetails) : M string :=
  call (EvLaunchInstance d) (launch_instance env d).
(** The event of [get_instance] records the lifecycle state reported,
    [None] when the call raised. *)
Definition reported (r : Outcome Instance) : option string :=
  match r with
  | Ok i => Some (lifecycle_state i)
  | Exc _ => None
  end.

Definition client_get_instance (ocid : string) : M Instance :=
  fun w => let (r, x) := get_instance env ocid (ext w) in
           Run (Done r) (with_ext w x) [EvGetInstance ocid (reported r)].
Definition client_terminate_instance (ocid : string) : M unit :=
  call (EvTerminateInstance ocid) (terminate_instance env ocid).
Definition client_list_vnic_attachments (compartment : string)
  : M (list VnicAttachment) :=
  call (EvListVnicAttachments compartment) (list_vnic_attachments env compartment).
Definition net_client_get_vnic (vnic : string) : M (option Vnic) :=
  call (EvGetVnic vnic) (get_vnic env vnic).

Definition _pre_add_host (name hw sw ip : string) : M unit :=
  emit (EvPreAddHost name hw sw ip).
Definition deleteNodeCleanup (node : NodeRef) : M unit :=
  emit (EvDeleteNodeCleanup node).
Definition clear_session_nodes (nodes : list NodeRef) : M unit :=
  emit (EvClearSessionNodes nodes).

(** *** User data *)

(** [Oracleadapter.__get_installer_ip(hardwareprofile=None)] *)
Definition __get_installer_ip : M string :=
  w <- get_world ;;
  match adapter_installer_ip w with
  | Some ip => ret ip
  | None =>
      put_world (with_installer_ip w (Some (installer_public_ipaddress env))) ;;;
      ret (installer_public_ipaddress env)
  end.

(** [Oracleadapter.__get_encoded_list(items)] *)
Definition __get_encoded_list (items : PyVal) : Outcome string :=
  if truthy items then
    match items with
    | VStr s =>
        Ok ("[" ++ PyStr.join ", "
                     (map (fun c => "'" ++ String c EmptyString ++ "'")
                          (list_ascii_of_string s)) ++ "]")
    | _ => Exc TypeError
    end
  else Ok "[]".

(** The [settings_dict] of [__get_common_user_data_settings]. *)
Record Settings := mkSettings {
  installerHostName : string;
  installerIp : string;
  adminport : Z;
  cfmuser : string;
  cfmpassword : string;
  override_dns_domain : string;
  dns_options : PyVal;
  dns_search : PyVal;
  dns_nameservers : string
}.

Definition quoted_or_none (v : PyVal) : PyVal :=
  if truthy v then VStr ("'" ++ py_str v ++ "'") else VNone.

(** [Oracleadapter.__get_common_user_data_settings(config, node=None)] *)
Definition __get_common_user_data_settings (cfg : gmap string PyVal) : M Settings :=
  installer_ip <- __get_installer_ip ;;
  override <- lift_outcome (getitem cfg "override_dns_domain") ;;
  options <- lift_outcome (getitem cfg "dns_options") ;;
  search <- lift_outcome (getitem cfg "dns_search") ;;
  nameservers <- lift_outcome (getitem cfg "dns_nameservers") ;;
  encoded <- lift_outcome (__get_encoded_list nameservers) ;;
  ret {| installerHostName := installer_public_hostname env;
         installerIp := if String.eqb installer_ip "" then "None"
                        else "'" ++ installer_ip ++ "'";
         adminport := admin_port env;
         cfmuser := cfm_user env;
         cfmpassword := cfm_password env;
         override_dns_domain := py_str override;
         dns_options := quoted_or_none options;
         dns_search := quoted_or_none search;
         dns_nameservers := encoded |}.

Definition nl : string := String (ascii_of_nat 10) EmptyString.

(** [Oracleadapter.__get_common_user_data_content(settings_dict)] *)
Definition __get_common_user_data_content (s : Settings) : string :=
  "installerHostName = '" ++ installerHostName s ++ "'" ++ nl ++
  "installerIpAddress = " ++ installerIp s ++ nl ++
  "port = " ++ pretty (adminport s) ++ nl ++
  "cfmUser = '" ++ cfmuser s ++ "'" ++ nl ++
  "cfmPassword = '" ++ cfmpassword s ++ "'" ++ nl ++
  nl ++
  "# DNS resolution settings" ++ nl ++
  "override_dns_domain = " ++ override_dns_domain s ++ nl ++
  "dns_options = " ++ py_str (dns_options s) ++ nl ++
  "dns_search = " ++ py_str (dns_search s) ++ nl ++
  "dns_nameservers = " ++ dns_nameservers s ++ nl.

(** [open(fn).readlines()]; a name that is not a string is a
    [TypeError]. *)
Definition open_readlines (fn : PyVal) : M (list string) :=
  match fn with
  | VStr f => call (EvOpen f) (fun x => (readlines env f x, x))
  | _ => raise TypeError
  end.

(** [Oracleadapter.__get_user_data(config, node=None)]; without a node
    the multipart branch is not taken. *)
Definition __get_user_data (cfg : gmap string PyVal) : M string :=
  template <- lift_outcome (getitem cfg "user_data_script_template") ;;
  log Info (MTemplate template) ;;;
  settings_dict <- __get_common_user_data_settings cfg ;;
  lines <- open_readlines template ;;
  let result :=
    fold_left
      (fun result line =>
         if String.prefix "### SETTINGS" line
         then result ++ __get_common_user_data_content settings_dict
         else result ++ line)
      lines "" in
  ret (b64encode env result).

(** *** The instance-state waiter *)

(** [Oracleadapter._wait_for_instance_state(instance_ocid, state,
    callback)]. The loop of the source has no bound; [fuel] is the
    number of polls after which the model gives up and the greenlet is
    blocked for ever. [nRetries] is the loop counter, 0 at the call. *)
Fixpoint _wait_for_instance_state (fuel : nat) (instance_ocid state : string)
    (callback : option (string -> string -> M unit)) (nRetries : nat) : M unit :=
  match fuel with
  | O => hang
  | S fuel' =>
      instance <- client_get_instance instance_ocid ;;
      if String.eqb (lifecycle_state instance) state then ret tt
      else
        match callback with
        | Some cb => cb instance_ocid (lifecycle_state instance)
        | None => ret tt
        end ;;;
        sleep (RandomSleep nRetries) ;;;
        _wait_for_instance_state fuel' instance_ocid state callback (S nRetries)
  end.

(** *** Launch *)

(** [Oracleadapter.__initialize_node(name, hw, sw)] *)
Definition __initialize_node (name : string) (hw : Profile) (sw : option Profile)
  : M NodeRef :=
  Node_new {| node_name := name;
              node_state := None;
              softwareprofile := sw;
              hardwareprofile := hw;
              isIdle := false;
              addHostSession := add_host_session env;
              node_nics := [] |}.

Definition set_state (st : string) (n : Node) : Node :=
  mkNode (node_name n) (Some st) (softwareprofile n) (hardwareprofile n)
         (isIdle n) (addHostSession n) (node_nics n).

Definition set_nics (nics : list Nic) (n : Node) : Node :=
  mkNode (node_name n) (node_state n) (softwareprofile n) (hardwareprofile n)
         (isIdle n) (addHostSession n) nics.

(** [a, b = l]: exactly two items. *)
Definition unpack2 {A} (l : list A) : Outcome (A * A) :=
  match l with
  | [a; b] => Ok (a, b)
  | _ => Exc ValueError
  end.

(** [Oracleadapter.__oci_pre_launch_instance(node_spec)] *)
Definition __oci_pre_launch_instance (node_spec : NodeSpec) : M NodeDict :=
  if String.eqb (nameFormat (db_hardware_profile node_spec)) "*"
  then ret (mkNodeDict None)
  else
    w <- get_world ;;
    fqdn <- call (EvGenerateNodeName (nameFormat (db_hardware_profile node_spec)))
                 (generate_node_name env (db w)
                    (nameFormat (db_hardware_profile node_spec))
                    (private_dns_zone env)) ;;
    hostname_ <- lift_outcome (unpack2 (PyStr.split1 "." fqdn)) ;;
    _domain <- lift_outcome
                 (unpack2 (PyStr.split1 "." (installer_public_hostname env))) ;;
    let name := hostname_.1 ++ "." ++ _domain.2 in
    node <- __initialize_node name (db_hardware_profile node_spec)
                              (db_software_profile node_spec) ;;
    setattr node (set_state "Launching") ;;;
    db_session_add node ;;;
    db_session_commit ;;;
    ret (mkNodeDict (Some node)).

(** [session.config['metadata']['user_data'] = user_data] *)
Definition set_user_data (session : OciSession) (user_data : string)
  : Outcome OciSession :=
  match metadata session with
  | MetaDict ssh _ => Ok (mkSession (config session) (MetaDict ssh (Some user_data)))
  | MetaScalar _ => Exc TypeError
  end.

(** The [logging_callback] of [_launch_instance]. *)
Definition logging_callback (instance state : string) : M unit :=
  log_adapter_debug instance ("state: " ++ state ++ "; waiting...").

(** [Oracleadapter._launch_instance(node_dict, node_spec)] *)
Definition _launch_instance (fuel : nat) (node_dict : NodeDict)
    (node_spec : NodeSpec) : M Instance :=
  session <- peek (OciSession_init env (configDict node_spec)) ;;
  user_data <- __get_user_data (config session) ;;
  session <- lift_outcome (set_user_data session user_data) ;;
  let launch_config := launch_config session in
  vcpus <- lift_outcome (getitem (config session) "vcpus") ;;
  vcpus <- (if truthy vcpus then ret vcpus
            else cores <- lift_outcome (cores_from_shape (config session)) ;;
                 ret (VInt cores)) ;;
  w <- get_world ;;
  put_world (with_vcpus w vcpus) ;;;
  n <- lift_outcome (format_d vcpus) ;;
  log Debug (MSetVcpus n) ;;;
  launch_config <-
    match nd_node node_dict with
    | Some node =>
        name <- getattr node node_name ;;
        log Debug (MOverrideName name) ;;;
        label <- lift_outcome (first_item (PyStr.split1 "." name)) ;;
        ret (mkLaunch (ld_availability_domain launch_config)
                      (ld_compartment_id launch_config)
                      (ld_shape launch_config)
                      (ld_subnet_id launch_config)
                      (ld_image_id launch_config)
                      (ld_metadata launch_config)
                      (Some name) (Some label))
    | None => ret launch_config
    end ;;
  instance_ocid <- client_launch_instance launch_config ;;
  log_adapter_debug instance_ocid "launched" ;;;
  _wait_for_instance_state fuel instance_ocid "RUNNING" (Some logging_callback) 0 ;;;
  log_adapter_debug instance_ocid "state: RUNNING" ;;;
  client_get_instance instance_ocid.

(** *** Post-launch *)

(** [Oracleadapter.__get_vnics_for_instance(instance_id, compartment_id)] *)
Definition __get_vnics_for_instance (instance_id compartment_id : string)
  : M (list VnicAttachment) :=
  vnics <- client_list_vnic_attachments compartment_id ;;
  ret (List.filter
         (fun vnic => String.eqb (va_instance_id vnic) instance_id
                      && String.eqb (va_lifecycle_state vnic) "ATTACHED")
         vnics).

(** The loop of [__get_instance_private_ips] over the attached VNICs. *)
Fixpoint private_ips_of (vnics : list VnicAttachment) : M (list string) :=
  match vnics with
  | [] => ret []
  | vnic :: rest =>
      attached_vnic <- net_client_get_vnic (va_vnic_id vnic) ;;
      ips <- private_ips_of rest ;;
      ret match attached_vnic with
          | Some v => private_ip v :: ips
          | None => ips
          end
  end.

(** [Oracleadapter.__get_instance_private_ips(instance_id, compartment_id)] *)
Definition __get_instance_private_ips (instance_id compartment_id : string)
  : M (list string) :=
  vnics <- __get_vnics_for_instance instance_id compartment_id ;;
  private_ips_of vnics.

(** [x.split('.')[-1]] on a configuration value. *)
Definition last_segment (v : PyVal) : Outcome string :=
  match v with
  | VStr s => last_item (PyStr.split "." s)
  | _ => Exc AttributeError
  end.

(** [p.name] on a profile that may be [None]. *)
Definition profile_name_of (p : option Profile) : Outcome string :=
  match p with
  | Some p => Ok (profile_name p)
  | None => Exc AttributeError
  end.

(** [Oracleadapter._instance_post_launch(instance, node_dict, node_spec)] *)
Definition _instance_post_launch (instance : Instance) (node_dict : NodeDict)
    (node_spec : NodeSpec) : M NodeRef :=
  log Debug (MPostLaunch (instance_id instance)) ;;;
  node <- match nd_node node_dict with
          | None =>
              let domain := tail (PyStr.split "." (installer_public_hostname env)) in
              let fqdn := PyStr.join "." (display_name instance :: domain) in
              node <- __initialize_node fqdn (db_hardware_profile node_spec)
                                        (db_software_profile node_spec) ;;
              db_session_add node ;;;
              ret node
          | Some node => ret node
          end ;;
  setattr node (set_state "Provisioned") ;;;
  ips <- __get_instance_private_ips (instance_id instance)
                                    (compartment_id instance) ;;
  setattr node (set_nics (map (fun ip => mkNic ip true) ips)) ;;;
  db_session_commit ;;;
  name <- getattr node node_name ;;
  shape <- lift_outcome (getitem (configDict node_spec) "shape") ;;
  vcpus <- lift_outcome (last_segment shape) ;;
  instanceCacheSet name
    (list_to_map [ ("id", instance_id instance);
                   ("compartment_id", instance_id instance);
                   ("shape", py_str shape);
                   ("vcpus", vcpus) ]) ;;;
  nics <- getattr node node_nics ;;
  boot_nic <- lift_outcome (first_item (List.filter nic_boot nics)) ;;
  hw <- getattr node (fun n => profile_name (hardwareprofile n)) ;;
  sw <- getattr node softwareprofile ;;
  sw <- lift_outcome (profile_name_of sw) ;;
  _pre_add_host name hw sw (nic_ip boot_nic) ;;;
  log Debug (MPostLaunchDone node) ;;;
  ret node.

(** *** One launch unit *)

(** [Oracleadapter.__oci_add_node(node_spec)]: the node, or [None] when
    the launch failed. *)
Definition __oci_add_node (fuel : nat) (node_spec : NodeSpec) : M (option NodeRef) :=
  node_dict <- __oci_pre_launch_instance node_spec ;;
  launched <-
    try_except
      (instance <- _launch_instance fuel node_dict node_spec ;;
       ret (Some instance))
      (fun exc =>
         match nd_node node_dict with
         | Some node => db_session_delete node ;;; db_session_commit
         | None => ret tt
         end ;;;
         log Error (MLaunchError exc) ;;;
         ret None) ;;
  match launched with
  | None => ret None
  | Some instance =>
      node <- _instance_post_launch instance node_dict node_spec ;;
      ret (Some node)
  end.

(** *** The greenlets of one request *)

Definition is_done {A} (g : G (env:=env) A) : bool :=
  match g with
  | Done _ => true
  | _ => false
  end.

(** [gevent.spawn(f, ...)]: a greenlet that starts when it is first
    switched to. *)
Definition spawn {A} (f : M A) : G A := Susp f.

(** The hub. [sched] lists the greenlets (by index in spawn order) in
    the order they are switched to; an entry that names a greenlet that
    is not suspended is skipped. [fin] lists the finished greenlets in
    the order they finished. *)
Fixpoint run_greenlets {A} (sched : list nat) (pool : list (G A))
    (fin : list nat) (w : World env)
  : list (G A) * list nat * World env * list Event :=
  match sched with
  | [] => (pool, fin, w, [])
  | i :: sched' =>
      match pool !! i with
      | Some (Susp k) =>
          match k w with
          | Run g w' evs =>
              let '(pool', fin', w'', evs') :=
                run_greenlets sched' (<[i := g]> pool)
                              (if is_done g then (fin ++ [i])%list else fin) w' in
              (pool', fin', w'', (map (EvGreenlet i) evs ++ evs')%list)
          end
      | _ => run_greenlets sched' pool fin w
      end
  end.

(** [greenlet.value]: [None] unless the greenlet returned a value. *)
Definition value {A} (g : G (env:=env) (option A)) : option A :=
  match g with
  | Done (Ok v) => v
  | _ => None
  end.

(** [[result.value for result in gevent.iwait(greenlets) if result.value]]
    once every greenlet has finished. *)
Definition iwait_values {A} (pool : list (G (option A))) (fin : list nat)
  : list A :=
  omap (fun i => pool !! i ≫= value) fin.

(** [Oracleadapter.__oci_add_nodes(count, node_spec)]: the caller is
    blocked in [iwait] until every greenlet has finished. *)
Definition __oci_add_nodes (fuel : nat) (sched : list nat) (count : Z)
    (node_spec : NodeSpec) : M (list NodeRef) :=
  fun w =>
    let greenlets := replicate (Z.to_nat count) (spawn (__oci_add_node fuel node_spec)) in
    let '(pool, fin, w', evs) := run_greenlets sched greenlets [] w in
    if forallb is_done pool
    then Run (Done (Ok (iwait_values pool fin))) w' evs
    else Run Hang w' evs.

(** [Oracleadapter.getResourceAdapterConfig()] *)
Definition getResourceAdapterConfig : M (gmap string PyVal) :=
  configDict <- peek (base_adapter_config env) ;;
  match configDict !! "user_data_script_template" with
  | Some (VStr template) =>
      let fn := if String.prefix "/" template then template
                else os_path_join (kit_config_base env) template in
      w <- get_world ;;
      if path_exists env fn (ext w)
      then ret (<["user_data_script_template" := VStr fn]> configDict)
      else raise (ConfigurationError fn)
  | Some _ => raise AttributeError
  | None => ret configDict
  end.

(** [Oracleadapter.__add_nodes(add_nodes_request, db_session,
    db_hardware_profile, db_software_profile)] *)
Definition __add_nodes (fuel : nat) (sched : list nat) (count : Z)
    (db_hardware_profile : Profile) (db_software_profile : option Profile)
  : M (list NodeRef) :=
  configDict <- getResourceAdapterConfig ;;
  __oci_add_nodes fuel sched count
    (mkNodeSpec db_hardware_profile db_software_profile configDict).

(** [Oracleadapter.start(addNodesRequest, dbSession, dbHardwareProfile,
    dbSoftwareProfile)], for a request of [count] nodes. *)
Definition start (fuel : nat) (sched : list nat) (count : Z)
    (dbHardwareProfile : Profile) (dbSoftwareProfile : option Profile)
  : M (list NodeRef) :=
  log Debug MStart ;;;
  nodes <- __add_nodes fuel sched count dbHardwareProfile dbSoftwareProfile ;;
  (if Z.of_nat (length nodes) <? count
   then log Warning (MShortfall count (length nodes))
   else ret tt) ;;;
  log Debug MCompleted ;;;
  clear_session_nodes nodes ;;;
  ret nodes.

(** *** Decommission *)

(** [Oracleadapter._delete_node(node)] *)
Definition _delete_node (fuel : nat) (node : NodeRef) : M unit :=
  try_except
    (name <- getattr node node_name ;;
     instance_cache <- instanceCacheGet name ;;
     ocid <- lift_outcome (match instance_cache !! "id" with
                           | Some v => Ok v
                           | None => Exc (KeyError "id")
                           end) ;;
     instance <- client_get_instance ocid ;;
     log_adapter_debug ocid "Terminating..." ;;;
     client_terminate_instance (instance_id instance) ;;;
     sleep (Seconds 3) ;;;
     _wait_for_instance_state fuel ocid "TERMINATED" None 0 ;;;
     name <- getattr node node_name ;;
     instanceCacheDelete name)
    (fun exc => match exc with
                | ResourceNotFound => ret tt
                | _ => raise exc
                end) ;;;
  deleteNodeCleanup node.

(** *** Running one greenlet *)

(** Run a suspended greenlet to its end: at each suspension the other
    greenlets change the world by the next function of [others]. The
    result is still suspended if [others] is too short. *)
Fixpoint resume {A} (others : list (World env -> World env)) (r : Ran A) : Ran A :=
  match r with
  | Run (Susp k) w evs =>
      match others with
      | o :: others' => resume others' (emitted evs (k (o w)))
      | [] => r
      end
  | _ => r
  end.

(** *** Runs of the waiter *)

(** The provider reports the lifecycle states [states], none of them
    [target], and then [target], at the successive polls of a greenlet
    that waits for [target] among [others]; [cw] is the effect of the
    progress callback on the world. *)
Fixpoint reports (ocid target : string)
    (cw : string -> string -> World env -> World env)
    (states : list string) (others : list (World env -> World env))
    (w : World env) : Prop :=
  match states with
  | [] =>
      exists i x, get_instance env ocid (ext w) = (Ok i, x)
                  /\ lifecycle_state i = target
  | s :: states' =>
      exists i x, get_instance env ocid (ext w) = (Ok i, x)
                  /\ lifecycle_state i = s /\ s <> target
                  /\ match others with
                     | o :: others' =>
                         reports ocid target cw states' others'
                                 (o (cw ocid s (with_ext w x)))
                     | [] => False
                     end
  end.

(** What a waiter emits on such a run: for each state that is not the
    target a poll, the events [cev] of the callback, and a sleep of
    random length for the retry count; then the poll that reports the
    target. *)
Fixpoint waiter_events (ocid target : string)
    (cev : string -> string -> list Event) (nRetries : nat)
    (states : list string) : list Event :=
  match states with
  | [] => [ EvGetInstance ocid (Some target) ]
  | s :: states' =>
      (EvGetInstance ocid (Some s) :: cev ocid s
         ++ [ EvSleep (RandomSleep nRetries) ])
      ++ waiter_events ocid target cev (S nRetries) states'
  end%list.

(** The same, but the poll after [states] raises [e]. *)
Fixpoint reports_error (ocid target : string)
    (cw : string -> string -> World env -> World env)
    (states : list string) (others : list (World env -> World env))
    (e : exn) (w : World env) : Prop :=
  match states with
  | [] => exists x, get_instance env ocid (ext w) = (Exc e, x)
  | s :: states' =>
      exists i x, get_instance env ocid (ext w) = (Ok i, x)
                  /\ lifecycle_state i = s /\ s <> target
                  /\ match others with
                     | o :: others' =>
                         reports_error ocid target cw states' others' e
                                       (o (cw ocid s (with_ext w x)))
                     | [] => False
                     end
  end.

(** What the waiter emits on such a run: it ends with the poll that
    raised. *)
Fixpoint waiter_error_events (ocid : string)
    (cev : string -> string -> list Event) (nRetries : nat)
    (states : list string) : list Event :=
  match states with
  | [] => [ EvGetInstance ocid None ]
  | s :: states' =>
      (EvGetInstance ocid (Some s) :: cev ocid s
         ++ [ EvSleep (RandomSleep nRetries) ])
      ++ waiter_error_events ocid cev (S nRetries) states'
  end%list.

(** The call of the progress callback, when there is one. *)
Definition call_back (callback : option (string -> string -> M unit))
    (ocid state : string) : M unit :=
  match callback with
  | Some cb => cb ocid state
  | None => ret tt
  end.

(** *** Further methods of the adapter *)

(** [Oracleadapter.get_node_vcpus(name)] *)
Definition get_node_vcpus (name : string) : M PyVal :=
  instance_cache <- instanceCacheGet name ;;
  match instance_cache !! "vcpus" with
  | Some v =>
      match PyStr.int v with
      | Some n => ret (VInt n)
      | None => raise ValueError
      end
  | None => w <- get_world ;; ret (adapter_vcpus w)
  end.

(** The loop of [__get_instance_public_ips] over the attached VNICs. *)
Fixpoint public_ips_of (vnics : list VnicAttachment) : M (list string) :=
  match vnics with
  | [] => ret []
  | vnic :: rest =>
      attached_vnic <- net_client_get_vnic (va_vnic_id vnic) ;;
      ips <- public_ips_of rest ;;
      ret match attached_vnic with
          | Some v => public_ip v :: ips
          | None => ips
          end
  end.

(** [Oracleadapter.__get_instance_public_ips(instance_id, compartment_id)] *)
Definition __get_instance_public_ips (instance_id compartment_id : string)
  : M (list string) :=
  vnics <- __get_vnics_for_instance instance_id compartment_id ;;
  public_ips_of vnics.

(** [Oracleadapter.__get_installer_ip(hardwareprofile)], for any
    hardware profile; [__get_installer_ip] above is the call without. *)
Definition __get_installer_ip_of (hardwareprofile : option Profile) : M string :=
  w <- get_world ;;
  match adapter_installer_ip w with
  | Some ip => ret ip
  | None =>
      let ip :=
        match hardwareprofile with
        | Some hp =>
            match profile_nics hp with
            | nic :: _ => nic_ip nic
            | [] => installer_public_ipaddress env
            end
        | None => installer_public_ipaddress env
        end in
      put_world (with_installer_ip w (Some ip)) ;;;
      ret ip
  end.

(** [CustomAdapter.process(msg, kwargs)]: the text logged for an
    instance. *)
Definition process (instance_ocid msg : string) : string :=
  "Instance OCID [..." ++ last6 instance_ocid ++ "]: " ++ msg.

(** *** Vocabulary of the properties *)

(** The OCI clients raise the exceptions of their SDK (a [ServiceError],
    of status 404 for an instance the provider does not know), never
    Tortuga's [ResourceNotFound]. *)
Definition oci_raises (e : exn) : Prop := e <> ResourceNotFound.

(** The others leave the object of a node alone. *)
Definition untouched (node : NodeRef) (o : World env -> World env) : Prop :=
  forall w, heap (db (o w)) !! node = heap (db w) !! node.

(** The rollback of a unit, as the handler of [__oci_add_node] runs it. *)
Definition rolled_back (p : NodeRef) (w : World env) : World env :=
  with_db w (registry_commit (registry_delete p (db w))).

(** The handler of [__oci_add_node], for a unit with node dictionary
    [nd]: the world it leaves and the events it emits. *)
Definition handled (nd : NodeDict) (w : World env) : World env :=
  match nd_node nd with
  | Some p => rolled_back p w
  | None => w
  end.

Definition handler_events (nd : NodeDict) (e : exn) : list Event :=
  match nd_node nd with
  | Some p => [ EvDbDelete p; EvDbCommit; EvLog Error (MLaunchError e) ]
  | None => [ EvLog Error (MLaunchError e) ]
  end.

(** [fin] lists the finished greenlets of [pool], each once. *)
Definition fin_ok {A} (pool : list (G (env:=env) A)) (fin : list nat) : Prop :=
  NoDup fin
  /\ forall i, i ∈ fin <-> exists g, pool !! i = Some g /\ is_done g = true.

(** A record of the registry with nothing pending: it is not marked for
    deletion and, if the session tracks it, its row is its object. *)
Definition clean (q : NodeRef) (r : Registry) : Prop :=
  (q ∉ doomed r) /\ (q ∈ attached r -> rows r !! q = heap r !! q).

(** *** Vocabulary of the request-level invariant *)

(** What a greenlet does, segment by segment (a segment is what runs
    between two switches). [Seg w w'] relates the worlds at the start and
    at the end of each segment after which the greenlet is suspended or
    blocked, [Fin w r w'] those of the segment in which it finishes with
    the result [r]. *)
Fixpoint runs {A} (Seg : World env -> World env -> Prop)
    (Fin : World env -> Outcome A -> World env -> Prop) (g : G A) {struct g}
  : Prop :=
  match g with
  | Susp k =>
      forall w, match k w with
                | Run g' w' _ =>
                    match g' with
                    | Done r => Fin w r w'
                    | Hang => Seg w w'
                    | Susp _ => Seg w w' /\ runs Seg Fin g'
                    end
                end
  | _ => True
  end.

(** The same for a run that starts in [w0], and for code. *)
Definition ran_runs {A} (Seg : World env -> World env -> Prop)
    (Fin : World env -> Outcome A -> World env -> Prop)
    (w0 : World env) (r : Ran A) : Prop :=
  match r with
  | Run g w' _ =>
      match g with
      | Done r => Fin w0 r w'
      | Hang => Seg w0 w'
      | Susp _ => Seg w0 w' /\ runs Seg Fin g
      end
  end.

Definition gm_runs {A} (Seg : World env -> World env -> Prop)
    (Fin : World env -> Outcome A -> World env -> Prop) (m : M A) : Prop :=
  forall w, ran_runs Seg Fin w (m w).

(** A segment that leaves the registry and the cache alone, and code
    all of whose segments do. *)
Definition quiet_step (w w' : World env) : Prop :=
  db w' = db w /\ cache w' = cache w.

Definition quiet {A} (m : M A) : Prop :=
  gm_runs quiet_step (fun w (_ : Outcome A) w' => quiet_step w w') m.

(** The records of the others: a segment of the unit that owns [own]
    (if any) leaves the object of every other record that exists at its
    start, whether the session tracks it and, if it has nothing pending,
    its row. *)
Definition others_kept (own : option NodeRef) (w w' : World env) : Prop :=
  forall q : nat,
    (q < next_ref (db w))%nat -> Some q <> own ->
    heap (db w') !! q = heap (db w) !! q
    /\ (q ∈ attached (db w') <-> q ∈ attached (db w))
    /\ (clean q (db w) -> rows (db w') !! q = rows (db w) !! q).

Definition cache_kept (w w' : World env) : Prop :=
  forall name, is_Some (cache w !! name) -> is_Some (cache w' !! name).

(** A node as a unit that returns it leaves it: committed as
    Provisioned, with an interface and a cache entry. *)
Definition node_provisioned (node : NodeRef) (w : World env) : Prop :=
  (node < next_ref (db w))%nat
  /\ exists n,
       heap (db w) !! node = Some n
       /\ rows (db w) !! node = Some n
       /\ node ∈ attached (db w)
       /\ node_state n = Some "Provisioned"
       /\ node_nics n <> []
       /\ is_Some (cache w !! node_name n).

(** Between two segments nothing is marked for deletion, and the
    placeholder of a unit that has one is an object the session
    tracks. *)
Definition owned (own : option NodeRef) (w : World env) : Prop :=
  doomed (db w) = ∅
  /\ match own with
     | Some p => (p < next_ref (db w))%nat
                 /\ is_Some (heap (db w) !! p) /\ p ∈ attached (db w)
     | None => True
     end.

(** The last segment of a unit. *)
Definition unit_end (own : option NodeRef) (w : World env)
    (r : Outcome (option NodeRef)) (w' : World env) : Prop :=
  owned own w ->
  doomed (db w') = ∅
  /\ (next_ref (db w) <= next_ref (db w'))%nat
  /\ others_kept own w w'
  /\ cache_kept w w'
  /\ forall node, r = Ok (Some node) ->
       (own = Some node \/ (own = None /\ node = next_ref (db w)))
       /\ node_provisioned node w'.

(** A unit of the pool, with the record it owns, in the world [w]: not
    started, suspended in its launch step, or finished. *)
Definition unit_status (fuel : nat) (node_spec : NodeSpec)
    (g : G (option NodeRef)) (own : option NodeRef) (w : World env) : Prop :=
  match own with
  | Some p => (p < next_ref (db w))%nat
  | None => True
  end
  /\ match g with
     | Done (Ok (Some node)) => own = Some node /\ node_provisioned node w
     | Done _ | Hang => True
     | Susp _ =>
         (g = spawn (__oci_add_node fuel node_spec) /\ own = None)
         \/ (runs quiet_step (unit_end own) g /\ owned own w)
     end.

(** One segment of a unit that owns [own] at its start in [w] and
    [own'] at its end in [w'], where [g'] is left to run: a unit comes
    to own the record it creates. *)
Definition unit_step (fuel : nat) (node_spec : NodeSpec)
    (own : option NodeRef) (w : World env) (g' : G (option NodeRef))
    (own' : option NodeRef) (w' : World env) : Prop :=
  (own' = own \/ (own = None /\ own' = Some (next_ref (db w))))
  /\ doomed (db w') = ∅
  /\ (next_ref (db w) <= next_ref (db w'))%nat
  /\ others_kept own' w w'
  /\ cache_kept w w'
  /\ unit_status fuel node_spec g' own' w'.

(** The pool of a request: every unit is as above, and no two units own
    the same record. *)
Definition pool_inv (fuel : nat) (node_spec : NodeSpec)
    (pool : list (G (option NodeRef))) (owns : list (option NodeRef))
    (w : World env) : Prop :=
  doomed (db w) = ∅
  /\ length owns = length pool
  /\ (forall i g own, pool !! i = Some g -> owns !! i = Some own ->
       unit_status fuel node_spec g own w)
  /\ (forall i j (p : NodeRef),
       owns !! i = Some (Some p) -> owns !! j = Some (Some p) -> i = j).

End Adapter.

(** ** A simulated installation *)

(** A concrete [Env], used to run the adapter on examples: the provider
    answers from scripts, the file system is a list of paths. *)
Module Sim.

Record SimExt := mkSimExt {
  (* results of the successive [launch_instance] calls *)
  launches : list (Outcome string);
  (* per instance, the results of the successive [get_instance] calls *)
  reports : list (string * list (Outcome Instance));
  (* the number of names generated so far *)
  names : nat
}.

Fixpoint pop_report (ocid : string) (l : list (string * list (Outcome Instance)))
  : Outcome Instance * list (string * list (Outcome Instance)) :=
  match l with
  | [] => (Exc (ServiceError 404), [])
  | (o, rs) :: l' =>
      if String.eqb o ocid then
        match rs with
        | r :: rs' => (r, (o, rs') :: l')
        | [] => (Exc (ServiceError 404), l)
        end
      else let (r, l'') := pop_report ocid l' in (r, (o, rs) :: l'')
  end.

Definition inst (ocid state : string) : Outcome Instance :=
  Ok (mkInstance ocid state ("inst-" ++ ocid) "compartment-1").

(** The installation: [cfg] is the adapter configuration, [files] the
    existing paths, [attachments] and [vnics] what the provider lists,
    [terminate] the answer to a terminate request. *)
Definition env (cfg : Outcome (gmap string PyVal)) (files : list string)
    (attachments : list VnicAttachment) (vnics : list (string * Vnic))
    (terminate : string -> Outcome unit) : Env :=
  {| Ext := SimExt;
     launch_instance := fun _ x =>
       match launches x with
       | r :: rs => (r, mkSimExt rs (reports x) (names x))
       | [] => (Exc (ServiceError 500), x)
       end;
     get_instance := fun ocid x =>
       let (r, l) := pop_report ocid (reports x) in
       (r, mkSimExt (launches x) l (names x));
     terminate_instance := fun ocid x => (terminate ocid, x);
     list_vnic_attachments := fun _ x => (Ok attachments, x);
     get_vnic := fun v x =>
       (Ok (snd <$> List.find (fun kv => String.eqb (fst kv) v) vnics), x);
     generate_node_name := fun _ _ zone x =>
       (Ok ("compute-" ++ pretty (names x) ++ "." ++ zone),
        mkSimExt (launches x) (reports x) (S (names x)));
     path_exists := fun fn _ => bool_decide (fn ∈ files);
     isfile := fun fn _ => bool_decide (fn ∈ files);
     read_file := fun fn _ => if bool_decide (fn ∈ files) then Ok "ssh-rsa KEY"
                              else Exc OSError;
     readlines := fun fn _ =>
       if bool_decide (fn ∈ files)
       then Ok ["#!/bin/sh" ++ nl; "### SETTINGS" ++ nl]
       else Exc OSError;
     base_adapter_config := fun _ => cfg;
     kit_config_base := "/opt/tortuga/config";
     home_dir := "/root";
     installer_public_hostname := "installer.example.com";
     installer_public_ipaddress := "10.0.0.1";
     private_dns_zone := "private";
     admin_port := 8443;
     cfm_user := "cfm";
     cfm_password := "secret";
     add_host_session := "session-1";
     b64encode := fun s => s |}.

Definition empty_registry : Registry := mkRegistry ∅ 0 ∅ ∅ ∅.

Definition world {e : Env} (x : Ext e) : World e :=
  mkWorld x empty_registry ∅ VNone None.

End Sim.

(** ** Scenarios *)

Module Scenario.

(** An installation with the default bootstrap template, where the
    adapter is configured with a shape and a compartment. *)
Definition cfg : gmap string PyVal :=
  list_to_map [ ("shape", VStr "VM.Standard2.4"); ("compartment_id", VStr "c1") ].

Definition files : list string := [ "/opt/tortuga/config/oci_bootstrap.tmpl" ].

Definition attachments : list VnicAttachment :=
  [ mkVnicAttachment "i1" "ATTACHED" "v1";
    mkVnicAttachment "i1" "DETACHED" "v2";
    mkVnicAttachment "i2" "ATTACHED" "v3";
    mkVnicAttachment "i2" "ATTACHED" "v4" ].

Definition vnics : list (string * Vnic) :=
  [ ("v1", mkVnic "1.1.1.1" "10.0.0.5");
    ("v3", mkVnic "1.1.1.3" "10.0.0.7");
    ("v4", mkVnic "1.1.1.4" "10.0.0.8") ].

Definition env : Env :=
  Sim.env (Ok cfg) files attachments vnics (fun _ => Ok tt).

Definition hw : Profile := mkProfile "hw" "compute-#NN" [].
Definition sw : option Profile := Some (mkProfile "sw" "" []).

Definition ext0 : Ext env := Sim.mkSimExt [] [] 0.

Definition node_spec : NodeSpec := mkNodeSpec hw sw cfg.

(** Two running instances: [i1] has one attached VNIC, [i2] has two. *)
Definition i1 : Instance := mkInstance "i1" "RUNNING" "inst-i1" "compartment-1".
Definition i2 : Instance := mkInstance "i2" "RUNNING" "inst-i2" "compartment-1".

Definition w0 : World env := Sim.world ext0.

(** The provider reports [i1] as provisioning, starting, then running. *)
Definition ext_starting : Ext env :=
  Sim.mkSimExt []
    [ ("i1", [ Sim.inst "i1" "PROVISIONING"; Sim.inst "i1" "STARTING";
               Sim.inst "i1" "RUNNING"; Sim.inst "i1" "STOPPED" ]) ] 0.

(** The events of the [logging_callback] of [_launch_instance]. *)
Definition logging_events (ocid state : string) : list Event :=
  [ EvLog Debug (MInstance (last6 ocid) ("state: " ++ state ++ "; waiting...")) ].

Definition nobody : World env -> World env := fun w => w.

(** The provider rejects the first launch request. *)
Definition ext_rejects : Ext env :=
  Sim.mkSimExt [ Exc (ServiceError 500) ] [] 0.

(** Three launch requests: the provider accepts the first and the third
    and rejects the second. The first instance is reported as
    provisioning before it runs. *)
Definition ext_three : Ext env :=
  Sim.mkSimExt
    [ Ok "i1"; Exc (ServiceError 500); Ok "i2" ]
    [ ("i1", [ Sim.inst "i1" "PROVISIONING"; Sim.inst "i1" "RUNNING";
               Sim.inst "i1" "RUNNING" ]);
      ("i2", [ Sim.inst "i2" "RUNNING"; Sim.inst "i2" "RUNNING" ]) ] 0.

(** The hub switches to the three units in turn, and to the first one
    again when it has slept. *)
Definition round_robin : list nat := [ 0; 1; 2; 0 ]%nat.

(** The same installation, configured with a user-data template that
    does not exist ... *)
Definition cfg_missing : gmap string PyVal :=
  <[ "user_data_script_template" := VStr "missing.tmpl" ]> cfg.

Definition env_missing : Env :=
  Sim.env (Ok cfg_missing) files attachments vnics (fun _ => Ok tt).

(** ... and with no template configured, where the default one cannot
    be read. *)
Definition env_unreadable : Env :=
  Sim.env (Ok cfg) [] attachments vnics (fun _ => Ok tt).

Definition w_missing : World env_missing := Sim.world (e:=env_missing) ext_three.
Definition w_unreadable : World env_unreadable :=
  Sim.world (e:=env_unreadable) ext_three.

(** A provisioned node, with its row and its cache entry. *)
Definition compute0 : Node :=
  mkNode "compute-0.example.com" (Some "Provisioned") sw hw false "session-1"
         [ mkNic "10.0.0.5" true ].

Definition registry0 : Registry :=
  mkRegistry {[ 0%nat := compute0 ]} 1 {[ 0%nat ]} ∅ {[ 0%nat := compute0 ]}.

Definition entry0 : gmap string string :=
  list_to_map [ ("id", "i1"); ("compartment_id", "i1");
                ("shape", "VM.Standard2.4"); ("vcpus", "4") ].

Definition provisioned (x : Ext env) : World env :=
  mkWorld x registry0 {[ "compute-0.example.com" := entry0 ]} (VInt 4) None.

(** The provider knows [i1]; after the terminate request it reports it
    as terminating and then as terminated. *)
Definition ext_terminating : Ext env :=
  Sim.mkSimExt []
    [ ("i1", [ Sim.inst "i1" "RUNNING"; Sim.inst "i1" "TERMINATING";
               Sim.inst "i1" "TERMINATED" ]) ] 0.

(** The provider does not know [i1] any more, and says so as the OCI
    client does, with a service error of status 404. *)
Definition ext_gone_404 : Ext env :=
  Sim.mkSimExt [] [ ("i1", [ Exc (ServiceError 404) ]) ] 0.

(** The provider reports [i1] as terminating, and then fails. *)
Definition ext_failing : Ext env :=
  Sim.mkSimExt []
    [ ("i1", [ Sim.inst "i1" "TERMINATING"; Exc (ServiceError 500) ]) ] 0.

(** The same installation, where the template is configured by a path
    relative to the kit's configuration directory. *)
Definition cfg_relative : gmap string PyVal :=
  <[ "user_data_script_template" := VStr "oci_bootstrap.tmpl" ]> cfg.

Definition env_relative : Env :=
  Sim.env (Ok cfg_relative) files attachments vnics (fun _ => Ok tt).

(** An installation whose installer has a host name without domain. *)
Definition env_nodomain : Env :=
  {| Ext := Sim.SimExt;
     launch_instance := launch_instance env;
     get_instance := get_instance env;
     terminate_instance := terminate_instance env;
     list_vnic_attachments := list_vnic_attachments env;
     get_vnic := get_vnic env;
     generate_node_name := generate_node_name env;
     path_exists := path_exists env;
     isfile := isfile env;
     read_file := read_file env;
     readlines := readlines env;
     base_adapter_config := base_adapter_config env;
     kit_config_base := kit_config_base env;
     home_dir := home_dir env;
     installer_public_hostname := "installer";
     installer_public_ipaddress := installer_public_ipaddress env;
     private_dns_zone := private_dns_zone env;
     admin_port := admin_port env;
     cfm_user := cfm_user env;
     cfm_password := cfm_password env;
     add_host_session := add_host_session env;
     b64encode := b64encode env |}.

(** The placeholder of the first unit, as its pre-launch leaves it. *)
Definition placeholder0 : Node :=
  mkNode "compute-0.example.com" (Some "Launching") sw hw false "session-1" [].

Definition launching (x : Ext env) : World env :=
  mkWorld x (mkRegistry {[ 0%nat := placeholder0 ]} 1 {[ 0%nat ]} ∅
                        {[ 0%nat := placeholder0 ]})
          ∅ VNone None.

(** A launch specification whose adapter configuration has no shape. *)
Definition node_spec_no_shape : NodeSpec := mkNodeSpec hw sw ∅.

(** Node names are taken from the instances. *)
Definition hw_wildcard : Profile := mkProfile "hw" "*" [].

Definition node_spec_wildcard : NodeSpec := mkNodeSpec hw_wildcard sw cfg.

(** An installation where the provider fails to list the VNIC
    attachments. *)
Definition env_no_listing : Env :=
  {| Ext := Sim.SimExt;
     launch_instance := launch_instance env;
     get_instance := get_instance env;
     terminate_instance := terminate_instance env;
     list_vnic_attachments := fun _ x => (Exc (ServiceError 500), x);
     get_vnic := get_vnic env;
     generate_node_name := generate_node_name env;
     path_exists := path_exists env;
     isfile := isfile env;
     read_file := read_file env;
     readlines := readlines env;
     base_adapter_config := base_adapter_config env;
     kit_config_base := kit_config_base env;
     home_dir := home_dir env;
     installer_public_hostname := installer_public_hostname env;
     installer_public_ipaddress := installer_public_ipaddress env;
     private_dns_zone := private_dns_zone env;
     admin_port := admin_port env;
     cfm_user := cfm_user env;
     cfm_password := cfm_password env;
     add_host_session := add_host_session env;
     b64encode := b64encode env |}.

Definition launching_no_listing : World env_no_listing :=
  mkWorld (env:=env_no_listing) ext0
          (mkRegistry {[ 0%nat := placeholder0 ]} 1 {[ 0%nat ]} ∅
                      {[ 0%nat := placeholder0 ]})
          ∅ VNone None.

(** The provider accepts one launch request; the instance runs at
    once. *)
Definition ext_running : Ext env :=
  Sim.mkSimExt [ Ok "i1" ]
    [ ("i1", [ Sim.inst "i1" "RUNNING"; Sim.inst "i1" "RUNNING" ]) ] 0.





End Scenario.

(** * Properties *)

(** ** Laws of the greenlet monad *)

Section MonadFacts.
Context {env : Env}.

Local Abbreviation M := (@GM env).

Lemma emitted_nil {A} (r : Ran (env:=env) A) : emitted [] r = r.
Proof. by destruct r. Qed.

Lemma emitted_app {A} evs1 evs2 (r : Ran (env:=env) A) :
  emitted evs1 (emitted evs2 r) = emitted (evs1 ++ evs2)%list r.
Proof. destruct r; simpl. by rewrite app_assoc. Qed.

Lemma seq_ran_emitted {A B} evs (r : Ran A) (f : Outcome A -> M B) :
  seq_ran (emitted evs r) f = emitted evs (seq_ran r f).
Proof. destruct r; simpl. by rewrite emitted_app. Qed.

Lemma seq_gm_eq {A B} (m : M A) (f : Outcome A -> M B) w :
  seq_gm m f w = seq_ran (m w) f.
Proof. reflexivity. Qed.

Lemma seq_ran_done {A B} r w evs (f : Outcome A -> M B) :
  seq_ran (Run (Done r) w evs) f = emitted evs (f r w).
Proof. reflexivity. Qed.

Lemma seq_ran_hang {A B} w evs (f : Outcome A -> M B) :
  seq_ran (Run Hang w evs) f = Run Hang w evs.
Proof. simpl. by rewrite app_nil_r. Qed.

Lemma seq_ran_susp {A B} k w evs (f : Outcome A -> M B) :
  seq_ran (Run (Susp k) w evs) f
  = Run (Susp (fun w1 => seq_ran (k w1) f)) w evs.
Proof. simpl. by rewrite app_nil_r. Qed.

Lemma bind_eq {A B} (m : M A) (f : A -> M B) w :
  bind m f w
  = seq_ran (m w) (fun r => match r with Ok a => f a | Exc e => raise e end).
Proof. reflexivity. Qed.

Lemma try_except_eq {A} (m : M A) (h : exn -> M A) w :
  try_except m h w
  = seq_ran (m w) (fun r => match r with Ok a => ret a | Exc e => h e end).
Proof. reflexivity. Qed.

(** What [bind] and [try_except] do with the result of their first
    part. *)
Lemma bind_ok {A B} (m : M A) (f : A -> M B) w a w1 evs :
  m w = Run (Done (Ok a)) w1 evs -> bind m f w = emitted evs (f a w1).
Proof. intros H. unfold bind. by rewrite seq_gm_eq, H. Qed.

Lemma bind_exc {A B} (m : M A) (f : A -> M B) w e w1 evs :
  m w = Run (Done (Exc e)) w1 evs -> bind m f w = Run (Done (Exc e)) w1 evs.
Proof.
  intros H. unfold bind. rewrite seq_gm_eq, H. simpl. by rewrite app_nil_r.
Qed.

Lemma bind_hang {A B} (m : M A) (f : A -> M B) w w1 evs :
  m w = Run Hang w1 evs -> bind m f w = Run Hang w1 evs.
Proof. intros H. unfold bind. by rewrite seq_gm_eq, H, seq_ran_hang. Qed.

Lemma try_except_ok {A} (m : M A) h w a w1 evs :
  m w = Run (Done (Ok a)) w1 evs -> try_except m h w = Run (Done (Ok a)) w1 evs.
Proof.
  intros H. unfold try_except. rewrite seq_gm_eq, H. simpl. by rewrite app_nil_r.
Qed.

Lemma try_except_exc {A} (m : M A) h w e w1 evs :
  m w = Run (Done (Exc e)) w1 evs -> try_except m h w = emitted evs (h e w1).
Proof. intros H. unfold try_except. by rewrite seq_gm_eq, H. Qed.

(** A finished [seq] had a finished first part. *)
Lemma seq_ran_done_inv {A B} (r : Ran A) (f : Outcome A -> M B) r' w' evs :
  seq_ran r f = Run (Done r') w' evs ->
  exists a w1 evs1 evs2,
    r = Run (Done a) w1 evs1 /\ f a w1 = Run (Done r') w' evs2
    /\ evs = (evs1 ++ evs2)%list.
Proof.
  destruct r as [g w evs0]. destruct g as [a| |k]; simpl; try discriminate.
  destruct (f a w) as [g2 w2 evs2] eqn:Hf. simpl. intros [= -> -> <-].
  by exists a, w, evs0, evs2.
Qed.

Lemma bind_done_ok_inv {A B} (m : M A) (f : A -> M B) w b w' evs :
  bind m f w = Run (Done (Ok b)) w' evs ->
  exists a w1 evs1 evs2,
    m w = Run (Done (Ok a)) w1 evs1 /\ f a w1 = Run (Done (Ok b)) w' evs2
    /\ evs = (evs1 ++ evs2)%list.
Proof.
  unfold bind. rewrite seq_gm_eq. intros H.
  apply seq_ran_done_inv in H as (a & w1 & evs1 & evs2 & Hm & Hf & ->).
  destruct a as [a|e]; [|discriminate Hf].
  by exists a, w1, evs1, evs2.
Qed.

(** Running a suspended greenlet among others. *)
Lemma resume_done {A} others (r : Outcome A) (w : World env) evs :
  resume env others (Run (Done r) w evs) = Run (Done r) w evs.
Proof. by destruct others. Qed.

Lemma resume_hang {A} others (w : World env) evs :
  resume env others (Run (@Hang env A) w evs) = Run Hang w evs.
Proof. by destruct others. Qed.

Lemma resume_emitted {A} others evs (r : Ran (env:=env) A) :
  resume env others (emitted evs r) = emitted evs (resume env others r).
Proof.
  revert evs r. induction others as [|o others IH]; intros evs [g w evs'].
  - by destruct g.
  - destruct g; simpl; try done. by rewrite <- emitted_app, IH.
Qed.

(** If the first part of a [seq] runs to its end among [others], the
    whole continues from there with what is left of [others]. *)
Lemma resume_seq_ran {A B} others (r : Ran A) (f : Outcome A -> M B) a w' evs :
  resume env others r = Run (Done a) w' evs ->
  exists others',
    resume env others (seq_ran r f) = resume env others' (emitted evs (f a w')).
Proof.
  revert r. induction others as [|o others IH]; intros [g w evs0].
  - destruct g as [a0| |k]; try discriminate.
    intros [= -> -> ->]. by exists [].
  - destruct g as [a0| |k].
    + rewrite resume_done. intros [= -> -> ->].
      exists (o :: others). by rewrite seq_ran_done.
    + by rewrite resume_hang.
    + intros H. rewrite seq_ran_susp. simpl in *.
      rewrite <- seq_ran_emitted.
      destruct (IH _ H) as (others' & ->).
      by exists others'.
Qed.

Lemma resume_seq_ran_done {A B} others (r : Ran A) (f : Outcome A -> M B)
    a w' evs b w'' evs' :
  resume env others r = Run (Done a) w' evs ->
  f a w' = Run (Done b) w'' evs' ->
  resume env others (seq_ran r f) = Run (Done b) w'' (evs ++ evs')%list.
Proof.
  intros Hr Hf. destruct (resume_seq_ran others r f a w' evs Hr) as (others' & ->).
  rewrite Hf. simpl. by rewrite resume_done.
Qed.

(** The primitives, applied to a world. *)
Lemma emitted_run {A} evs (g : G A) (w : World env) evs' :
  emitted evs (Run g w evs') = Run g w (evs ++ evs')%list.
Proof. reflexivity. Qed.

Lemma ret_eq {A} (a : A) (w : World env) : ret a w = Run (Done (Ok a)) w [].
Proof. reflexivity. Qed.

Lemma raise_eq {A} e (w : World env) : raise (A:=A) e w = Run (Done (Exc e)) w [].
Proof. reflexivity. Qed.

Lemma hang_eq {A} (w : World env) : hang (A:=A) w = Run Hang w [].
Proof. reflexivity. Qed.

Lemma emit_eq e (w : World env) : emit e w = Run (Done (Ok tt)) w [e].
Proof. reflexivity. Qed.

Lemma get_world_eq (w : World env) : get_world w = Run (Done (Ok w)) w [].
Proof. reflexivity. Qed.

Lemma put_world_eq (w' w : World env) : put_world w' w = Run (Done (Ok tt)) w' [].
Proof. reflexivity. Qed.

Lemma lift_outcome_eq {A} (r : Outcome A) (w : World env) :
  lift_outcome r w = Run (Done r) w [].
Proof. reflexivity. Qed.

Lemma sleep_eq d (w : World env) :
  sleep d w = Run (Susp (fun w' => Run (Done (Ok tt)) w' [])) w [EvSleep d].
Proof. reflexivity. Qed.

Lemma peek_eq {A} (op : Ext env -> Outcome A) (w : World env) :
  peek env op w = Run (Done (op (ext w))) w [].
Proof. reflexivity. Qed.

Lemma log_eq lvl m (w : World env) :
  log env lvl m w = Run (Done (Ok tt)) w [EvLog lvl m].
Proof. reflexivity. Qed.

Lemma log_adapter_debug_eq ocid text (w : World env) :
  log_adapter_debug env ocid text w
  = Run (Done (Ok tt)) w [EvLog Debug (MInstance (last6 ocid) text)].
Proof. reflexivity. Qed.

Lemma Node_new_eq n (w : World env) :
  Node_new env n w
  = Run (Done (Ok (next_ref (db w))))
        (with_db env w (registry_new n (db w)).2) [].
Proof. reflexivity. Qed.

Lemma setattr_eq ref f (w : World env) :
  setattr env ref f w
  = Run (Done (Ok tt)) (with_db env w (registry_update ref f (db w))) [].
Proof. reflexivity. Qed.

Lemma db_session_add_eq ref (w : World env) :
  db_session_add env ref w
  = Run (Done (Ok tt)) (with_db env w (registry_add ref (db w))) [EvDbAdd ref].
Proof. reflexivity. Qed.

Lemma db_session_delete_eq ref (w : World env) :
  db_session_delete env ref w
  = Run (Done (Ok tt)) (with_db env w (registry_delete ref (db w))) [EvDbDelete ref].
Proof. reflexivity. Qed.

Lemma db_session_commit_eq (w : World env) :
  db_session_commit env w
  = Run (Done (Ok tt)) (with_db env w (registry_commit (db w))) [EvDbCommit].
Proof. reflexivity. Qed.

Lemma instanceCacheSet_eq name entry (w : World env) :
  instanceCacheSet env name entry w
  = Run (Done (Ok tt)) (with_cache env w (<[name := entry]> (cache w)))
        [EvCacheSet name entry].
Proof. reflexivity. Qed.

Lemma instanceCacheDelete_eq name (w : World env) :
  instanceCacheDelete env name w
  = Run (Done (Ok tt)) (with_cache env w (delete name (cache w)))
        [EvCacheDelete name].
Proof. reflexivity. Qed.

Lemma _pre_add_host_eq name hw sw ip (w : World env) :
  _pre_add_host env name hw sw ip w
  = Run (Done (Ok tt)) w [EvPreAddHost name hw sw ip].
Proof. reflexivity. Qed.

Lemma deleteNodeCleanup_eq node (w : World env) :
  deleteNodeCleanup env node w = Run (Done (Ok tt)) w [EvDeleteNodeCleanup node].
Proof. reflexivity. Qed.

Lemma clear_session_nodes_eq nodes (w : World env) :
  clear_session_nodes env nodes w = Run (Done (Ok tt)) w [EvClearSessionNodes nodes].
Proof. reflexivity. Qed.

Lemma getattr_inv {A} ref (f : Node -> A) (w : World env) a w' evs :
  getattr env ref f w = Run (Done (Ok a)) w' evs ->
  exists n, heap (db w) !! ref = Some n /\ a = f n /\ w' = w /\ evs = [].
Proof.
  unfold getattr. destruct (heap (db w) !! ref) as [n|]; [|done].
  intros [= <- <- <-]. by exists n.
Qed.

Lemma getattr_eq {A} ref (f : Node -> A) (w : World env) n :
  heap (db w) !! ref = Some n ->
  getattr env ref f w = Run (Done (Ok (f n))) w [].
Proof. unfold getattr. by intros ->. Qed.

End MonadFacts.

Create Rewrite HintDb gm.

#[global] Hint Rewrite
  @bind_eq @try_except_eq @emitted_nil @seq_ran_emitted @seq_ran_done @seq_ran_hang
  @seq_ran_susp @emitted_run @ret_eq @raise_eq @hang_eq @emit_eq
  @get_world_eq @put_world_eq @lift_outcome_eq @sleep_eq @peek_eq @log_eq
  @log_adapter_debug_eq @Node_new_eq @setattr_eq @db_session_add_eq
  @db_session_delete_eq @db_session_commit_eq @instanceCacheSet_eq
  @instanceCacheDelete_eq @_pre_add_host_eq @deleteNodeCleanup_eq
  @clear_session_nodes_eq : gm.

(** An event that differs from every event of an explicit list. *)
Ltac not_in_events :=
  repeat (rewrite not_elem_of_cons; split; [discriminate|]);
  apply not_elem_of_nil.

(** An event that occurs in an explicit list. *)
Ltac in_events :=
  match goal with
  | |- ?x ∈ ?l => apply (bool_decide_unpack (x ∈ l)); vm_compute; exact I
  end.

(** Run the code of a greenlet as far as the primitives decide it. *)
Ltac gm_run := autorewrite with gm; simpl app.
Ltac gm_run_in H := autorewrite with gm in H; simpl app in H.

(** ** The built-ins on examples *)

Example split_shape :
  PyStr.split "." "VM.Standard1.1" = ["VM"; "Standard1"; "1"].
Proof. reflexivity. Qed.

Example split_empty : PyStr.split "." "" = [""].
Proof. reflexivity. Qed.

Example split1_host : PyStr.split1 "." "a.b.c" = ["a"; "b.c"].
Proof. reflexivity. Qed.

Example int_cases :
  map PyStr.int ["1"; " 1"; "+1"; "-1"; "+ 1"; "1_6"; "_16"; "16_"; "1__6";
                 "007"; ""; "+"; "foo-bar"; "0x10"; "1.0"; "--1"]
  = [Some 1; Some 1; Some 1; Some (-1); None; Some 16; None; None; None;
     Some 7; None; None; None; None; None; None].
Proof. reflexivity. Qed.

Example os_path_join_ex :
  os_path_join "/opt/tortuga/config" "oci_bootstrap.tmpl"
  = "/opt/tortuga/config/oci_bootstrap.tmpl".
Proof. reflexivity. Qed.

Example last6_ex : last6 "ocid1.instance.oc1.abcdefgh" = "cdefgh"
                   /\ last6 "abc" = "abc".
Proof. split; reflexivity. Qed.

Example py_str_ex : py_str (VInt 8443) = "8443" /\ py_str (VBool false) = "False".
Proof. split; reflexivity. Qed.

(** ** [int()] and decimal integers *)

Section IntFacts.
Import PyStr.
Local Arguments String.append !_ _ : simpl nomatch.

Lemma sapp_assoc (a b c : string) : (a ++ b) ++ c = a ++ b ++ c.
Proof. induction a as [|x a IH]; simpl; [done|]. by rewrite IH. Qed.

Lemma sapp_nil_r (a : string) : a ++ "" = a.
Proof. induction a as [|x a IH]; simpl; [done|]. by rewrite IH. Qed.

Ltac ascii_cases c :=
  destruct c as [[] [] [] [] [] [] [] []]; vm_compute; try done.

Lemma digit_not_space c d : digit_val c = Some d -> is_space c = false.
Proof. ascii_cases c. Qed.

Lemma space_not_digit c : is_space c = true -> digit_val c = None.
Proof. ascii_cases c. Qed.

Lemma space_not_underscore c : is_space c = true -> Ascii.eqb c "_" = false.
Proof. ascii_cases c. Qed.

Lemma digit_not_sign c d :
  digit_val c = Some d -> Ascii.eqb c "+" = false /\ Ascii.eqb c "-" = false.
Proof. ascii_cases c. Qed.

Lemma horner_app acc a b : horner acc (a ++ b) = horner (horner acc a) b.
Proof. revert acc. induction a as [|x a IH]; intros acc; simpl; [done|]. apply IH. Qed.

Lemma lstrip_app pre c r :
  all_space pre = true -> is_space c = false ->
  lstrip (pre ++ String c r) = String c r.
Proof.
  intros Hpre Hc. induction pre as [|x pre IH]; simpl in *.
  - by rewrite Hc.
  - apply andb_true_iff in Hpre as [-> Hpre]. by apply IH.
Qed.

Lemma lstrip_spec s :
  exists pre, all_space pre = true /\ s = pre ++ lstrip s.
Proof.
  induction s as [|x s (pre & Hpre & IH)]; simpl.
  - by exists "".
  - destruct (is_space x) eqn:Hx.
    + exists (String x pre). simpl. rewrite Hx, Hpre. split; [done|]. by rewrite <- IH.
    + by exists "".
Qed.

(** The first character of a digit group, and of a list of groups. *)
Lemma digit_group_head g :
  digit_group g -> exists c d r, g = String c r /\ digit_val c = Some d
                                 /\ all_digits r = true.
Proof.
  intros [Hne Hd]. destruct g as [|c r]; [done|]. simpl in Hd.
  apply andb_true_iff in Hd as [Hc Hr]. apply bool_decide_eq_true in Hc as [d Hc].
  by exists c, d, r.
Qed.

Lemma join_head sep groups :
  groups <> [] -> Forall digit_group groups ->
  exists c d r, join sep groups = String c r /\ digit_val c = Some d.
Proof.
  intros Hne Hall. destruct groups as [|g gs]; [done|].
  apply Forall_cons in Hall as [Hg _].
  destruct (digit_group_head g Hg) as (c & d & r & -> & Hc & _).
  destruct gs; simpl; by eauto.
Qed.

(** The scanner reads a whole group of digits. *)
Lemma scan_group g acc b rest :
  digit_group g ->
  scan_digits acc b (g ++ rest) = scan_digits (horner acc g) false rest.
Proof.
  intros [Hne Hd]. revert acc b. induction g as [|c g IH]; [done|].
  intros acc b. simpl in *. apply andb_true_iff in Hd as [Hc Hg].
  apply bool_decide_eq_true in Hc as [d Hc]. rewrite Hc. simpl.
  destruct g as [|c' g']; [done|]. by apply IH.
Qed.

Lemma scan_groups groups acc b post :
  groups <> [] -> Forall digit_group groups -> all_space post = true ->
  scan_digits acc b (join "_" groups ++ post)
  = Some (horner acc (join "" groups), post).
Proof.
  intros Hne Hall Hpost. revert acc b.
  induction groups as [|g gs IH]; [done|]. intros acc b.
  apply Forall_cons in Hall as [Hg Hgs].
  destruct gs as [|g2 gs].
  - simpl. rewrite scan_group by done.
    destruct post as [|c post]; [done|]. simpl in *.
    apply andb_true_iff in Hpost as [Hc _].
    by rewrite (space_not_digit _ Hc), (space_not_underscore _ Hc).
  - change (join "_" (g :: g2 :: gs)) with (g ++ "_" ++ join "_" (g2 :: gs)).
    change (join "" (g :: g2 :: gs)) with (g ++ "" ++ join "" (g2 :: gs)).
    rewrite sapp_assoc, scan_group by done. simpl.
    rewrite horner_app. by apply IH.
Qed.

(** What the scanner has read when it stops. *)
Lemma scan_sound s : forall acc b v rest,
  scan_digits acc b s = Some (v, rest) ->
  exists groups,
    Forall digit_group groups /\ v = horner acc (join "" groups) /\
    ((groups <> [] /\ s = join "_" groups ++ rest)
     \/ (b = false /\ groups <> [] /\ s = "_" ++ join "_" groups ++ rest)
     \/ (b = false /\ groups = [] /\ s = rest
         /\ forall c r, s = String c r -> digit_val c = None)).
Proof.
  induction s as [|c s IH]; intros acc b v rest; simpl.
  - destruct b; [done|]. intros [= <- <-]. exists []. split; [done|].
    split; [done|]. right. right. done.
  - destruct (digit_val c) as [d|] eqn:Hc.
    + intros H. apply IH in H as (groups & Hall & -> & Hshape).
      assert (Hcg : forall g, all_digits g = true -> digit_group (String c g)).
      { intros g Hg. split; [done|]. simpl. rewrite Hg, Hc. done. }
      destruct Hshape as [(Hne & ->)|[(_ & Hne & ->)|(_ & -> & -> & _)]].
      * destruct groups as [|g gs]; [done|].
        apply Forall_cons in Hall as [[_ Hg] Hgs].
        exists (String c g :: gs). split; [by constructor; auto|].
        split; [|left; split; [done|]]; destruct gs; simpl; by rewrite ?Hc.
      * exists (String c "" :: groups). split; [by constructor; auto|].
        destruct groups as [|g gs]; [done|].
        split; [|left; split; [done|]]; simpl; by rewrite ?Hc.
      * exists [String c ""]. split; [by constructor; auto|].
        split; [|left; split; [done|]]; simpl; by rewrite ?Hc.
    + destruct b; [done|]. destruct (Ascii.eqb c "_") eqn:Hus.
      * apply Ascii.eqb_eq in Hus as ->. intros H.
        apply IH in H as (groups & Hall & -> & Hshape).
        exists groups. split; [done|]. split; [done|].
        destruct Hshape as [(Hne & ->)|[(? & _)|(? & _)]]; [|done..].
        right. left. done.
      * intros [= <- <-]. exists []. split; [done|]. split; [done|].
        right. right. repeat split; try done. by intros c' r [= <- _].
Qed.

(** The scanner accepts the decimal integers, with their values ... *)
Lemma int_complete s n : DecimalInteger s n -> int s = Some n.
Proof.
  intros [pre sg groups post Hpre Hpost Hne Hall].
  destruct (join_head "_" groups Hne Hall) as (c & d & r & Hj & Hc).
  pose proof (digit_not_sign c d Hc) as [Hplus Hminus].
  pose proof (scan_groups groups 0 false post Hne Hall Hpost) as Hscan.
  destruct sg; simpl; unfold int.
  - rewrite (lstrip_app pre "+") by done. simpl.
    rewrite Hscan. rewrite Hj in *. simpl. by rewrite Hc, Hpost.
  - rewrite (lstrip_app pre "-") by done. simpl.
    rewrite Hscan. rewrite Hj in *. simpl. by rewrite Hc, Hpost.
  - revert Hscan. rewrite Hj. simpl.
    rewrite (lstrip_app pre c _ Hpre (digit_not_space c d Hc)).
    rewrite Hplus, Hminus, Hc. simpl. rewrite Hc. intros ->. by rewrite Hpost.
Qed.

(** ... and nothing else. *)
Lemma int_sound s n : int s = Some n -> DecimalInteger s n.
Proof.
  unfold int. destruct (lstrip_spec s) as (pre & Hpre & Hs).
  assert (Hbody : forall sg s2,
    s = pre ++ sign_string sg ++ s2 ->
    match s2 with
    | String c _ =>
        match digit_val c with
        | None => None
        | Some _ =>
            match scan_digits 0 false s2 with
            | Some (v, rest) =>
                if all_space rest then Some (signed sg v) else None
            | None => None
            end
        end
    | EmptyString => None
    end = Some n -> DecimalInteger s n).
  { intros sg s2 -> H. destruct s2 as [|c r] eqn:Hs2; [done|].
    destruct (digit_val c) as [d|] eqn:Hc; [|done].
    destruct (scan_digits 0 false (String c r)) as [[v rest]|] eqn:Hscan; [|done].
    destruct (all_space rest) eqn:Hrest; [|done]. injection H as <-.
    apply scan_sound in Hscan as (groups & Hall & -> & Hshape).
    destruct Hshape as [(Hne & ->)|[(_ & _ & Heq)|(_ & _ & _ & Hnd)]].
    - by constructor.
    - injection Heq as -> _. done.
    - by rewrite (Hnd c r eq_refl) in Hc. }
  destruct (lstrip s) as [|c r] eqn:Hl; [done|].
  destruct (Ascii.eqb c "+") eqn:Hplus.
  { apply Ascii.eqb_eq in Hplus as ->. apply (Hbody Plus). by rewrite Hs. }
  destruct (Ascii.eqb c "-") eqn:Hminus.
  { apply Ascii.eqb_eq in Hminus as ->. intros H. apply (Hbody Minus r); [by rewrite Hs|].
    destruct r as [|c' r']; [done|]. destruct (digit_val c'); [|done].
    destruct (scan_digits 0 false (String c' r')) as [[v rest]|]; [|done].
    by destruct (all_space rest). }
  intros H. apply (Hbody NoSign (String c r)); [by rewrite Hs|].
  destruct (digit_val c); [|done].
  destruct (scan_digits 0 false (String c r)) as [[v rest]|]; [|done].
  by destruct (all_space rest).
Qed.

Lemma int_None s : (forall n, ~ DecimalInteger s n) -> int s = None.
Proof.
  intros H. destruct (int s) as [n|] eqn:Hi; [|done].
  by apply int_sound, H in Hi.
Qed.

(** Plain decimal numerals are decimal integers. *)
Lemma numeral_decimal s :
  s <> "" -> all_digits s = true -> DecimalInteger s (horner 0 s).
Proof.
  intros Hne Hd.
  pose proof (decimal_integer "" NoSign [s] "" eq_refl eq_refl) as H.
  simpl in H. rewrite sapp_nil_r in H. apply H; [done|].
  by constructor.
Qed.

End IntFacts.

(** ** The vcpu count of a session *)

Section SessionFacts.
Context (env : Env).

Lemma default_config_vcpus : default_config env !! "vcpus" = Some VNone.
Proof. reflexivity. Qed.

(** C10. When the configuration given to [OciSession] has no ['vcpus'],
    the session takes its vcpu count from the last ['.']-separated
    segment of the shape, read by [int()]: for a segment that is a
    decimal integer the construction succeeds with exactly that count;
    for a segment that is not, it raises [ValueError], and so does the
    launch step that builds the session. *)
Theorem OciSession_vcpus_from_shape
    (override_config : gmap string PyVal) (x : Ext env) (ssh : PyVal)
    (shape seg : string) :
  _get_ssh_key env x = Ok ssh ->
  override_config !! "vcpus" = None ->
  (delete "metadata" override_config ∪ default_config env) !! "shape"
    = Some (VStr shape) ->
  last (PyStr.split "." shape) = Some seg ->
  (exists meta,
     OciSession_init env override_config x
     = match PyStr.int seg with
       | Some n =>
           Ok (mkSession (<["vcpus" := VInt n]>
                            (delete "metadata" override_config ∪ default_config env))
                         meta)
       | None => Exc ValueError
       end)
  /\ (forall n, PyStr.DecimalInteger seg n ->
        exists session,
          OciSession_init env override_config x = Ok session
          /\ config session !! "vcpus" = Some (VInt n))
  /\ ((forall n, ~ PyStr.DecimalInteger seg n) ->
        OciSession_init env override_config x = Exc ValueError
        /\ forall fuel node_dict hw sw (w : World env),
             ext w = x ->
             _launch_instance env fuel node_dict
               (mkNodeSpec hw sw override_config) w
             = Run (Done (Exc ValueError)) w []).
Proof.
  intros Hssh Hv Hshape Hseg.
  assert (Hinit : OciSession_init env override_config x
    = match PyStr.int seg with
      | Some n =>
          Ok (mkSession (<["vcpus" := VInt n]>
                           (delete "metadata" override_config ∪ default_config env))
                        (match override_config !! "metadata" with
                         | Some v => MetaScalar v
                         | None => MetaDict ssh None
                         end))
      | None => Exc ValueError
      end).
  { unfold OciSession_init. rewrite Hssh. simpl.
    unfold getitem at 1.
    rewrite lookup_union_r by (by rewrite lookup_delete_ne).
    rewrite default_config_vcpus. simpl.
    unfold cores_from_shape, getitem. rewrite Hshape. simpl.
    unfold last_item. rewrite Hseg. simpl.
    by destruct (PyStr.int seg). }
  split; [|split].
  - eexists. exact Hinit.
  - intros n Hn. rewrite Hinit, (int_complete _ _ Hn).
    eexists. split; [done|]. simpl. by rewrite lookup_insert_eq.
  - intros Hn. rewrite Hinit, (int_None _ Hn). split; [done|].
    intros fuel node_dict hw sw w <-.
    unfold _launch_instance. simpl configDict.
    erewrite bind_exc; [done|]. unfold peek. by rewrite Hinit, (int_None _ Hn).
Qed.

End SessionFacts.

(** The session of the scenario has the 4 vcpus of its shape. *)
Lemma OciSession_vcpus_from_shape_witness :
  exists session,
    OciSession_init Scenario.env Scenario.cfg Scenario.ext0 = Ok session
    /\ config session !! "vcpus" = Some (VInt 4).
Proof.
  apply (proj1 (proj2 (OciSession_vcpus_from_shape Scenario.env Scenario.cfg
                         Scenario.ext0 VNone "VM.Standard2.4" "4"
                         eq_refl eq_refl eq_refl eq_refl)) 4).
  apply int_sound. reflexivity.
Defined.

(** The shape of the adapter's own unit test has no vcpu count: the
    session of [TestOracleCloudSession.setUp] cannot be built. *)
Example OciSession_foo_bar :
  OciSession_init Scenario.env {[ "shape" := VStr "foo-bar" ]} Scenario.ext0
  = Exc ValueError.
Proof. reflexivity. Qed.

(** ** Post-launch *)

Section PostLaunchFacts.
Context (env : Env).

Local Open Scope gm_scope.

(** Inversion of a finished [bind]. *)
Ltac inv_bind H :=
  let a := fresh "a" in
  let w1 := fresh "w" in
  let e1 := fresh "evs" in
  let e2 := fresh "evs" in
  let Hm := fresh "Hm" in
  apply bind_done_ok_inv in H as (a & w1 & e1 & e2 & Hm & H & ->).

(** Address resolution only talks to the provider. *)
Lemma with_ext_ext (w : World env) : with_ext env w (ext w) = w.
Proof. by destruct w. Qed.

Lemma with_ext_with_ext (w : World env) x x' :
  with_ext env (with_ext env w x) x' = with_ext env w x'.
Proof. reflexivity. Qed.

Lemma private_ips_of_frame vnics (w : World env) g w' evs :
  private_ips_of env vnics w = Run g w' evs ->
  (exists r, g = Done r) /\ w' = with_ext env w (ext w').
Proof.
  revert w g w' evs. induction vnics as [|v vnics IH]; intros w g w' evs; simpl.
  - gm_run. intros [= <- <- <-]. by rewrite with_ext_ext; eauto.
  - gm_run. unfold net_client_get_vnic, call.
    destruct (get_vnic env (va_vnic_id v) (ext w)) as [[o|e] x] eqn:Hv; gm_run.
    + destruct (private_ips_of env vnics (with_ext env w x)) as [g1 w1 evs1] eqn:Hrest.
      apply IH in Hrest as [[r ->] Hw1]. gm_run.
      destruct r as [ips|e]; gm_run; intros [= <- <- <-];
        (split; [by eexists|]); by rewrite Hw1.
    + intros [= <- <- <-]. split; [by eexists|]. done.
Qed.

Lemma get_instance_private_ips_frame i c (w : World env) g w' evs :
  __get_instance_private_ips env i c w = Run g w' evs ->
  (exists r, g = Done r) /\ w' = with_ext env w (ext w').
Proof.
  unfold __get_instance_private_ips, __get_vnics_for_instance. gm_run.
  unfold client_list_vnic_attachments, call.
  destruct (list_vnic_attachments env c (ext w)) as [[vs|e] x] eqn:Hl; gm_run.
  - destruct (private_ips_of env _ (with_ext env w x)) as [g1 w1 evs1] eqn:Hp.
    apply private_ips_of_frame in Hp as [[r ->] Hw1].
    gm_run. intros [= <- <- <-]. split; [by eexists|]. by rewrite Hw1.
  - intros [= <- <- <-]. split; [by eexists|]. done.
Qed.

(** ... and what it resolves depends on the provider only. *)
Lemma private_ips_of_ext vnics (w1 w2 : World env) g w1' evs :
  ext w1 = ext w2 ->
  private_ips_of env vnics w1 = Run g w1' evs ->
  private_ips_of env vnics w2 = Run g (with_ext env w2 (ext w1')) evs.
Proof.
  revert w1 w2 g w1' evs.
  induction vnics as [|v vnics IH]; intros w1 w2 g w1' evs Hext; simpl.
  - gm_run. intros [= <- <- <-]. by rewrite Hext, with_ext_ext.
  - gm_run. unfold net_client_get_vnic, call. rewrite <- Hext.
    destruct (get_vnic env (va_vnic_id v) (ext w1)) as [[o|e] x] eqn:Hv; gm_run.
    + destruct (private_ips_of env vnics (with_ext env w1 x)) as [g1 w3 evs1] eqn:Hrest.
      apply (IH _ (with_ext env w2 x)) in Hrest as ->; [|done].
      pose proof I as Hdone. clear Hdone.
      destruct g1 as [[ips|e]| |k]; gm_run; by intros [= <- <- <-].
    + by intros [= <- <- <-].
Qed.

Lemma get_instance_private_ips_ext i c (w1 w2 : World env) g w1' evs :
  ext w1 = ext w2 ->
  __get_instance_private_ips env i c w1 = Run g w1' evs ->
  __get_instance_private_ips env i c w2 = Run g (with_ext env w2 (ext w1')) evs.
Proof.
  intros Hext.
  unfold __get_instance_private_ips, __get_vnics_for_instance. gm_run.
  unfold client_list_vnic_attachments, call. rewrite <- Hext.
  destruct (list_vnic_attachments env c (ext w1)) as [[vs|e] x] eqn:Hl; gm_run.
  - destruct (private_ips_of env _ (with_ext env w1 x)) as [g1 w3 evs1] eqn:Hp.
    apply (private_ips_of_ext _ _ (with_ext env w2 x)) in Hp as ->; [|done].
    destruct g1 as [[ips|e]| |k]; gm_run; by intros [= <- <- <-].
  - by intros [= <- <- <-].
Qed.

(** Inversion of the primitives that finished. *)
Ltac inv_prims :=
  repeat match goal with
  | H : getattr _ _ _ _ = Run (Done (Ok _)) _ _ |- _ =>
      let n := fresh "n" in
      let Hn := fresh "Hn" in
      apply getattr_inv in H as (n & Hn & -> & -> & ->)
  | H : _ = Run (Done (Ok _)) _ _ |- _ =>
      progress (autorewrite with gm in H);
      let Hr := fresh "Hr" in
      injection H as Hr <- <-;
      first [ subst | idtac ]
  end.

(** The cache entry a successful post-launch writes. *)
Lemma post_launch_entry
    (instance : Instance) (node_dict : NodeDict) (node_spec : NodeSpec)
    (w : World env) (node : NodeRef) (w' : World env) (evs : list Event) :
  _instance_post_launch env instance node_dict node_spec w
    = Run (Done (Ok node)) w' evs ->
  exists n shape seg entry,
    heap (db w') !! node = Some n
    /\ configDict node_spec !! "shape" = Some (VStr shape)
    /\ last (PyStr.split "." shape) = Some seg
    /\ cache w' !! node_name n = Some entry
    /\ entry !! "id" = Some (instance_id instance)
    /\ entry !! "compartment_id" = Some (instance_id instance)
    /\ (instance_id instance <> compartment_id instance ->
        entry !! "compartment_id" <> Some (compartment_id instance))
    /\ entry !! "shape" = Some shape
    /\ entry !! "vcpus" = Some seg.
Proof.
  unfold _instance_post_launch. intros H.
  do 17 inv_bind H.
  rewrite ret_eq in H. injection H as <- <- <-.
  clear Hm0 Hm2. inv_prims.
  match goal with
  | H : getitem _ _ = Ok ?v |- _ =>
      unfold getitem in H;
      destruct (configDict node_spec !! "shape") as [v'|] eqn:Hshape; [|done];
      injection H as ->
  end.
  match goal with
  | H : last_segment ?v = Ok ?s |- _ =>
      destruct v as [| | |shape]; try done; simpl in H; unfold last_item in H;
      destruct (last (PyStr.split "." shape)) as [seg|] eqn:Hseg; [|done];
      injection H as ->
  end.
  simpl in *.
  repeat match goal with
  | H1 : ?x = Some ?a, H2 : ?x = Some ?b |- _ =>
      rewrite H1 in H2; injection H2 as <-
  end.
  eexists _, shape, _. eexists.
  split; [done|]. split; [done|]. split; [done|].
  split; [by rewrite lookup_insert_eq|].
  repeat split; try done. intros Hne.
  change (Some (instance_id instance) <> Some (compartment_id instance)).
  congruence.
Qed.

(** C9. After a successful post-launch the cache entry of the node holds
    the instance id under ['id'] and, again, under ['compartment_id']
    (not the compartment of the instance), the configured shape, and
    under ['vcpus'] the last ['.']-separated segment of that shape. *)
Theorem post_launch_cache_entry
    (instance : Instance) (node_dict : NodeDict) (node_spec : NodeSpec)
    (w : World env) (node : NodeRef) (w' : World env) (evs : list Event) :
  _instance_post_launch env instance node_dict node_spec w
    = Run (Done (Ok node)) w' evs ->
  exists n shape seg entry,
    heap (db w') !! node = Some n
    /\ configDict node_spec !! "shape" = Some (VStr shape)
    /\ last (PyStr.split "." shape) = Some seg
    /\ cache w' !! node_name n = Some entry
    /\ entry !! "id" = Some (instance_id instance)
    /\ entry !! "compartment_id" = Some (instance_id instance)
    /\ (instance_id instance <> compartment_id instance ->
        entry !! "compartment_id" <> Some (compartment_id instance))
    /\ entry !! "shape" = Some shape
    /\ entry !! "vcpus" = Some seg.
Proof. apply post_launch_entry. Qed.

Lemma boot_interfaces_all (ips : list string) :
  length (List.filter nic_boot (map (fun ip => mkNic ip true) ips)) = length ips.
Proof. induction ips as [|ip ips IH]; simpl; [done|]. by f_equal. Qed.

(** C3 (as the code has it). After a successful post-launch the node
    has one network interface per address resolved for the instance, in
    the order resolved, and every one of them is marked as boot
    interface; at least one address was resolved, and the boot address
    announced to the host is the first one. *)
Theorem post_launch_nics
    (instance : Instance) (node_dict : NodeDict) (node_spec : NodeSpec)
    (w : World env) (node : NodeRef) (w' : World env) (evs : list Event) :
  _instance_post_launch env instance node_dict node_spec w
    = Run (Done (Ok node)) w' evs ->
  exists n ips w1 evs1 first rest hw sw,
    __get_instance_private_ips env (instance_id instance)
        (compartment_id instance) w
      = Run (Done (Ok ips)) w1 evs1
    /\ heap (db w') !! node = Some n
    /\ node_nics n = map (fun ip => mkNic ip true) ips
    /\ length (List.filter nic_boot (node_nics n)) = length ips
    /\ ips = first :: rest
    /\ EvPreAddHost (node_name n) hw sw first ∈ evs.
Proof.
  unfold _instance_post_launch. intros H.
  do 17 inv_bind H.
  rewrite ret_eq in H. injection H as <- <- <-.
  rewrite log_eq in Hm. injection Hm as _ <- _.
  rewrite setattr_eq in Hm1. injection Hm1 as _ <- _.
  pose proof (get_instance_private_ips_frame _ _ _ _ _ _ Hm2) as [_ Hw3].
  assert (Hdb3 : db w3 = registry_update a0 (set_state "Provisioned") (db w1))
    by (by rewrite Hw3).
  rewrite setattr_eq in Hm3. injection Hm3 as _ <- _.
  rewrite db_session_commit_eq in Hm4. injection Hm4 as _ <- _.
  apply getattr_inv in Hm5 as (n & Hn & -> & -> & ->).
  simpl in Hn. rewrite Hdb3 in Hn. simpl in Hn. rewrite !lookup_alter_eq in Hn.
  destruct (heap (db w1) !! a0) as [n0|] eqn:Hn0; [|done].
  injection Hn as <-.
  assert (Hext : ext w1 = ext w).
  { destruct (nd_node node_dict) as [p|].
    - rewrite ret_eq in Hm0. by injection Hm0 as _ <- _.
    - unfold __initialize_node in Hm0. gm_run_in Hm0. by injection Hm0 as _ <- _. }
  clear Hm0.
  eapply (get_instance_private_ips_ext _ _ _ w) in Hm2 as Hres; [|done].
  clear Hm2.
  inv_prims. simpl in *.
  rewrite Hdb3 in *. simpl in *. rewrite !lookup_alter_eq, Hn0 in *. simpl in *.
  repeat match goal with
  | H : Some _ = Some _ |- _ => injection H as <-
  end.
  match goal with
  | H : first_item _ = Ok ?nic |- _ => rename H into Hfirst
  end.
  simpl in Hfirst.
  destruct a2 as [|first rest]; [done|]. simpl in Hfirst. injection Hfirst as <-.
  exists (set_nics (map (fun ip => mkNic ip true) (first :: rest))
                   (set_state "Provisioned" n0)),
         (first :: rest), (with_ext env w (ext w3)), evs2, first, rest,
         (profile_name (hardwareprofile n0)), a13.
  split; [exact Hres|].
  split; [done|].
  split; [done|]. split.
  { apply boot_interfaces_all. }
  split; [done|]. simpl.
  set_solver.
Qed.

End PostLaunchFacts.


(** Post-launch of the instance [i1] of the scenario, for a node that is
    named after the instance. *)
Lemma post_launch_cache_entry_witness :
  exists w' evs,
    _instance_post_launch Scenario.env Scenario.i1 (mkNodeDict None)
        Scenario.node_spec Scenario.w0
      = Run (Done (Ok 0%nat)) w' evs
    /\ exists n shape seg entry,
         heap (db w') !! 0%nat = Some n
         /\ configDict Scenario.node_spec !! "shape" = Some (VStr shape)
         /\ last (PyStr.split "." shape) = Some seg
         /\ cache w' !! node_name n = Some entry
         /\ entry !! "id" = Some "i1"
         /\ entry !! "compartment_id" = Some "i1"
         /\ ("i1" <> "compartment-1" ->
             entry !! "compartment_id" <> Some "compartment-1")
         /\ entry !! "shape" = Some shape
         /\ entry !! "vcpus" = Some seg.
Proof.
  eexists _, _. split.
  - vm_compute. reflexivity.
  - eapply (post_launch_cache_entry Scenario.env Scenario.i1 (mkNodeDict None)
              Scenario.node_spec Scenario.w0 0%nat).
    vm_compute. reflexivity.
Defined.

(** Post-launch of [i1], which has one attached VNIC. *)
Lemma post_launch_nics_witness :
  exists w' evs,
    _instance_post_launch Scenario.env Scenario.i1 (mkNodeDict None)
        Scenario.node_spec Scenario.w0
      = Run (Done (Ok 0%nat)) w' evs
    /\ exists n ips w1 evs1 first rest hw sw,
         __get_instance_private_ips Scenario.env "i1" "compartment-1" Scenario.w0
           = Run (Done (Ok ips)) w1 evs1
         /\ heap (db w') !! 0%nat = Some n
         /\ node_nics n = map (fun ip => mkNic ip true) ips
         /\ length (List.filter nic_boot (node_nics n)) = length ips
         /\ ips = first :: rest
         /\ EvPreAddHost (node_name n) hw sw first ∈ evs.
Proof.
  eexists _, _. split.
  - vm_compute. reflexivity.
  - eapply (post_launch_nics Scenario.env Scenario.i1 (mkNodeDict None)
              Scenario.node_spec Scenario.w0 0%nat).
    vm_compute. reflexivity.
Defined.

(** C3, as stated, fails: the instance [i2] has two attached VNICs, and
    after its post-launch the node has two boot interfaces, not one. *)
Lemma post_launch_boot_not_unique :
  exists w' evs n,
    _instance_post_launch Scenario.env Scenario.i2 (mkNodeDict None)
        Scenario.node_spec Scenario.w0
      = Run (Done (Ok 0%nat)) w' evs
    /\ heap (db w') !! 0%nat = Some n
    /\ node_nics n = [ mkNic "10.0.0.7" true; mkNic "10.0.0.8" true ]
    /\ length (List.filter nic_boot (node_nics n)) <> 1%nat.
Proof.
  eexists _, _, _. split; [vm_compute; reflexivity|].
  split; [vm_compute; reflexivity|].
  split; [reflexivity|]. simpl. lia.
Qed.

(** ** The instance-state waiter *)

Section WaiterFacts.
Context (env : Env).

Local Abbreviation M := (@GM env).

(** One poll of the waiter. *)
Lemma wait_step fuel ocid target callback n (w : World env) :
  _wait_for_instance_state env (S fuel) ocid target callback n w
  = seq_ran (client_get_instance env ocid w)
      (fun r =>
         match r with
         | Ok i =>
             if String.eqb (lifecycle_state i) target then ret tt
             else bind (call_back env callback ocid (lifecycle_state i))
                    (fun _ => bind (sleep (RandomSleep n))
                    (fun _ => _wait_for_instance_state env fuel ocid target
                                callback (S n)))
         | Exc e => raise e
         end).
Proof. reflexivity. Qed.

(** A waiter that is given the reports it waits for returns. *)
Lemma wait_returns
    (fuel : nat) (states : list string)
    (others : list (World env -> World env)) (ocid target : string)
    (callback : option (string -> string -> M unit))
    (cw : string -> string -> World env -> World env)
    (cev : string -> string -> list Event) (n : nat) (w : World env) :
  (forall o s w0,
     call_back env callback o s w0 = Run (Done (Ok tt)) (cw o s w0) (cev o s)) ->
  (length states < fuel)%nat ->
  reports env ocid target cw states others w ->
  exists w',
    resume env others
      (_wait_for_instance_state env fuel ocid target callback n w)
    = Run (Done (Ok tt)) w' (waiter_events ocid target cev n states).
Proof.
  intros Hcb. revert fuel others n w.
  induction states as [|s states IH]; intros fuel others n w Hfuel Hrep.
  - destruct fuel as [|fuel]; [simpl in Hfuel; lia|].
    destruct Hrep as (i & x & Hget & Hst).
    rewrite wait_step. unfold client_get_instance. rewrite Hget. simpl reported.
    rewrite seq_ran_done, Hst, String.eqb_refl. gm_run.
    rewrite resume_done. by eexists.
  - destruct fuel as [|fuel]; [simpl in Hfuel; lia|].
    destruct Hrep as (i & x & Hget & Hst & Hne & Hrest).
    destruct others as [|o others]; [done|].
    rewrite wait_step. unfold client_get_instance. rewrite Hget. simpl reported.
    rewrite seq_ran_done, Hst.
    apply String.eqb_neq in Hne as ->.
    rewrite bind_eq, Hcb. gm_run. simpl resume.
    rewrite !resume_emitted.
    destruct (IH fuel others (S n) _ ltac:(simpl in Hfuel; lia) Hrest) as (w' & ->).
    exists w'. simpl. by rewrite <- !app_assoc.
Qed.

(** C6. Let the provider report, at the successive polls of a waiter,
    states that are not the target and then the target. The waiter
    returns at that poll: it has polled once per state reported, it has
    called the progress callback (if any) with the instance id and the
    state after each poll that did not report the target and not after
    the one that did, and it has slept after each such call with the
    retry count. *)
Theorem wait_for_instance_state_returns
    (fuel : nat) (states : list string)
    (others : list (World env -> World env)) (ocid target : string)
    (callback : option (string -> string -> M unit))
    (cw : string -> string -> World env -> World env)
    (cev : string -> string -> list Event) (n : nat) (w : World env) :
  (forall o s w0,
     call_back env callback o s w0 = Run (Done (Ok tt)) (cw o s w0) (cev o s)) ->
  (length states < fuel)%nat ->
  reports env ocid target cw states others w ->
  exists w',
    resume env others
      (_wait_for_instance_state env fuel ocid target callback n w)
    = Run (Done (Ok tt)) w' (waiter_events ocid target cev n states).
Proof. apply wait_returns. Qed.

End WaiterFacts.

(** The waiter of [_launch_instance] on an instance that is reported as
    provisioning, starting, and then running. *)
Lemma wait_for_instance_state_returns_witness :
  exists w',
    resume Scenario.env [Scenario.nobody; Scenario.nobody]
      (_wait_for_instance_state Scenario.env 5 "i1" "RUNNING"
         (Some (logging_callback Scenario.env)) 0
         (Sim.world Scenario.ext_starting))
    = Run (Done (Ok tt)) w'
        (waiter_events "i1" "RUNNING" Scenario.logging_events 0
           ["PROVISIONING"; "STARTING"]).
Proof.
  apply (wait_for_instance_state_returns Scenario.env 5
           ["PROVISIONING"; "STARTING"] [Scenario.nobody; Scenario.nobody]
           "i1" "RUNNING" (Some (logging_callback Scenario.env))
           (fun _ _ w => w)).
  - intros o s w0. reflexivity.
  - simpl. lia.
  - simpl. eexists _, _. split; [reflexivity|]. split; [reflexivity|].
    split; [done|].
    eexists _, _. split; [reflexivity|]. split; [reflexivity|].
    split; [done|].
    eexists _, _. split; reflexivity.
Defined.

(** On that run the waiter polls three times and logs the two states
    that are not the target. *)
Example wait_for_instance_state_run :
  waiter_events "i1" "RUNNING" Scenario.logging_events 0
    ["PROVISIONING"; "STARTING"]
  = [ EvGetInstance "i1" (Some "PROVISIONING");
      EvLog Debug (MInstance "i1" "state: PROVISIONING; waiting...");
      EvSleep (RandomSleep 0);
      EvGetInstance "i1" (Some "STARTING");
      EvLog Debug (MInstance "i1" "state: STARTING; waiting...");
      EvSleep (RandomSleep 1);
      EvGetInstance "i1" (Some "RUNNING") ].
Proof. reflexivity. Qed.

(** ** Decommission *)

Section DeleteFacts.
Context (env : Env).

Local Abbreviation M := (@GM env).

(** A waiter without callback does not touch the registry. *)
Lemma wait_preserves_node node fuel : forall others ocid target n (w : World env) g w' evs,
  Forall (untouched env node) others ->
  resume env others (_wait_for_instance_state env fuel ocid target None n w)
    = Run g w' evs ->
  heap (db w') !! node = heap (db w) !! node.
Proof.
  induction fuel as [|fuel IH]; intros others ocid target n w g w' evs Hothers.
  - simpl. rewrite hang_eq, resume_hang. by intros [= <- <- <-].
  - rewrite wait_step. unfold client_get_instance.
    destruct (get_instance env ocid (ext w)) as [[i|e] x]; gm_run.
    + destruct (String.eqb (lifecycle_state i) target); gm_run.
      * rewrite resume_done. by intros [= <- <- <-].
      * destruct others as [|o others]; simpl resume.
        { by intros [= <- <- <-]. }
        apply Forall_cons in Hothers as [Ho Hothers].
        gm_run. rewrite resume_emitted.
        destruct (resume env others _) as [g1 w1 evs1] eqn:Hr.
        apply IH in Hr; [|done]. intros [= <- <- <-]. by rewrite Hr, Ho.
    + rewrite resume_done. by intros [= <- <- <-].
Qed.

(** C5. A successful decommission of a node with a cache entry: the
    lookup and the terminate request succeed and the provider then
    reports states that are not TERMINATED and at last TERMINATED. The
    greenlet emits, in this order: the terminate request, the sleep of 3
    seconds, the polls of the waiter up to the one that reports
    TERMINATED, the deletion of the cache entry, and one host cleanup;
    the cache has no entry for the node when it ends. *)
Theorem delete_node_order
    (fuel : nat) (node : NodeRef) (o : World env -> World env)
    (others : list (World env -> World env)) (states : list string)
    (n : Node) (entry : gmap string string) (ocid : string)
    (i : Instance) (x1 x2 : Ext env) (w : World env) :
  heap (db w) !! node = Some n ->
  cache w !! node_name n = Some entry ->
  entry !! "id" = Some ocid ->
  get_instance env ocid (ext w) = (Ok i, x1) ->
  terminate_instance env (instance_id i) x1 = (Ok tt, x2) ->
  (length states < fuel)%nat ->
  reports env ocid "TERMINATED" (fun _ _ w0 => w0) states others
          (o (with_ext env w x2)) ->
  Forall (untouched env node) (o :: others) ->
  exists w',
    resume env (o :: others) (_delete_node env fuel node w)
    = Run (Done (Ok tt)) w'
        ([ EvCacheGet (node_name n);
           EvGetInstance ocid (Some (lifecycle_state i));
           EvLog Debug (MInstance (last6 ocid) "Terminating...");
           EvTerminateInstance (instance_id i);
           EvSleep (Seconds 3) ]
         ++ waiter_events ocid "TERMINATED" (fun _ _ => []) 0 states
         ++ [ EvCacheDelete (node_name n); EvDeleteNodeCleanup node ])%list
    /\ cache w' !! node_name n = None.
Proof.
  intros Hnode Hcache Hid Hget Hterm Hfuel Hrep Hothers.
  apply Forall_cons in Hothers as [Ho Hothers].
  destruct (wait_returns env fuel states others ocid
              "TERMINATED" None (fun _ _ w0 => w0) (fun _ _ => []) 0
              (o (with_ext env w x2)) ltac:(done) Hfuel Hrep) as (w3 & Hwait).
  pose proof (wait_preserves_node node fuel others _ _ _ _ _ _ _ Hothers Hwait)
    as Hnode3.
  rewrite Ho in Hnode3. simpl in Hnode3. rewrite Hnode in Hnode3.
  unfold _delete_node. gm_run.
  rewrite (getattr_eq _ _ _ _ Hnode). gm_run.
  unfold instanceCacheGet. rewrite Hcache. gm_run. rewrite Hid. gm_run.
  unfold client_get_instance. rewrite Hget. gm_run.
  unfold client_terminate_instance, call. simpl ext. rewrite Hterm. gm_run.
  simpl resume. gm_run. rewrite !resume_emitted.
  match goal with
  | |- context [resume env others (seq_ran (seq_ran (seq_ran ?W ?f1) ?f2) ?f3)] =>
      eassert (R1 : resume env others (seq_ran W f1) = _)
        by (eapply resume_seq_ran_done;
            [exact Hwait
            |cbv beta iota; gm_run; rewrite (getattr_eq _ _ _ _ Hnode3);
             gm_run; reflexivity]);
      eassert (R2 : resume env others (seq_ran (seq_ran W f1) f2) = _)
        by (eapply resume_seq_ran_done; [exact R1|cbv beta iota; gm_run; reflexivity]);
      eassert (R3 : resume env others (seq_ran (seq_ran (seq_ran W f1) f2) f3) = _)
        by (eapply resume_seq_ran_done; [exact R2|cbv beta iota; gm_run; reflexivity]);
      rewrite R3
  end.
  eexists. split.
  - simpl. by rewrite <- !app_assoc.
  - simpl. apply lookup_delete_eq.
Qed.

(** C4 (as the code has it). The provider's clients raise their own
    errors, never Tortuga's [ResourceNotFound]. The only lookup that
    [_delete_node] tolerates is then the one of the instance cache: for a
    node without cache entry the decommission asks the provider nothing,
    completes without raising and cleans up the host once, and the cache
    has no entry for the node. For a node with a cache entry, an error of
    the provider at the lookup of the cached instance id or at the
    terminate request (the provider does not know the instance any more)
    is raised by the decommission: the host is not cleaned up and the
    cache entry is neither deleted nor changed. A decommission that
    completes without raising in its first run is one of a node without
    cache entry. *)
Theorem delete_node_not_found
    (fuel : nat) (node : NodeRef) (n : Node) (w : World env) :
  heap (db w) !! node = Some n ->
  (forall ocid e x', get_instance env ocid (ext w) = (Exc e, x') -> oci_raises e) ->
  (forall ocid x e x',
      terminate_instance env ocid x = (Exc e, x') -> oci_raises e) ->
  (cache w !! node_name n = None ->
   _delete_node env fuel node w
   = Run (Done (Ok tt)) w [ EvCacheGet (node_name n); EvDeleteNodeCleanup node ])
  /\ (forall entry ocid e x',
        cache w !! node_name n = Some entry ->
        entry !! "id" = Some ocid ->
        get_instance env ocid (ext w) = (Exc e, x')
        \/ (exists i x1, get_instance env ocid (ext w) = (Ok i, x1)
                         /\ terminate_instance env (instance_id i) x1
                            = (Exc e, x')) ->
        exists evs,
          _delete_node env fuel node w
          = Run (Done (Exc e)) (with_ext env w x') evs
          /\ (EvDeleteNodeCleanup node ∉ evs)
          /\ (forall name, EvCacheDelete name ∉ evs)
          /\ cache (with_ext env w x') !! node_name n = Some entry)
  /\ (forall w' evs,
        _delete_node env fuel node w = Run (Done (Ok tt)) w' evs ->
        cache w !! node_name n = None).
Proof.
  intros Hnode Hget Hterm. split; [|split].
  - intros Hcache. unfold _delete_node. gm_run.
    rewrite (getattr_eq _ _ _ _ Hnode). gm_run.
    unfold instanceCacheGet. rewrite Hcache. gm_run. done.
  - intros entry ocid e x' Hcache Hid Hfail.
    unfold _delete_node. gm_run.
    rewrite (getattr_eq _ _ _ _ Hnode). gm_run.
    unfold instanceCacheGet. rewrite Hcache. gm_run. rewrite Hid. gm_run.
    unfold client_get_instance.
    destruct Hfail as [Hg|(i & x1 & Hg & Ht)].
    + pose proof (Hget _ _ _ Hg) as He. rewrite Hg. gm_run.
      exists [EvCacheGet (node_name n); EvGetInstance ocid None].
      destruct e; try done; gm_run;
        (split; [done|]); (split; [not_in_events|]);
        (split; [intros name; not_in_events|done]).
    + pose proof (Hterm _ _ _ _ Ht) as He. rewrite Hg. gm_run.
      unfold client_terminate_instance, call. simpl ext. rewrite Ht. gm_run.
      eexists [_; _; _; _].
      destruct e; try done; gm_run;
        (split; [reflexivity|]); (split; [not_in_events|]);
        (split; [intros name; not_in_events|done]).
  - intros w' evs. unfold _delete_node. gm_run.
    rewrite (getattr_eq _ _ _ _ Hnode). gm_run.
    unfold instanceCacheGet.
    destruct (cache w !! node_name n) as [entry|] eqn:Hcache; [|done].
    gm_run. destruct (entry !! "id") as [ocid|] eqn:Hid; gm_run; [|done].
    unfold client_get_instance.
    destruct (get_instance env ocid (ext w)) as [[i|e] x1] eqn:Hg; gm_run.
    + unfold client_terminate_instance, call. simpl ext.
      destruct (terminate_instance env (instance_id i) x1) as [[[]|e] x2] eqn:Ht;
        gm_run.
      * done.
      * pose proof (Hterm _ _ _ _ Ht) as He.
        destruct e; try done; gm_run; done.
    + pose proof (Hget _ _ _ Hg) as He.
      destruct e; try done; gm_run; done.
Qed.

End DeleteFacts.

(** A decommission of the node of the scenario that succeeds. *)
Lemma delete_node_order_witness :
  exists w',
    resume Scenario.env [Scenario.nobody; Scenario.nobody]
      (_delete_node Scenario.env 5 0%nat
         (Scenario.provisioned Scenario.ext_terminating))
    = Run (Done (Ok tt)) w'
        ([ EvCacheGet "compute-0.example.com";
           EvGetInstance "i1" (Some "RUNNING");
           EvLog Debug (MInstance "i1" "Terminating...");
           EvTerminateInstance "i1";
           EvSleep (Seconds 3) ]
         ++ waiter_events "i1" "TERMINATED" (fun _ _ => []) 0 ["TERMINATING"]
         ++ [ EvCacheDelete "compute-0.example.com"; EvDeleteNodeCleanup 0%nat ])%list
    /\ cache w' !! "compute-0.example.com" = None.
Proof.
  apply (delete_node_order Scenario.env 5 0%nat Scenario.nobody [Scenario.nobody]
           ["TERMINATING"] Scenario.compute0 Scenario.entry0 "i1"
           (mkInstance "i1" "RUNNING" "inst-i1" "compartment-1")
           (Sim.mkSimExt []
              [("i1", [Sim.inst "i1" "TERMINATING"; Sim.inst "i1" "TERMINATED"])] 0)
           (Sim.mkSimExt []
              [("i1", [Sim.inst "i1" "TERMINATING"; Sim.inst "i1" "TERMINATED"])] 0)
           (Scenario.provisioned Scenario.ext_terminating)).
  - reflexivity.
  - reflexivity.
  - reflexivity.
  - reflexivity.
  - reflexivity.
  - simpl. lia.
  - simpl. eexists _, _. split; [reflexivity|]. split; [reflexivity|].
    split; [done|]. eexists _, _. split; reflexivity.
  - repeat constructor; intros w; reflexivity.
Defined.

(** The node of the scenario, whose instance the provider does not know
    any more. *)
Lemma delete_node_not_found_witness :
  let w := Scenario.provisioned Scenario.ext_gone_404 in
  (cache w !! "compute-0.example.com" = None ->
   _delete_node Scenario.env 5 0%nat w
   = Run (Done (Ok tt)) w
         [ EvCacheGet "compute-0.example.com"; EvDeleteNodeCleanup 0%nat ])
  /\ (forall entry ocid e x',
        cache w !! "compute-0.example.com" = Some entry ->
        entry !! "id" = Some ocid ->
        get_instance Scenario.env ocid (ext w) = (Exc e, x')
        \/ (exists i x1, get_instance Scenario.env ocid (ext w) = (Ok i, x1)
                         /\ terminate_instance Scenario.env (instance_id i) x1
                            = (Exc e, x')) ->
        exists evs,
          _delete_node Scenario.env 5 0%nat w
          = Run (Done (Exc e)) (with_ext Scenario.env w x') evs
          /\ (EvDeleteNodeCleanup 0%nat ∉ evs)
          /\ (forall name, EvCacheDelete name ∉ evs)
          /\ cache (with_ext Scenario.env w x') !! "compute-0.example.com"
             = Some entry)
  /\ (forall w' evs,
        _delete_node Scenario.env 5 0%nat w = Run (Done (Ok tt)) w' evs ->
        cache w !! "compute-0.example.com" = None).
Proof.
  apply (delete_node_not_found Scenario.env 5 0%nat Scenario.compute0
           (Scenario.provisioned Scenario.ext_gone_404) eq_refl).
  - intros ocid e x'. unfold oci_raises.
    change (get_instance Scenario.env ocid
              (ext (Scenario.provisioned Scenario.ext_gone_404)))
      with (let (r, l) := Sim.pop_report ocid [("i1", [Exc (ServiceError 404)])]
            in (r, Sim.mkSimExt [] l 0%nat)).
    cbn [Sim.pop_report].
    destruct (String.eqb "i1" ocid); intros H; inversion H; discriminate.
  - intros ocid x e x'. simpl. discriminate.
Defined.

(** C4, as stated, fails: the provider does not know the cached instance
    any more and its client says so, with a service error of status 404.
    The decommission raises that error; the host is not cleaned up and
    the cache entry of the node is still there. *)
Lemma delete_node_not_found_raises :
  exists w' evs,
    _delete_node Scenario.env 5 0%nat (Scenario.provisioned Scenario.ext_gone_404)
    = Run (Done (Exc (ServiceError 404))) w' evs
    /\ evs = [ EvCacheGet "compute-0.example.com"; EvGetInstance "i1" None ]
    /\ (EvDeleteNodeCleanup 0%nat ∉ evs)
    /\ cache w' !! "compute-0.example.com" = Some Scenario.entry0
    /\ cache w' !! "compute-0.example.com" <> None.
Proof.
  eexists _, _. split; [vm_compute; reflexivity|].
  split; [reflexivity|]. split; [not_in_events|]. split; [reflexivity|]. done.
Qed.

(** ** The registry session *)

Section RegistryFacts.

Lemma commit_rows_lookup (r : Registry) (k : nat) :
  commit_rows r !! k
  = if decide (k ∈ doomed r) then None
    else if decide (k ∈ attached r)
         then match heap r !! k with
              | Some n => Some n
              | None => rows r !! k
              end
         else rows r !! k.
Proof.
  unfold commit_rows. rewrite lookup_union, !map_lookup_filter.
  destruct (heap r !! k) as [n|], (rows r !! k) as [n'|]; simpl;
    repeat case_guard; simpl in *; repeat case_decide; try done;
    exfalso;
    repeat match goal with
    | H : _ ∈ _ ∖ _ |- _ => apply elem_of_difference in H
    | H : ¬ (_ ∈ _ ∖ _) |- _ => rewrite elem_of_difference in H
    end; tauto.
Qed.

(** A rollback: [delete] then [commit]. The deleted object is gone from
    the session and from the rows. *)
Lemma rollback_removes (r : Registry) (p : nat) :
  let r' := registry_commit (registry_delete p r) in
  rows r' !! p = None /\ (p ∉ attached r') /\ doomed r' = ∅.
Proof.
  simpl. split; [|split; [|done]].
  2: { rewrite elem_of_difference, elem_of_union, elem_of_singleton. tauto. }
  rewrite commit_rows_lookup. simpl. rewrite decide_True; [done|].
  apply elem_of_union. left. by apply elem_of_singleton.
Qed.

End RegistryFacts.

(** ** One launch unit *)

Section UnitFacts.
Context (env : Env).

Local Abbreviation M := (@GM env).

(** A unit whose launch step raises: the handler runs in the world the
    exception was raised in, and the unit returns [None]. *)
Lemma add_node_launch_raises
    (fuel : nat) (node_spec : NodeSpec)
    (others : list (World env -> World env))
    (w w1 w2 : World env) (evs1 evs2 : list Event) (nd : NodeDict) (e : exn) :
  __oci_pre_launch_instance env node_spec w = Run (Done (Ok nd)) w1 evs1 ->
  resume env others (_launch_instance env fuel nd node_spec w1)
    = Run (Done (Exc e)) w2 evs2 ->
  resume env others (__oci_add_node env fuel node_spec w)
    = Run (Done (Ok None)) (handled env nd w2)
          (evs1 ++ evs2 ++ handler_events nd e)%list.
Proof.
  intros Hpre Hlaunch.
  unfold __oci_add_node. rewrite bind_eq, Hpre, seq_ran_done.
  rewrite resume_emitted. cbv beta iota. rewrite bind_eq, try_except_eq, bind_eq.
  match goal with
  | |- context [resume env others (seq_ran (seq_ran (seq_ran ?L ?f1) ?f2) ?f3)] =>
      eassert (R1 : resume env others (seq_ran L f1) = _)
        by (eapply resume_seq_ran_done;
            [exact Hlaunch|cbv beta iota; gm_run; reflexivity]);
      eassert (R2 : resume env others (seq_ran (seq_ran L f1) f2)
                    = Run (Done (Ok None)) (handled env nd w2)
                          ((evs2 ++ []) ++ handler_events nd e)%list)
        by (eapply resume_seq_ran_done;
            [exact R1
            |cbv beta iota; unfold handled, handler_events;
             destruct (nd_node nd); gm_run; reflexivity]);
      eassert (R3 : resume env others (seq_ran (seq_ran (seq_ran L f1) f2) f3) = _)
        by (eapply resume_seq_ran_done;
            [exact R2|cbv beta iota; gm_run; reflexivity]);
      rewrite R3
  end.
  by rewrite !app_nil_r.
Qed.

(** C1. A launch unit created a placeholder in its pre-launch, and its
    launch step then raised an exception. The unit deletes the
    placeholder and commits, in the world the exception was raised in,
    logs the error and returns [None]: it does not raise, and the
    placeholder is neither tracked by the session nor a row of the
    registry when the unit ends. *)
Theorem add_node_rollback
    (fuel : nat) (node_spec : NodeSpec)
    (others : list (World env -> World env))
    (w w1 w2 : World env) (evs1 evs2 : list Event) (p : NodeRef) (e : exn) :
  __oci_pre_launch_instance env node_spec w
    = Run (Done (Ok (mkNodeDict (Some p)))) w1 evs1 ->
  resume env others (_launch_instance env fuel (mkNodeDict (Some p)) node_spec w1)
    = Run (Done (Exc e)) w2 evs2 ->
  resume env others (__oci_add_node env fuel node_spec w)
    = Run (Done (Ok None)) (rolled_back env p w2)
          (evs1 ++ evs2
           ++ [ EvDbDelete p; EvDbCommit; EvLog Error (MLaunchError e) ])%list
  /\ rows (db (rolled_back env p w2)) !! p = None
  /\ (p ∉ attached (db (rolled_back env p w2))).
Proof.
  intros Hpre Hlaunch.
  split; [|by destruct (rollback_removes (db w2) p) as (? & ? & _)].
  exact (add_node_launch_raises _ _ _ _ _ _ _ _ _ _ Hpre Hlaunch).
Qed.

End UnitFacts.

(** A unit of the scenario whose launch request the provider rejects. *)
Lemma add_node_rollback_witness :
  exists w2 evs1 evs2,
    resume Scenario.env []
      (__oci_add_node Scenario.env 5 Scenario.node_spec
         (Sim.world Scenario.ext_rejects))
    = Run (Done (Ok None)) (rolled_back Scenario.env 0%nat w2)
          (evs1 ++ evs2
           ++ [ EvDbDelete 0%nat; EvDbCommit;
                EvLog Error (MLaunchError (ServiceError 500)) ])%list
    /\ rows (db (rolled_back Scenario.env 0%nat w2)) !! 0%nat = None
    /\ (0%nat ∉ attached (db (rolled_back Scenario.env 0%nat w2))).
Proof.
  eexists _, _, _.
  eapply (add_node_rollback Scenario.env 5 Scenario.node_spec []
            (Sim.world Scenario.ext_rejects)).
  - vm_compute. reflexivity.
  - vm_compute. reflexivity.
Defined.

(** ** The greenlets of one request *)

Section PoolFacts.
Context (env : Env).

Local Abbreviation M := (@GM env).

Lemma fin_ok_spawned {A} (f : M A) n : fin_ok env (replicate n (spawn env f)) [].
Proof.
  split; [constructor|]. intros i. split; [by intros ?%elem_of_nil|].
  intros (g & Hg & Hd). apply lookup_replicate in Hg as [-> _]. done.
Qed.

Lemma run_greenlets_inv {A} sched :
  forall (pool : list (G A)) fin (w : World env) pool' fin' w' evs,
    fin_ok env pool fin ->
    run_greenlets env sched pool fin w = (pool', fin', w', evs) ->
    fin_ok env pool' fin' /\ length pool' = length pool.
Proof.
  induction sched as [|i sched IH]; intros pool fin w pool' fin' w' evs Hok; simpl.
  { by intros [= <- <- <- <-]. }
  destruct (pool !! i) as [[r| |k]|] eqn:Hi; try by apply IH.
  destruct (k w) as [g w1 evs1].
  destruct (run_greenlets env sched _ _ w1) as [[[pool1 fin1] w2] evs2] eqn:Hrun.
  intros [= <- <- <- <-].
  apply IH in Hrun as [Hok1 Hlen]; [by rewrite Hlen, length_insert|].
  destruct Hok as [Hnd Hin].
  assert (Hnotin : i ∉ fin).
  { intros (g' & Hg' & Hd)%Hin. rewrite Hi in Hg'. by injection Hg' as <-. }
  assert (Hlt : (i < length pool)%nat) by (by eapply lookup_lt_Some).
  destruct (is_done env g) eqn:Hdone.
  - split.
    + apply NoDup_app. split; [done|]. split; [|apply NoDup_singleton].
      intros j Hj ->%list_elem_of_singleton. done.
    + intros j. rewrite elem_of_app, list_elem_of_singleton, Hin.
      destruct (decide (j = i)) as [->|Hne].
      * rewrite list_lookup_insert_eq by done. split; [by eauto|by eauto].
      * rewrite list_lookup_insert_ne by done. split; [by intros [?|?]|by eauto].
  - split; [done|]. intros j. rewrite Hin.
    destruct (decide (j = i)) as [->|Hne].
    + rewrite list_lookup_insert_eq by done. rewrite Hi. split.
      * by intros (g' & [= <-] & ?).
      * intros (g' & [= <-] & Hd). by rewrite Hd in Hdone.
    + by rewrite list_lookup_insert_ne.
Qed.

(** Once every greenlet has finished, [fin] lists them all. *)
Lemma all_done_fin {A} (pool : list (G A)) fin :
  fin_ok env pool fin -> forallb (is_done env) pool = true ->
  fin ≡ₚ seq 0%nat (length pool).
Proof.
  intros [Hnd Hin] Hall. apply NoDup_Permutation; [done|apply NoDup_seq|].
  intros i. rewrite Hin, elem_of_seq. split.
  - intros (g & Hg & _). apply lookup_lt_Some in Hg. lia.
  - intros [_ Hlt]. destruct (lookup_lt_is_Some_2 pool i ltac:(lia)) as [g Hg].
    exists g. split; [done|].
    rewrite forallb_forall in Hall. apply Hall.
    apply list_elem_of_In. by eapply list_elem_of_lookup_2.
Qed.

Lemma omap_lookup_seq {A B} (f : A -> option B) (pre pool : list A) :
  omap (fun i => (pre ++ pool)%list !! i ≫= f) (seq (length pre) (length pool))
  = omap f pool.
Proof.
  revert pre. induction pool as [|a pool IH]; intros pre; [done|].
  simpl. rewrite list_lookup_middle by done. simpl.
  specialize (IH (pre ++ [a])%list).
  rewrite length_app, <- app_assoc in IH. simpl in IH.
  rewrite Nat.add_1_r in IH. destruct (f a); [f_equal|]; exact IH.
Qed.

(** The values [iwait] collects are those of the greenlets that returned
    one, in the order they finished. *)
Lemma iwait_values_all {A} (pool : list (G (option A))) fin :
  fin_ok env pool fin -> forallb (is_done env) pool = true ->
  iwait_values env pool fin ≡ₚ omap (value env) pool.
Proof.
  intros Hok Hall. unfold iwait_values.
  rewrite (all_done_fin pool fin Hok Hall).
  pose proof (omap_lookup_seq (value env) [] pool) as H. simpl in H.
  by rewrite <- H.
Qed.

(** [getResourceAdapterConfig] reads, and changes nothing. *)
Lemma getResourceAdapterConfig_atomic (w : World env) :
  exists r, getResourceAdapterConfig env w = Run (Done r) w [].
Proof.
  unfold getResourceAdapterConfig. gm_run.
  destruct (base_adapter_config env (ext w)) as [cfg|e]; gm_run; [|by eexists].
  destruct (cfg !! "user_data_script_template") as [[| | |t]|]; gm_run;
    try by eexists.
  destruct (path_exists env _ (ext w)); gm_run; by eexists.
Qed.


(** The aggregation of [__oci_add_nodes], once the greenlets have run. *)
Lemma oci_add_nodes_result fuel sched count node_spec (w : World env)
    pool fin w' evs :
  run_greenlets env sched
    (replicate (Z.to_nat count) (spawn env (__oci_add_node env fuel node_spec)))
    [] w = (pool, fin, w', evs) ->
  forallb (is_done env) pool = true ->
  __oci_add_nodes env fuel sched count node_spec w
    = Run (Done (Ok (iwait_values env pool fin))) w' evs
  /\ iwait_values env pool fin ≡ₚ omap (value env) pool
  /\ length pool = Z.to_nat count.
Proof.
  intros Hrun Hall. unfold __oci_add_nodes. rewrite Hrun, Hall.
  apply run_greenlets_inv in Hrun as [Hok Hlen]; [|apply fin_ok_spawned].
  split; [done|]. split; [by apply iwait_values_all|].
  by rewrite Hlen, length_replicate.
Qed.


End PoolFacts.


(** Scenario A: the request returns the nodes of the third and of the
    first unit, which finished in this order, and logs the shortfall;
    the placeholder of the second unit is gone, the two nodes are
    provisioned and have their cache entries. *)
Example start_scenario_A :
  exists w' evs,
    start Scenario.env 5 Scenario.round_robin 3 Scenario.hw Scenario.sw
          (Sim.world Scenario.ext_three)
      = Run (Done (Ok [2; 0]%nat)) w' evs
    /\ EvLog Warning (MShortfall 3 2) ∈ evs
    /\ dom (rows (db w')) = {[ 0; 2 ]}%nat
    /\ node_state <$> rows (db w') !! 0%nat = Some (Some "Provisioned")
    /\ node_state <$> rows (db w') !! 2%nat = Some (Some "Provisioned")
    /\ dom (cache w') = {[ "compute-0.example.com"; "compute-2.example.com" ]}.
Proof.
  eexists _, _. split; [vm_compute; reflexivity|].
  split; [in_events|].
  split; [reflexivity|].
  split; [reflexivity|]. split; [reflexivity|].
  reflexivity.
Qed.

(** ** Configuration failures *)

Section ConfigFacts.
Context (env : Env).

(** C8 (as the code has it). A failure of [getResourceAdapterConfig],
    such as a configured user-data template that does not exist, is
    raised by [start] before any unit is spawned. A failure that a unit
    meets in its launch step (a template that cannot be opened, a shape
    without vcpu count, a launch request the provider rejects) ends that
    unit with [None] and no exception. Whatever the units of a request
    ended with, [start] returns, and its list has the node of every unit
    that returned one. *)
Theorem config_failure_scope
    (fuel : nat) (sched : list nat) (count : Z)
    (hw : Profile) (sw : option Profile) :
  (forall (w w0 : World env) e evs0,
     getResourceAdapterConfig env w = Run (Done (Exc e)) w0 evs0 ->
     start env fuel sched count hw sw w
       = Run (Done (Exc e)) w [ EvLog Debug MStart ])
  /\ (forall node_spec others (w w1 w2 : World env) nd e evs1 evs2,
        __oci_pre_launch_instance env node_spec w = Run (Done (Ok nd)) w1 evs1 ->
        resume env others (_launch_instance env fuel nd node_spec w1)
          = Run (Done (Exc e)) w2 evs2 ->
        exists w3 evs3,
          resume env others (__oci_add_node env fuel node_spec w)
            = Run (Done (Ok None)) w3 evs3)
  /\ (forall (w w0 w' : World env) cfg evs0 pool fin evs,
        getResourceAdapterConfig env w = Run (Done (Ok cfg)) w0 evs0 ->
        run_greenlets env sched
          (replicate (Z.to_nat count)
             (spawn env (__oci_add_node env fuel (mkNodeSpec hw sw cfg))))
          [] w = (pool, fin, w', evs) ->
        forallb (is_done env) pool = true ->
        exists evs',
          start env fuel sched count hw sw w
            = Run (Done (Ok (iwait_values env pool fin))) w' evs'
          /\ forall j n, pool !! j = Some (Done (Ok (Some n))) ->
                         n ∈ iwait_values env pool fin).
Proof.
  split; [|split].
  - intros w w0 e evs0 Hcfg.
    destruct (getResourceAdapterConfig_atomic env w) as [r Hr].
    rewrite Hr in Hcfg. injection Hcfg as -> _ _.
    unfold start, __add_nodes. gm_run. rewrite Hr. gm_run. reflexivity.
  - intros node_spec others w w1 w2 nd e evs1 evs2 Hpre Hlaunch.
    eexists _, _. exact (add_node_launch_raises _ _ _ _ _ _ _ _ _ _ _ Hpre Hlaunch).
  - intros w w0 w' cfg evs0 pool fin evs Hcfg Hrun Hall.
    destruct (getResourceAdapterConfig_atomic env w) as [r Hr].
    rewrite Hr in Hcfg. injection Hcfg as -> _ _.
    destruct (oci_add_nodes_result _ _ _ _ _ _ _ _ _ _ Hrun Hall)
      as (Hadd & Hperm & _).
    exists (EvLog Debug MStart
            :: evs
            ++ (if Z.of_nat (length (iwait_values env pool fin)) <? count
                then [ EvLog Warning
                         (MShortfall count (length (iwait_values env pool fin))) ]
                else [])
            ++ [ EvLog Debug MCompleted;
                 EvClearSessionNodes (iwait_values env pool fin) ])%list.
    split.
    + unfold start, __add_nodes. gm_run. rewrite Hr. gm_run. rewrite Hadd. gm_run.
      destruct (_ <? count); gm_run; reflexivity.
    + intros j n Hj. rewrite Hperm. apply list_elem_of_omap.
      exists (Done (Ok (Some n))). split; [|done].
      by eapply list_elem_of_lookup_2.
Qed.

End ConfigFacts.

(** The request of the scenario with a template that does not exist:
    [start] raises. *)
Lemma config_failure_scope_witness :
  start Scenario.env_missing 5 Scenario.round_robin 3 Scenario.hw Scenario.sw
        Scenario.w_missing
  = Run (Done (Exc (ConfigurationError "/opt/tortuga/config/missing.tmpl")))
        Scenario.w_missing [ EvLog Debug MStart ].
Proof.
  apply (proj1 (config_failure_scope Scenario.env_missing 5 Scenario.round_robin
                  3 Scenario.hw Scenario.sw)
               Scenario.w_missing Scenario.w_missing
               (ConfigurationError "/opt/tortuga/config/missing.tmpl") []).
  reflexivity.
Defined.

(** C8, as stated, fails: the configured template does not exist, and the
    failure is not confined to one launch attempt. The request of three
    nodes raises [ConfigurationError]; no unit has run, and the provider
    has not been asked to launch anything. *)
Lemma start_aborts_on_missing_template :
  exists w' evs,
    start Scenario.env_missing 5 Scenario.round_robin 3 Scenario.hw Scenario.sw
          Scenario.w_missing
      = Run (Done (Exc (ConfigurationError "/opt/tortuga/config/missing.tmpl")))
            w' evs
    /\ (forall i e, EvGreenlet i e ∉ evs)
    /\ Sim.launches (ext w') = Sim.launches Scenario.ext_three.
Proof.
  eexists _, _. split; [reflexivity|].
  split; [intros i e; simpl; not_in_events|reflexivity].
Qed.

(** A template that cannot be opened is met by each unit on its own: the
    three units log the error and return [None], and [start] returns the
    empty list. *)
Example start_unreadable_template :
  exists w' evs,
    start Scenario.env_unreadable 5 Scenario.round_robin 3 Scenario.hw
          Scenario.sw Scenario.w_unreadable
      = Run (Done (Ok [])) w' evs
    /\ EvGreenlet 0 (EvLog Error (MLaunchError OSError)) ∈ evs
    /\ EvGreenlet 1 (EvLog Error (MLaunchError OSError)) ∈ evs
    /\ EvGreenlet 2 (EvLog Error (MLaunchError OSError)) ∈ evs
    /\ EvLog Warning (MShortfall 3 0) ∈ evs
    /\ rows (db w') = ∅.
Proof.
  eexists _, _. split; [vm_compute; reflexivity|].
  repeat split; try in_events.
Qed.

(** ** The scope of a rollback *)

Section RollbackFacts.
Context (env : Env).

Lemma commit_rows_clean (r : Registry) (q : nat) :
  clean q r -> commit_rows r !! q = rows r !! q.
Proof.
  unfold clean, NodeRef. intros [Hd Hrow].
  rewrite commit_rows_lookup, decide_False by done.
  case_decide as Ha; [|done]. rewrite (Hrow Ha). by destruct (heap r !! q).
Qed.




End RollbackFacts.


(** On that run the row of the provisioned node is the one it had. *)
Example rollback_keeps_sibling :
  exists w' evs,
    __oci_add_node Scenario.env 5 Scenario.node_spec
      (Scenario.provisioned Scenario.ext_rejects)
      = Run (Done (Ok None)) w' evs
    /\ rows (db w') = {[ 0%nat := Scenario.compute0 ]}
    /\ heap (db w') !! 0%nat = Some Scenario.compute0
    /\ attached (db w') = {[ 0%nat ]}.
Proof.
  eexists _, _. split; [vm_compute; reflexivity|].
  split; [reflexivity|]. split; reflexivity.
Qed.


(** ** Host names *)

Section HostNameFacts.

Local Arguments String.append !_ _ : simpl nomatch.

Lemma split_nonempty sep s : PyStr.split sep s <> [].
Proof.
  destruct s as [|c s]; simpl; [done|].
  destruct (Ascii.eqb c sep); [done|]. by destruct (PyStr.split sep s).
Qed.

(** [sep.join(s.split(sep))] is [s]. *)
Lemma join_split s : PyStr.join "." (PyStr.split "." s) = s.
Proof.
  induction s as [|c s IH]; [done|]. simpl.
  destruct (Ascii.eqb c ".") eqn:Hc.
  - apply Ascii.eqb_eq in Hc as ->.
    pose proof (split_nonempty "." s) as Hne.
    destruct (PyStr.split "." s) as [|x r]; [done|].
    change (PyStr.join "." ("" :: x :: r)) with ("" ++ "." ++ PyStr.join "." (x :: r)).
    by rewrite IH.
  - pose proof (split_nonempty "." s) as Hne.
    destruct (PyStr.split "." s) as [|x r]; [done|].
    destruct r as [|y r].
    + simpl in *. by rewrite IH.
    + change (PyStr.join "." (String c x :: y :: r))
        with (String c x ++ "." ++ PyStr.join "." (y :: r)).
      change (PyStr.join "." (x :: y :: r))
        with (x ++ "." ++ PyStr.join "." (y :: r)) in IH.
      rewrite <- IH. reflexivity.
Qed.

Lemma split_dotless a : dotless a = true -> PyStr.split "." a = [a].
Proof.
  induction a as [|c a IH]; [done|]. simpl.
  intros [Hc Ha]%andb_prop. apply negb_true_iff in Hc. rewrite Hc.
  by rewrite (IH Ha).
Qed.

Lemma split_cut a b :
  dotless a = true -> PyStr.split "." (a ++ "." ++ b) = a :: PyStr.split "." b.
Proof.
  induction a as [|c a IH]; [done|]. simpl.
  intros [Hc Ha]%andb_prop. apply negb_true_iff in Hc. rewrite Hc.
  specialize (IH Ha). simpl in IH. by rewrite IH.
Qed.

Lemma split1_dotless a : dotless a = true -> PyStr.split1 "." a = [a].
Proof.
  induction a as [|c a IH]; [done|]. simpl.
  intros [Hc Ha]%andb_prop. apply negb_true_iff in Hc. rewrite Hc.
  by rewrite (IH Ha).
Qed.

Lemma split1_cut a b :
  dotless a = true -> PyStr.split1 "." (a ++ "." ++ b) = [a; b].
Proof.
  induction a as [|c a IH]; [done|]. simpl.
  intros [Hc Ha]%andb_prop. apply negb_true_iff in Hc. rewrite Hc.
  specialize (IH Ha). simpl in IH. by rewrite IH.
Qed.

(** [a, b = s.split('.', 1)] succeeds when [s] has a ['.']; [a] is what
    is before the first one and [b] what is after it. *)
Lemma split1_inv s : forall a b,
  PyStr.split1 "." s = [a; b] -> s = a ++ "." ++ b /\ dotless a = true.
Proof.
  induction s as [|c s IH]; intros a b; simpl; [done|].
  destruct (Ascii.eqb c ".") eqn:Hc.
  - apply Ascii.eqb_eq in Hc as ->. by intros [= <- <-].
  - destruct (PyStr.split1 "." s) as [|seg rest]; [done|].
    intros [= <- ->]. destruct (IH seg b eq_refl) as [-> Hd].
    split; [done|]. simpl. by rewrite Hc, Hd.
Qed.

Lemma unpack2_split1 s a b :
  unpack2 (PyStr.split1 "." s) = Ok (a, b) <->
  s = a ++ "." ++ b /\ dotless a = true.
Proof.
  split.
  - unfold unpack2.
    destruct (PyStr.split1 "." s) as [|x [|y [|z r]]] eqn:Hs; try done.
    intros [= -> ->]. by apply split1_inv.
  - intros [-> Hd]. by rewrite split1_cut.
Qed.

(** The name of a node that takes its host label from [label] and its
    domain from the host name [host.domain]. *)
Lemma join_label_domain label host domain :
  dotless host = true ->
  PyStr.join "." (label :: tail (PyStr.split "." (host ++ "." ++ domain)))
  = label ++ "." ++ domain.
Proof.
  intros Hd. rewrite (split_cut _ _ Hd). simpl tail.
  pose proof (split_nonempty "." domain) as Hne.
  pose proof (join_split domain) as Hj.
  destruct (PyStr.split "." domain) as [|x r]; [done|].
  change (PyStr.join "." (label :: x :: r))
    with (label ++ "." ++ PyStr.join "." (x :: r)).
  by rewrite Hj.
Qed.

End HostNameFacts.

(** ** More on sessions *)

Section SessionExtras.
Context (env : Env).

(** What the caller configures wins over the defaults: a session that
    could be built has every setting of [override_config] as given,
    ['metadata'] apart, and ['vcpus'] when it is not empty. *)
Theorem OciSession_override
    (override_config : gmap string PyVal) (x : Ext env) (s : OciSession)
    (k : string) (v : PyVal) :
  OciSession_init env override_config x = Ok s ->
  override_config !! k = Some v ->
  k <> "metadata" ->
  (k = "vcpus" -> truthy v = true) ->
  config s !! k = Some v.
Proof.
  unfold OciSession_init. intros Hinit Hk Hmeta Hvcpus.
  destruct (_get_ssh_key env x) as [ssh|e]; [|done]. simpl in Hinit.
  set (cfg := delete "metadata" override_config ∪ default_config env) in *.
  assert (Hcfg : cfg !! k = Some v).
  { unfold cfg. apply lookup_union_Some_l. by rewrite lookup_delete_ne. }
  destruct (getitem cfg "vcpus") as [vc|e] eqn:Hvc; [|done]. simpl in Hinit.
  destruct (truthy vc) eqn:Ht.
  - by injection Hinit as <-.
  - destruct (cores_from_shape cfg) as [n|e]; [|done]. simpl in Hinit.
    injection Hinit as <-. simpl.
    rewrite lookup_insert_ne; [done|]. intros <-.
    unfold getitem in Hvc. rewrite Hcfg in Hvc. injection Hvc as <-.
    rewrite Hvcpus in Ht; done.
Qed.

(** A session with a vcpu count of its own keeps it and never reads the
    shape: it is built whatever the shape is. *)
Theorem OciSession_explicit_vcpus
    (override_config : gmap string PyVal) (x : Ext env) (ssh v : PyVal) :
  _get_ssh_key env x = Ok ssh ->
  override_config !! "vcpus" = Some v ->
  truthy v = true ->
  exists s,
    OciSession_init env override_config x = Ok s
    /\ config s = delete "metadata" override_config ∪ default_config env
    /\ config s !! "vcpus" = Some v.
Proof.
  intros Hssh Hv Ht. unfold OciSession_init. rewrite Hssh. simpl.
  assert (Hcfg : (delete "metadata" override_config ∪ default_config env)
                 !! "vcpus" = Some v).
  { apply lookup_union_Some_l. by rewrite lookup_delete_ne. }
  unfold getitem. rewrite Hcfg. simpl. rewrite Ht.
  eexists. split; [done|]. by split.
Qed.

(** [_validate_config] accepts a session exactly when its four required
    settings are present and not empty. *)
Theorem validate_config_ok (s : OciSession) :
  _validate_config s = Ok tt
  <-> Forall (fun key => exists v, config s !! key = Some v /\ truthy v = true)
             ["availability_domain"; "compartment_id"; "subnet_id"; "image_id"].
Proof.
  unfold _validate_config. simpl. unfold getitem.
  split.
  - intros H.
    destruct (config s !! "availability_domain") as [v1|] eqn:E1; [|done]. simpl in H.
    destruct (truthy v1) eqn:H1; [|done]. simpl in H.
    destruct (config s !! "compartment_id") as [v2|] eqn:E2; [|done]. simpl in H.
    destruct (truthy v2) eqn:H2; [|done]. simpl in H.
    destruct (config s !! "subnet_id") as [v3|] eqn:E3; [|done]. simpl in H.
    destruct (truthy v3) eqn:H3; [|done]. simpl in H.
    destruct (config s !! "image_id") as [v4|] eqn:E4; [|done]. simpl in H.
    destruct (truthy v4) eqn:H4; [|done].
    repeat (apply List.Forall_cons; [eexists; split; [eassumption|done]|]).
    apply List.Forall_nil.
  - intros H.
    apply Forall_cons in H as [(v1 & E1 & T1) H].
    apply Forall_cons in H as [(v2 & E2 & T2) H].
    apply Forall_cons in H as [(v3 & E3 & T3) H].
    apply Forall_cons in H as [(v4 & E4 & T4) _].
    rewrite E1; simpl; rewrite T1; simpl.
    rewrite E2; simpl; rewrite T2; simpl.
    rewrite E3; simpl; rewrite T3; simpl.
    rewrite E4; simpl; rewrite T4; done.
Qed.

End SessionExtras.

(** The session of the scenario takes its compartment from the adapter
    configuration. *)
Lemma OciSession_override_witness :
  config (mkSession
            (<["vcpus" := VInt 4]>
               (delete "metadata" Scenario.cfg ∪ default_config Scenario.env))
            (MetaDict VNone None))
    !! "compartment_id" = Some (VStr "c1").
Proof.
  apply (OciSession_override Scenario.env Scenario.cfg Scenario.ext0 _
           "compartment_id" (VStr "c1")).
  - reflexivity.
  - reflexivity.
  - discriminate.
  - discriminate.
Defined.

(** A session with 8 vcpus of its own and a shape that has no count. *)
Lemma OciSession_explicit_vcpus_witness :
  exists s,
    OciSession_init Scenario.env
      (<["vcpus" := VInt 8]> {[ "shape" := VStr "foo-bar" ]}) Scenario.ext0 = Ok s
    /\ config s = delete "metadata" (<["vcpus" := VInt 8]> {[ "shape" := VStr "foo-bar" ]})
                  ∪ default_config Scenario.env
    /\ config s !! "vcpus" = Some (VInt 8).
Proof.
  apply (OciSession_explicit_vcpus Scenario.env _ Scenario.ext0 VNone (VInt 8)).
  - reflexivity.
  - reflexivity.
  - reflexivity.
Defined.

(** ** More on the waiter *)

Section WaiterExtras.
Context (env : Env).

Local Abbreviation M := (@GM env).

(** The waiter never returns early: when it has returned, the provider
    had reported states that are not the target, and then the target,
    at its successive polls, and the waiter has emitted the events of
    such a run. In particular it returns at a poll that reported the
    target. *)
Theorem wait_for_instance_state_returned
    (fuel : nat) (others : list (World env -> World env)) (ocid target : string)
    (callback : option (string -> string -> M unit))
    (cw : string -> string -> World env -> World env)
    (cev : string -> string -> list Event) (n : nat)
    (w w' : World env) (evs : list Event) :
  (forall o s w0,
     call_back env callback o s w0 = Run (Done (Ok tt)) (cw o s w0) (cev o s)) ->
  resume env others
    (_wait_for_instance_state env fuel ocid target callback n w)
    = Run (Done (Ok tt)) w' evs ->
  exists states,
    (length states < fuel)%nat
    /\ reports env ocid target cw states others w
    /\ evs = waiter_events ocid target cev n states.
Proof.
  intros Hcb. revert others n w evs.
  induction fuel as [|fuel IH]; intros others n w evs.
  - simpl. rewrite hang_eq, resume_hang. discriminate.
  - rewrite wait_step. unfold client_get_instance.
    destruct (get_instance env ocid (ext w)) as [[i|e] x] eqn:Hget; gm_run.
    + destruct (String.eqb (lifecycle_state i) target) eqn:Hst; gm_run.
      * rewrite resume_done. intros [= <- <-].
        apply String.eqb_eq in Hst.
        exists []. split; [simpl; lia|]. split; [|by rewrite <- Hst].
        simpl. by eexists _, _.
      * rewrite Hcb. gm_run.
        destruct others as [|o others]; simpl resume; [discriminate|].
        gm_run. rewrite resume_emitted.
        destruct (resume env others _) as [g1 w1 evs1] eqn:Hr.
        simpl. intros [= -> -> <-].
        apply IH in Hr as (states & Hlen & Hrep & ->).
        apply String.eqb_neq in Hst.
        exists (lifecycle_state i :: states).
        split; [simpl; lia|]. split.
        -- simpl. by eexists _, _.
        -- simpl. by rewrite <- !app_assoc.
    + rewrite resume_done. discriminate.
Qed.

(** An error of the provider at a poll ends the wait: the waiter raises
    it, and polls no more. *)
Theorem wait_for_instance_state_raises
    (fuel : nat) (states : list string)
    (others : list (World env -> World env)) (ocid target : string)
    (callback : option (string -> string -> M unit))
    (cw : string -> string -> World env -> World env)
    (cev : string -> string -> list Event) (e : exn) (n : nat) (w : World env) :
  (forall o s w0,
     call_back env callback o s w0 = Run (Done (Ok tt)) (cw o s w0) (cev o s)) ->
  (length states < fuel)%nat ->
  reports_error env ocid target cw states others e w ->
  exists w',
    resume env others
      (_wait_for_instance_state env fuel ocid target callback n w)
    = Run (Done (Exc e)) w' (waiter_error_events ocid cev n states).
Proof.
  intros Hcb. revert fuel others n w.
  induction states as [|s states IH]; intros fuel others n w Hfuel Hrep.
  - destruct fuel as [|fuel]; [simpl in Hfuel; lia|].
    destruct Hrep as (x & Hget).
    rewrite wait_step. unfold client_get_instance. rewrite Hget. simpl reported.
    gm_run. rewrite resume_done. by eexists.
  - destruct fuel as [|fuel]; [simpl in Hfuel; lia|].
    destruct Hrep as (i & x & Hget & Hst & Hne & Hrest).
    destruct others as [|o others]; [done|].
    rewrite wait_step. unfold client_get_instance. rewrite Hget. simpl reported.
    rewrite seq_ran_done, Hst.
    apply String.eqb_neq in Hne as ->.
    rewrite bind_eq, Hcb. gm_run. simpl resume.
    rewrite !resume_emitted.
    destruct (IH fuel others (S n) _ ltac:(simpl in Hfuel; lia) Hrest) as (w' & ->).
    exists w'. simpl. by rewrite <- !app_assoc.
Qed.

End WaiterExtras.

(** The waiter of the scenario has returned: the provider had reported
    the instance as provisioning, starting, and then running. *)
Lemma wait_for_instance_state_returned_witness :
  exists states,
    (length states < 5)%nat
    /\ reports Scenario.env "i1" "RUNNING" (fun _ _ w => w) states
         [Scenario.nobody; Scenario.nobody] (Sim.world Scenario.ext_starting)
    /\ waiter_events "i1" "RUNNING" Scenario.logging_events 0
         ["PROVISIONING"; "STARTING"]
       = waiter_events "i1" "RUNNING" Scenario.logging_events 0 states.
Proof.
  eapply (wait_for_instance_state_returned Scenario.env 5
            [Scenario.nobody; Scenario.nobody] "i1" "RUNNING"
            (Some (logging_callback Scenario.env)) (fun _ _ w => w)
            Scenario.logging_events 0 (Sim.world Scenario.ext_starting)).
  - intros o s w0. reflexivity.
  - vm_compute. reflexivity.
Defined.

(** The provider reports the instance as terminating and then fails. *)
Lemma wait_for_instance_state_raises_witness :
  exists w',
    resume Scenario.env [Scenario.nobody]
      (_wait_for_instance_state Scenario.env 5 "i1" "TERMINATED" None 0
         (Sim.world Scenario.ext_failing))
    = Run (Done (Exc (ServiceError 500))) w'
        (waiter_error_events "i1" (fun _ _ => []) 0 ["TERMINATING"]).
Proof.
  apply (wait_for_instance_state_raises Scenario.env 5 ["TERMINATING"]
           [Scenario.nobody] "i1" "TERMINATED" None (fun _ _ w => w)).
  - intros o s w0. reflexivity.
  - simpl. lia.
  - simpl. eexists _, _. split; [reflexivity|]. split; [reflexivity|].
    split; [done|]. eexists. reflexivity.
Defined.

(** ** More on decommission *)

Section DeleteExtras.
Context (env : Env).

(** A node without a cache entry: the decommission asks the provider
    nothing, cleans up the host once and changes nothing else. *)
Theorem delete_node_no_cache_entry
    (fuel : nat) (node : NodeRef) (n : Node) (w : World env) :
  heap (db w) !! node = Some n ->
  cache w !! node_name n = None ->
  _delete_node env fuel node w
  = Run (Done (Ok tt)) w [ EvCacheGet (node_name n); EvDeleteNodeCleanup node ].
Proof.
  intros Hnode Hcache. unfold _delete_node. gm_run.
  rewrite (getattr_eq _ _ _ _ Hnode). gm_run.
  unfold instanceCacheGet. rewrite Hcache. gm_run. done.
Qed.

(** An error of the provider other than [ResourceNotFound], at the
    lookup of the instance or at the terminate request, ends the
    decommission: it raises that error, the host is not cleaned up and
    the cache entry stays. *)
Theorem delete_node_raises
    (fuel : nat) (node : NodeRef) (n : Node) (entry : gmap string string)
    (ocid : string) (e : exn) (x' : Ext env) (w : World env) :
  heap (db w) !! node = Some n ->
  cache w !! node_name n = Some entry ->
  entry !! "id" = Some ocid ->
  e <> ResourceNotFound ->
  get_instance env ocid (ext w) = (Exc e, x')
  \/ (exists i x1, get_instance env ocid (ext w) = (Ok i, x1)
                   /\ terminate_instance env (instance_id i) x1 = (Exc e, x')) ->
  exists evs,
    _delete_node env fuel node w = Run (Done (Exc e)) (with_ext env w x') evs
    /\ (EvDeleteNodeCleanup node ∉ evs)
    /\ (forall name, EvCacheDelete name ∉ evs)
    /\ cache (with_ext env w x') !! node_name n = Some entry.
Proof.
  intros Hnode Hcache Hid He Hfail.
  unfold _delete_node. gm_run.
  rewrite (getattr_eq _ _ _ _ Hnode). gm_run.
  unfold instanceCacheGet. rewrite Hcache. gm_run. rewrite Hid. gm_run.
  unfold client_get_instance.
  destruct Hfail as [Hget|(i & x1 & Hget & Hterm)]; rewrite Hget; gm_run.
  - exists [EvCacheGet (node_name n); EvGetInstance ocid None].
    destruct e; try done; gm_run;
      (split; [done|]); (split; [not_in_events|]);
      (split; [intros name; not_in_events|done]).
  - unfold client_terminate_instance, call. simpl ext. rewrite Hterm. gm_run.
    eexists [_; _; _; _].
    destruct e; try done; gm_run;
      (split; [reflexivity|]); (split; [not_in_events|]);
      (split; [intros name; not_in_events|done]).
Qed.

(** A cache entry without an instance id: the decommission raises
    [KeyError] before it asks the provider anything. *)
Theorem delete_node_no_instance_id
    (fuel : nat) (node : NodeRef) (n : Node) (entry : gmap string string)
    (w : World env) :
  heap (db w) !! node = Some n ->
  cache w !! node_name n = Some entry ->
  entry !! "id" = None ->
  _delete_node env fuel node w
  = Run (Done (Exc (KeyError "id"))) w [ EvCacheGet (node_name n) ].
Proof.
  intros Hnode Hcache Hid. unfold _delete_node. gm_run.
  rewrite (getattr_eq _ _ _ _ Hnode). gm_run.
  unfold instanceCacheGet. rewrite Hcache. gm_run. rewrite Hid. gm_run. done.
Qed.

End DeleteExtras.

(** The node of the scenario, when the instance cache is empty. *)
Lemma delete_node_no_cache_entry_witness :
  _delete_node Scenario.env 5 0%nat
    (mkWorld Scenario.ext0 Scenario.registry0 ∅ (VInt 4) None)
  = Run (Done (Ok tt)) (mkWorld Scenario.ext0 Scenario.registry0 ∅ (VInt 4) None)
        [ EvCacheGet "compute-0.example.com"; EvDeleteNodeCleanup 0%nat ].
Proof.
  apply (delete_node_no_cache_entry Scenario.env 5 0%nat Scenario.compute0).
  - reflexivity.
  - reflexivity.
Defined.

(** The provider answers the lookup of the instance with a service
    error of status 404. *)
Lemma delete_node_raises_witness :
  exists evs,
    _delete_node Scenario.env 5 0%nat (Scenario.provisioned Scenario.ext_gone_404)
    = Run (Done (Exc (ServiceError 404)))
          (with_ext Scenario.env (Scenario.provisioned Scenario.ext_gone_404)
                    (Sim.mkSimExt [] [("i1", [])] 0)) evs
    /\ (EvDeleteNodeCleanup 0%nat ∉ evs)
    /\ (forall name, EvCacheDelete name ∉ evs)
    /\ cache (with_ext Scenario.env (Scenario.provisioned Scenario.ext_gone_404)
                       (Sim.mkSimExt [] [("i1", [])] 0))
         !! "compute-0.example.com" = Some Scenario.entry0.
Proof.
  apply (delete_node_raises Scenario.env 5 0%nat Scenario.compute0
           Scenario.entry0 "i1" (ServiceError 404)
           (Sim.mkSimExt [] [("i1", [])] 0)
           (Scenario.provisioned Scenario.ext_gone_404)
           eq_refl eq_refl eq_refl).
  - discriminate.
  - left. reflexivity.
Defined.

(** A cache entry that only holds a shape. *)
Lemma delete_node_no_instance_id_witness :
  _delete_node Scenario.env 5 0%nat
    (mkWorld Scenario.ext0 Scenario.registry0
       {[ "compute-0.example.com" := {[ "shape" := "VM.Standard2.4" ]} ]}
       (VInt 4) None)
  = Run (Done (Exc (KeyError "id")))
        (mkWorld Scenario.ext0 Scenario.registry0
           {[ "compute-0.example.com" := {[ "shape" := "VM.Standard2.4" ]} ]}
           (VInt 4) None)
        [ EvCacheGet "compute-0.example.com" ].
Proof.
  apply (delete_node_no_instance_id Scenario.env 5 0%nat Scenario.compute0
           {[ "shape" := "VM.Standard2.4" ]}).
  - reflexivity.
  - reflexivity.
  - reflexivity.
Defined.

(** ** More on the configuration and on the adapter's fields *)

Section ConfigExtras.
Context (env : Env).

Local Open Scope gm_scope.

(** What a session that could be built does not take from the caller,
    it has from the defaults; the vcpu count apart, which comes from
    the shape, and the metadata, which the session builds itself and
    which are not a key of [config] here. *)
Theorem OciSession_default
    (override_config : gmap string PyVal) (x : Ext env) (s : OciSession)
    (k : string) :
  OciSession_init env override_config x = Ok s ->
  override_config !! k = None ->
  k <> "vcpus" ->
  config s !! k = default_config env !! k.
Proof.
  unfold OciSession_init. intros Hinit Hk Hv.
  destruct (_get_ssh_key env x) as [ssh|e]; [|done]. simpl in Hinit.
  set (cfg := delete "metadata" override_config ∪ default_config env) in *.
  assert (Hcfg : cfg !! k = default_config env !! k).
  { unfold cfg. rewrite lookup_union_r; [done|].
    destruct (decide (k = "metadata")) as [->|Hne].
    - apply lookup_delete_eq.
    - by rewrite lookup_delete_ne. }
  destruct (getitem cfg "vcpus") as [vc|e]; [|done]. simpl in Hinit.
  destruct (truthy vc).
  - by injection Hinit as <-.
  - destruct (cores_from_shape cfg) as [n|e]; [|done]. simpl in Hinit.
    injection Hinit as <-. simpl. by rewrite lookup_insert_ne.
Qed.

(** The configuration [getResourceAdapterConfig] returns is the one of
    the base class, where the user-data template, if there is one, is a
    path that exists: the configured one if it is absolute, and else
    that path under the kit's configuration directory. Nothing else
    changes. *)
Theorem getResourceAdapterConfig_result
    (w w' : World env) (cfg : gmap string PyVal) (evs : list Event) :
  getResourceAdapterConfig env w = Run (Done (Ok cfg)) w' evs ->
  w' = w /\ evs = []
  /\ exists base,
       base_adapter_config env (ext w) = Ok base
       /\ (forall k, k <> "user_data_script_template" -> cfg !! k = base !! k)
       /\ match base !! "user_data_script_template" with
          | None => cfg = base
          | Some t =>
              exists template fn,
                t = VStr template
                /\ cfg !! "user_data_script_template" = Some (VStr fn)
                /\ path_exists env fn (ext w) = true
                /\ fn = if String.prefix "/" template then template
                        else os_path_join (kit_config_base env) template
          end.
Proof.
  unfold getResourceAdapterConfig. gm_run.
  destruct (base_adapter_config env (ext w)) as [base|e]; gm_run; [|done].
  destruct (base !! "user_data_script_template") as [[| | |t]|] eqn:Ht; gm_run;
    try done.
  - destruct (path_exists env _ (ext w)) eqn:Hp; gm_run; [|done].
    intros [= <- <- <-]. split; [done|]. split; [done|].
    exists base. split; [done|]. split.
    + intros k Hk. by rewrite lookup_insert_ne.
    + rewrite Ht. eexists t, _. split; [done|].
      split; [by rewrite lookup_insert_eq|]. by split.
  - intros [= <- <- <-]. split; [done|]. split; [done|].
    exists base. split; [done|]. split; [done|]. by rewrite Ht.
Qed.

(** No greenlet, nothing to run. *)
Lemma run_greenlets_nil {A} sched fin (w : World env) :
  run_greenlets env sched (@nil (G A)) fin w = ([], fin, w, []).
Proof. induction sched as [|i sched IH]; [done|]. simpl. exact IH. Qed.

(** A request of no node, or of a negative number of nodes, launches
    nothing whatever the hub does: [start] reads the configuration,
    returns the empty list and logs no shortfall. *)
Theorem start_nothing_requested
    (fuel : nat) (sched : list nat) (count : Z)
    (hw : Profile) (sw : option Profile) (w w0 : World env)
    (cfg : gmap string PyVal) (evs0 : list Event) :
  count <= 0 ->
  getResourceAdapterConfig env w = Run (Done (Ok cfg)) w0 evs0 ->
  start env fuel sched count hw sw w
  = Run (Done (Ok [])) w
        [ EvLog Debug MStart; EvLog Debug MCompleted; EvClearSessionNodes [] ].
Proof.
  intros Hcount Hcfg.
  destruct (getResourceAdapterConfig_atomic env w) as [r Hr].
  rewrite Hr in Hcfg. injection Hcfg as -> _ _.
  unfold start, __add_nodes. gm_run. rewrite Hr. gm_run.
  unfold __oci_add_nodes.
  replace (Z.to_nat count) with 0%nat by lia.
  simpl replicate. rewrite run_greenlets_nil. simpl. gm_run.
  change (Z.of_nat 0) with 0.
  destruct (Z.ltb_spec 0 count) as [Hlt|_]; [lia|]. gm_run. done.
Qed.

(** The installer address is decided by the first call of
    [__get_installer_ip]: the first network interface of the hardware
    profile it is given, if there is one, and else the public address of
    the installer. Every later call returns that address, whatever
    profile it is given. *)
Theorem get_installer_ip_first_call
    (hardwareprofile : option Profile) (w : World env) :
  adapter_installer_ip w = None ->
  let ip := match hardwareprofile ≫= (fun hp => head (profile_nics hp)) with
            | Some nic => nic_ip nic
            | None => installer_public_ipaddress env
            end in
  let w1 := with_installer_ip env w (Some ip) in
  __get_installer_ip_of env hardwareprofile w = Run (Done (Ok ip)) w1 []
  /\ (forall other, __get_installer_ip_of env other w1 = Run (Done (Ok ip)) w1 [])
  /\ __get_installer_ip env w1 = Run (Done (Ok ip)) w1 [].
Proof.
  intros Hnone ip w1. unfold __get_installer_ip_of, __get_installer_ip.
  split; [|split].
  - gm_run. rewrite Hnone. gm_run.
    subst w1 ip.
    destruct hardwareprofile as [hp|]; simpl; [destruct (profile_nics hp)|];
      reflexivity.
  - intros other. gm_run. simpl. gm_run. done.
  - gm_run. simpl. gm_run. done.
Qed.

(** After a successful post-launch, [get_node_vcpus] on the name of the
    node is decided by the shape of the adapter configuration alone: it
    returns the number its last ['.']-separated segment reads as, and
    raises [ValueError] if that is not a number. Neither the vcpu count
    of the session nor the field [__vcpus] is used. *)
Theorem get_node_vcpus_after_post_launch
    (instance : Instance) (node_dict : NodeDict) (node_spec : NodeSpec)
    (w : World env) (node : NodeRef) (w' : World env) (evs : list Event) :
  _instance_post_launch env instance node_dict node_spec w
    = Run (Done (Ok node)) w' evs ->
  exists n shape seg,
    heap (db w') !! node = Some n
    /\ configDict node_spec !! "shape" = Some (VStr shape)
    /\ last (PyStr.split "." shape) = Some seg
    /\ get_node_vcpus env (node_name n) w'
       = Run (Done match PyStr.int seg with
                   | Some k => Ok (VInt k)
                   | None => Exc ValueError
                   end) w' [ EvCacheGet (node_name n) ].
Proof.
  intros H.
  apply post_launch_entry in H
    as (n & shape & seg & entry & Hn & Hshape & Hseg & Hcache & _ & _ & _ & _ & Hv).
  exists n, shape, seg. split; [done|]. split; [done|]. split; [done|].
  unfold get_node_vcpus. gm_run. unfold instanceCacheGet. rewrite Hcache. gm_run.
  rewrite Hv. destruct (PyStr.int seg); gm_run; done.
Qed.

End ConfigExtras.

(** The session of the scenario has the default DNS search setting. *)
Lemma OciSession_default_witness :
  config (mkSession
            (<["vcpus" := VInt 4]>
               (delete "metadata" Scenario.cfg ∪ default_config Scenario.env))
            (MetaDict VNone None))
    !! "dns_search" = default_config Scenario.env !! "dns_search".
Proof.
  apply (OciSession_default Scenario.env Scenario.cfg Scenario.ext0 _ "dns_search").
  - reflexivity.
  - reflexivity.
  - discriminate.
Defined.

(** An installation where the configured template is relative. *)
Lemma getResourceAdapterConfig_result_witness :
  exists cfg,
    Sim.world (e:=Scenario.env_relative) Scenario.ext0 = Sim.world (e:=Scenario.env_relative) Scenario.ext0
    /\ @nil Event = []
    /\ exists base,
         Ok Scenario.cfg_relative = Ok base
         /\ (forall k, k <> "user_data_script_template" -> cfg !! k = base !! k)
         /\ match base !! "user_data_script_template" with
            | None => cfg = base
            | Some t =>
                exists template fn,
                  t = VStr template
                  /\ cfg !! "user_data_script_template" = Some (VStr fn)
                  /\ path_exists Scenario.env_relative fn Scenario.ext0 = true
                  /\ fn = if String.prefix "/" template then template
                          else os_path_join "/opt/tortuga/config" template
            end.
Proof.
  eexists.
  eapply (getResourceAdapterConfig_result Scenario.env_relative
            (Sim.world (e:=Scenario.env_relative) Scenario.ext0)).
  vm_compute. reflexivity.
Defined.

(** A request of no node in the scenario. *)
Lemma start_nothing_requested_witness :
  start Scenario.env 5 Scenario.round_robin 0 Scenario.hw Scenario.sw Scenario.w0
  = Run (Done (Ok [])) Scenario.w0
        [ EvLog Debug MStart; EvLog Debug MCompleted; EvClearSessionNodes [] ].
Proof.
  eapply (start_nothing_requested Scenario.env 5 Scenario.round_robin 0
            Scenario.hw Scenario.sw Scenario.w0).
  - lia.
  - vm_compute. reflexivity.
Defined.

(** The first call is given a hardware profile with an interface. *)
Lemma get_installer_ip_first_call_witness :
  let hp := Some (mkProfile "hw" "compute-#NN" [ mkNic "192.168.0.1" true ]) in
  let ip := "192.168.0.1" in
  let w1 := with_installer_ip Scenario.env Scenario.w0 (Some ip) in
  __get_installer_ip_of Scenario.env hp Scenario.w0 = Run (Done (Ok ip)) w1 []
  /\ (forall other,
        __get_installer_ip_of Scenario.env other w1 = Run (Done (Ok ip)) w1 [])
  /\ __get_installer_ip Scenario.env w1 = Run (Done (Ok ip)) w1 [].
Proof.
  apply (get_installer_ip_first_call Scenario.env
           (Some (mkProfile "hw" "compute-#NN" [ mkNic "192.168.0.1" true ]))
           Scenario.w0).
  reflexivity.
Defined.

(** The post-launch of the first instance of the scenario. *)
Lemma get_node_vcpus_after_post_launch_witness :
  exists w' n shape seg,
    heap (db w') !! 0%nat = Some n
    /\ configDict Scenario.node_spec !! "shape" = Some (VStr shape)
    /\ last (PyStr.split "." shape) = Some seg
    /\ get_node_vcpus Scenario.env (node_name n) w'
       = Run (Done match PyStr.int seg with
                   | Some k => Ok (VInt k)
                   | None => Exc ValueError
                   end) w' [ EvCacheGet (node_name n) ].
Proof.
  eexists.
  eapply (get_node_vcpus_after_post_launch Scenario.env Scenario.i1
            (mkNodeDict None) Scenario.node_spec Scenario.w0).
  vm_compute. reflexivity.
Defined.

(** ** More on the steps of a launch unit *)

Section LaunchExtras.
Context (env : Env).

Local Open Scope gm_scope.

(** A commit writes the object of a tracked record to its row. *)
Lemma commit_tracked (r : Registry) (q : nat) (n : Node) :
  heap r !! q = Some n -> q ∈ attached r -> q ∉ doomed r ->
  rows (registry_commit r) !! q = Some n
  /\ heap (registry_commit r) !! q = Some n
  /\ q ∈ attached (registry_commit r).
Proof.
  intros Hn Ha Hd. simpl. rewrite commit_rows_lookup, Hn.
  rewrite decide_False by done. rewrite decide_True by done.
  split; [done|]. split; [done|]. by apply elem_of_difference.
Qed.

(** The pre-launch of a unit whose nodes are named by the installation
    creates one record: a new object, in state Launching, tracked by the
    session and committed. Its name is the host label of the generated
    name, followed by the domain of the installer's host name; it has no
    network interface yet. *)
Theorem pre_launch_placeholder
    (node_spec : NodeSpec) (w w' : World env) (p : NodeRef) (evs : list Event) :
  __oci_pre_launch_instance env node_spec w
    = Run (Done (Ok (mkNodeDict (Some p)))) w' evs ->
  next_ref (db w) ∉ doomed (db w) ->
  exists x label zone host domain,
    generate_node_name env (db w) (nameFormat (db_hardware_profile node_spec))
      (private_dns_zone env) (ext w) = (Ok (label ++ "." ++ zone), x)
    /\ dotless label = true
    /\ installer_public_hostname env = host ++ "." ++ domain
    /\ dotless host = true
    /\ p = next_ref (db w)
    /\ heap (db w') !! p
       = Some {| node_name := label ++ "." ++ domain;
                 node_state := Some "Launching";
                 softwareprofile := db_software_profile node_spec;
                 hardwareprofile := db_hardware_profile node_spec;
                 isIdle := false;
                 addHostSession := add_host_session env;
                 node_nics := [] |}
    /\ rows (db w') !! p = heap (db w') !! p
    /\ p ∈ attached (db w')
    /\ cache w' = cache w
    /\ evs = [ EvGenerateNodeName (nameFormat (db_hardware_profile node_spec));
               EvDbAdd p; EvDbCommit ].
Proof.
  unfold __oci_pre_launch_instance. intros H Hfresh.
  destruct (String.eqb _ "*"); [discriminate H|].
  gm_run_in H. unfold call in H.
  destruct (generate_node_name env _ _ _ (ext w)) as [[fqdn|e] x] eqn:Hgen;
    gm_run_in H; [|discriminate H].
  destruct (unpack2 (PyStr.split1 "." fqdn)) as [[label zone]|e] eqn:Hf;
    gm_run_in H; [|discriminate H].
  destruct (unpack2 (PyStr.split1 "." (installer_public_hostname env)))
    as [[host domain]|e] eqn:Hi; gm_run_in H; [|discriminate H].
  unfold __initialize_node in H. gm_run_in H.
  injection H as <- <- <-.
  apply unpack2_split1 in Hf as [-> Hlabel].
  apply unpack2_split1 in Hi as [Hinst Hhost].
  exists x, label, zone, host, domain.
  split; [done|]. split; [done|]. split; [done|]. split; [done|].
  split; [done|].
  match goal with
  | |- heap (db (with_db _ _ (registry_commit ?r))) !! _ = Some ?n /\ _ =>
      destruct (commit_tracked r (next_ref (db w)) n) as (Hrow & Hheap & Hatt)
  end.
  { simpl. rewrite lookup_alter_eq, lookup_insert_eq. done. }
  { simpl. apply elem_of_union. left. by apply elem_of_singleton. }
  { done. }
  split; [exact Hheap|]. split; [exact (eq_trans Hrow (eq_sym Hheap))|].
  split; [exact Hatt|]. done.
Qed.

(** A pre-launch that raises has created nothing: the registry and the
    cache are as they were. *)
Theorem pre_launch_raises
    (node_spec : NodeSpec) (w w' : World env) (e : exn) (evs : list Event) :
  __oci_pre_launch_instance env node_spec w = Run (Done (Exc e)) w' evs ->
  db w' = db w /\ cache w' = cache w
  /\ evs = [ EvGenerateNodeName (nameFormat (db_hardware_profile node_spec)) ].
Proof.
  unfold __oci_pre_launch_instance. intros H.
  destruct (String.eqb _ "*"); [discriminate H|].
  gm_run_in H. unfold call in H.
  destruct (generate_node_name env _ _ _ (ext w)) as [[fqdn|e'] x] eqn:Hgen;
    gm_run_in H; [|by injection H as <- <- <-].
  destruct (unpack2 (PyStr.split1 "." fqdn)) as [[label zone]|e'] eqn:Hf;
    gm_run_in H; [|by injection H as <- <- <-].
  destruct (unpack2 (PyStr.split1 "." (installer_public_hostname env)))
    as [[host domain]|e'] eqn:Hi; gm_run_in H; [|by injection H as <- <- <-].
  unfold __initialize_node in H. gm_run_in H. discriminate H.
Qed.

(** The pre-launch runs without a switch to another greenlet. *)
Lemma pre_launch_atomic (node_spec : NodeSpec) (w : World env) :
  exists r w' evs, __oci_pre_launch_instance env node_spec w = Run (Done r) w' evs.
Proof.
  unfold __oci_pre_launch_instance.
  destruct (String.eqb _ "*"); [by eexists _, _, _|].
  gm_run. unfold call.
  destruct (generate_node_name env _ _ _ (ext w)) as [[fqdn|e'] x] eqn:Hgen;
    gm_run; [|by eexists _, _, _].
  destruct (unpack2 (PyStr.split1 "." fqdn)) as [[label zone]|e'] eqn:Hf;
    gm_run; [|by eexists _, _, _].
  destruct (unpack2 (PyStr.split1 "." (installer_public_hostname env)))
    as [[host domain]|e'] eqn:Hi; gm_run; [|by eexists _, _, _].
  unfold __initialize_node. gm_run. by eexists _, _, _.
Qed.

End LaunchExtras.

(** The pre-launch of the scenario: the first generated name is
    [compute-0.private], the installer is [installer.example.com]. *)
Lemma pre_launch_placeholder_witness :
  exists (w' : World Scenario.env) x label zone host domain,
    generate_node_name Scenario.env (db Scenario.w0) "compute-#NN" "private"
      Scenario.ext0 = (Ok (label ++ "." ++ zone), x)
    /\ dotless label = true
    /\ "installer.example.com" = host ++ "." ++ domain
    /\ dotless host = true
    /\ 0%nat = next_ref (db Scenario.w0)
    /\ heap (db w') !! 0%nat
       = Some {| node_name := label ++ "." ++ domain;
                 node_state := Some "Launching";
                 softwareprofile := Scenario.sw;
                 hardwareprofile := Scenario.hw;
                 isIdle := false;
                 addHostSession := "session-1";
                 node_nics := [] |}
    /\ rows (db w') !! 0%nat = heap (db w') !! 0%nat
    /\ 0%nat ∈ attached (db w')
    /\ cache w' = cache Scenario.w0
    /\ [ EvGenerateNodeName "compute-#NN"; EvDbAdd 0%nat; EvDbCommit ]
       = [ EvGenerateNodeName "compute-#NN"; EvDbAdd 0%nat; EvDbCommit ].
Proof.
  eexists.
  eapply (pre_launch_placeholder Scenario.env Scenario.node_spec Scenario.w0).
  - vm_compute. reflexivity.
  - simpl. apply not_elem_of_empty.
Defined.

(** An installer whose host name has no domain. *)
Lemma pre_launch_raises_witness :
  db (with_ext Scenario.env_nodomain (Sim.world (e:=Scenario.env_nodomain) Scenario.ext0)
        (Sim.mkSimExt [] [] 1))
  = db (Sim.world (e:=Scenario.env_nodomain) Scenario.ext0)
  /\ cache (with_ext Scenario.env_nodomain
              (Sim.world (e:=Scenario.env_nodomain) Scenario.ext0)
              (Sim.mkSimExt [] [] 1))
     = cache (Sim.world (e:=Scenario.env_nodomain) Scenario.ext0)
  /\ [ EvGenerateNodeName "compute-#NN" ] = [ EvGenerateNodeName "compute-#NN" ].
Proof.
  apply (pre_launch_raises Scenario.env_nodomain Scenario.node_spec
           (Sim.world (e:=Scenario.env_nodomain) Scenario.ext0) _ ValueError).
  reflexivity.
Defined.

(** ** More on post-launch *)

Section PostLaunchExtras.
Context (env : Env).

Local Open Scope gm_scope.

(** The provider calls of the address resolution. *)
Lemma private_ips_of_events vnics : forall (w : World env) r w' evs,
  private_ips_of env vnics w = Run (Done (Ok r)) w' evs ->
  evs = map (fun a => EvGetVnic (va_vnic_id a)) vnics
  /\ (length r <= length vnics)%nat.
Proof.
  induction vnics as [|v vnics IH]; intros w r w' evs; simpl.
  - gm_run. by intros [= <- <- <-].
  - gm_run. unfold net_client_get_vnic, call.
    destruct (get_vnic env (va_vnic_id v) (ext w)) as [[o|e] x] eqn:Hv; gm_run;
      [|discriminate].
    destruct (private_ips_of env vnics (with_ext env w x)) as [g1 w1 evs1] eqn:Hrest.
    destruct (private_ips_of_frame env _ _ _ _ _ Hrest) as [[r1 ->] _].
    destruct r1 as [ips|e]; gm_run; [|discriminate].
    apply IH in Hrest as [-> Hlen].
    intros [= <- <- <-]. rewrite app_nil_r. split; [done|].
    destruct o; simpl; lia.
Qed.

Lemma get_instance_private_ips_events i c (w : World env) ips w' evs :
  __get_instance_private_ips env i c w = Run (Done (Ok ips)) w' evs ->
  exists vnics x,
    list_vnic_attachments env c (ext w) = (Ok vnics, x)
    /\ let mine := List.filter
                     (fun a => String.eqb (va_instance_id a) i
                               && String.eqb (va_lifecycle_state a) "ATTACHED")
                     vnics in
       evs = EvListVnicAttachments c :: map (fun a => EvGetVnic (va_vnic_id a)) mine
       /\ (length ips <= length mine)%nat.
Proof.
  unfold __get_instance_private_ips, __get_vnics_for_instance. gm_run.
  unfold client_list_vnic_attachments, call.
  destruct (list_vnic_attachments env c (ext w)) as [[vs|e] x] eqn:Hl; gm_run;
    [|discriminate].
  destruct (private_ips_of env _ (with_ext env w x)) as [g1 w1 evs1] eqn:Hp.
  destruct (private_ips_of_frame env _ _ _ _ _ Hp) as [[r1 ->] _].
  destruct r1 as [ips1|e]; gm_run; [|discriminate].
  apply private_ips_of_events in Hp as [-> Hlen].
  intros [= <- <- <-]. by exists vs, x.
Qed.

(** The address resolution of post-launch asks the provider for the
    VNIC attachments of the compartment once, and then for the VNIC of
    each attachment of the instance that is in state ATTACHED, in the
    order of the listing, and for no other. It resolves at most one
    address per such attachment. *)
Theorem private_ips_queries
    (instance_id compartment_id : string) (w w' : World env)
    (ips : list string) (evs : list Event) :
  __get_instance_private_ips env instance_id compartment_id w
    = Run (Done (Ok ips)) w' evs ->
  exists vnics x,
    list_vnic_attachments env compartment_id (ext w) = (Ok vnics, x)
    /\ let mine := List.filter
                     (fun a => String.eqb (va_instance_id a) instance_id
                               && String.eqb (va_lifecycle_state a) "ATTACHED")
                     vnics in
       evs = EvListVnicAttachments compartment_id
             :: map (fun a => EvGetVnic (va_vnic_id a)) mine
       /\ (length ips <= length mine)%nat.
Proof. apply get_instance_private_ips_events. Qed.

(** How a post-launch ends once the addresses are resolved. *)
Lemma post_launch_run
    (instance : Instance) (node_spec : NodeSpec) (node : NodeRef) (n : Node)
    (ips : list string) (w w2 : World env) (evs2 : list Event) :
  heap (db w) !! node = Some n ->
  node ∈ attached (db w) ->
  node ∉ doomed (db w) ->
  __get_instance_private_ips env (instance_id instance) (compartment_id instance) w
    = Run (Done (Ok ips)) w2 evs2 ->
  let n' := set_nics (map (fun ip => mkNic ip true) ips)
                     (set_state "Provisioned" n) in
  let r := outcome_bind (getitem (configDict node_spec) "shape") (fun shape =>
           outcome_bind (last_segment shape) (fun _ =>
           outcome_bind (first_item ips) (fun _ =>
           outcome_bind (profile_name_of (softwareprofile n)) (fun _ =>
           Ok node)))) in
  exists w' evs,
    _instance_post_launch env instance (mkNodeDict (Some node)) node_spec w
      = Run (Done r) w' evs
    /\ rows (db w') !! node = Some n'
    /\ heap (db w') !! node = Some n'
    /\ (configDict node_spec !! "shape" = None -> cache w' = cache w)
    /\ (forall e, r = Exc e ->
        forall name hw sw ip, EvPreAddHost name hw sw ip ∉ evs)
    /\ db w' = registry_commit
                 (registry_update node
                    (set_nics (map (fun ip => mkNic ip true) ips))
                    (registry_update node (set_state "Provisioned") (db w)))
    /\ cache_kept env w w'
    /\ (forall node', r = Ok node' ->
        node' = node /\ ips <> [] /\ is_Some (cache w' !! node_name n')).
Proof.
  intros Hn Hatt Hdoom Hips n' r.
  apply (get_instance_private_ips_ext env _ _ w
           (with_db env w (registry_update node (set_state "Provisioned") (db w))))
    in Hips as Hips1; [|done].
  apply get_instance_private_ips_events in Hips as (vnics & x & _ & Hevs & _).
  unfold _instance_post_launch. simpl nd_node. gm_run.
  rewrite Hips1. gm_run.
  match goal with
  | |- context [registry_commit ?reg] =>
      destruct (commit_tracked reg node n') as (Hrow & Hheap & _)
  end.
  { simpl. unfold NodeRef in *. rewrite !lookup_alter_eq, Hn. done. }
  { done. }
  { done. }
  match goal with
  | |- context [getattr env node node_name ?W] =>
      set (wc := W) in *;
      assert (Hh : heap (db wc) !! node = Some n') by exact Hheap;
      assert (Hr : rows (db wc) !! node = Some n') by exact Hrow;
      assert (Hc : cache wc = cache w) by reflexivity;
      assert (Hdb : db wc
                    = registry_commit
                        (registry_update node
                           (set_nics (map (fun ip => mkNic ip true) ips))
                           (registry_update node (set_state "Provisioned") (db w))))
        by reflexivity;
      clearbody wc
  end.
  rewrite (getattr_eq _ _ wc _ Hh). gm_run.
  assert (Hquiet : forall name hw sw ip,
            EvPreAddHost name hw sw ip
            ∉ (EvLog Debug (MPostLaunch (instance_id instance))
               :: evs2 ++ [EvDbCommit])%list).
  { intros name hw sw ip.
    rewrite not_elem_of_cons. split; [discriminate|].
    rewrite not_elem_of_app. split; [|not_in_events].
    rewrite Hevs, not_elem_of_cons. split; [discriminate|].
    intros (a & Ha & _)%list_elem_of_fmap. discriminate Ha. }
  subst r. unfold getitem.
  destruct (configDict node_spec !! "shape") as [shape|] eqn:Hshape;
    cbn [outcome_bind]; gm_run.
  2: { eexists _, _. split; [reflexivity|]. split; [done|]. split; [done|].
       split; [done|]. split; [intros e _; exact Hquiet|].
       split; [done|]. split; [|done].
       intros name Hname. by rewrite Hc. }
  destruct (last_segment shape) as [seg|e] eqn:Hseg; cbn [outcome_bind]; gm_run.
  2: { eexists _, _. split; [reflexivity|]. split; [done|]. split; [done|].
       split; [done|]. split; [intros e' _; exact Hquiet|].
       split; [done|]. split; [|done].
       intros name Hname. by rewrite Hc. }
  match goal with
  | |- context [getattr env node node_nics ?W] =>
      assert (Hh2 : heap (db W) !! node = Some n') by exact Hh;
      rewrite (getattr_eq _ _ W _ Hh2)
  end.
  gm_run.
  assert (Hboot : first_item (List.filter nic_boot (node_nics n'))
                  = outcome_bind (first_item ips)
                      (fun ip => Ok (mkNic ip true))).
  { simpl. by destruct ips. }
  rewrite Hboot. clear Hboot.
  assert (Hquiet2 : forall entry name hw sw ip,
            EvPreAddHost name hw sw ip
            ∉ (EvLog Debug (MPostLaunch (instance_id instance))
               :: evs2 ++ [EvDbCommit; EvCacheSet (node_name n') entry])%list).
  { intros entry name hw sw ip.
    rewrite not_elem_of_cons. split; [discriminate|].
    rewrite not_elem_of_app. split; [|not_in_events].
    rewrite Hevs, not_elem_of_cons. split; [discriminate|].
    intros (a & Ha & _)%list_elem_of_fmap. discriminate Ha. }
  assert (Hkept : forall entry,
            cache_kept env w (with_cache env wc (<[node_name n' := entry]> (cache wc)))).
  { intros entry name Hname. simpl cache.
    destruct (decide (name = node_name n')) as [Heq|Hne].
    - subst name. rewrite lookup_insert_eq. by eexists.
    - rewrite lookup_insert_ne by done. by rewrite Hc. }
  assert (Hentry : forall entry,
            is_Some (cache (with_cache env wc (<[node_name n' := entry]> (cache wc)))
                     !! node_name n')).
  { intros entry. simpl cache. rewrite lookup_insert_eq. by eexists. }
  destruct ips as [|ip0 ips]; cbn [outcome_bind first_item]; gm_run.
  { eexists _, _. split; [reflexivity|]. split; [done|]. split; [done|].
    split; [done|]. split; [intros e _; apply Hquiet2|].
    split; [done|]. split; [apply Hkept|done]. }
  rewrite (getattr_eq _ _ _ _ Hh2). gm_run.
  rewrite (getattr_eq _ _ _ _ Hh2). gm_run.
  change (softwareprofile n') with (softwareprofile n).
  destruct (softwareprofile n) as [sw|]; cbn [outcome_bind profile_name_of]; gm_run.
  - eexists _, _. split; [reflexivity|]. split; [done|]. split; [done|].
    split; [done|]. split; [intros e He; discriminate He|].
    split; [done|]. split; [apply Hkept|].
    intros node' [= <-]. split; [done|]. split; [done|]. apply Hentry.
  - eexists _, _. split; [reflexivity|]. split; [done|]. split; [done|].
    split; [done|]. split; [intros e _; apply Hquiet2|].
    split; [done|]. split; [apply Hkept|done].
Qed.


(** A post-launch never undoes what it did. Once the addresses of the
    instance are resolved, the node of a unit with a placeholder is
    committed as Provisioned with its interfaces, whether the
    post-launch then returns or raises. It raises, after that commit,
    when the adapter configuration has no shape (although the launch
    used the default one), when the shape is not a string, when no
    address was resolved, and when the node has no software profile; the
    host is then never announced. *)
Theorem post_launch_commits
    (instance : Instance) (node_spec : NodeSpec) (node : NodeRef) (n : Node)
    (ips : list string) (w w2 : World env) (evs2 : list Event) :
  heap (db w) !! node = Some n ->
  node ∈ attached (db w) ->
  node ∉ doomed (db w) ->
  __get_instance_private_ips env (instance_id instance) (compartment_id instance) w
    = Run (Done (Ok ips)) w2 evs2 ->
  let n' := set_nics (map (fun ip => mkNic ip true) ips)
                     (set_state "Provisioned" n) in
  let r := outcome_bind (getitem (configDict node_spec) "shape") (fun shape =>
           outcome_bind (last_segment shape) (fun _ =>
           outcome_bind (first_item ips) (fun _ =>
           outcome_bind (profile_name_of (softwareprofile n)) (fun _ =>
           Ok node)))) in
  exists w' evs,
    _instance_post_launch env instance (mkNodeDict (Some node)) node_spec w
      = Run (Done r) w' evs
    /\ rows (db w') !! node = Some n'
    /\ heap (db w') !! node = Some n'
    /\ (configDict node_spec !! "shape" = None -> cache w' = cache w)
    /\ (forall e, r = Exc e ->
        forall name hw sw ip, EvPreAddHost name hw sw ip ∉ evs).
Proof.
  intros Hn Hatt Hdoom Hips n' r.
  destruct (post_launch_run instance node_spec node n ips w w2 evs2
              Hn Hatt Hdoom Hips)
    as (w' & evs & Hrun & Hrow & Hheap & Hcache & Hquiet & _).
  by exists w', evs.
Qed.

(** A post-launch without placeholder is the post-launch of the node it
    creates. *)
Lemma post_launch_wildcard_eq
    (instance : Instance) (node_spec : NodeSpec) (w : World env) :
  let p := next_ref (db w) in
  let created :=
    {| node_name := PyStr.join "."
                      (display_name instance
                       :: tail (PyStr.split "." (installer_public_hostname env)));
       node_state := None;
       softwareprofile := db_software_profile node_spec;
       hardwareprofile := db_hardware_profile node_spec;
       isIdle := false;
       addHostSession := add_host_session env;
       node_nics := [] |} in
  let wc := with_db env w (registry_add p (registry_new created (db w)).2) in
  _instance_post_launch env instance (mkNodeDict None) node_spec w
  = match _instance_post_launch env instance (mkNodeDict (Some p)) node_spec wc with
    | Run g w' evs =>
        Run g w' (EvLog Debug (MPostLaunch (instance_id instance))
                  :: EvDbAdd p :: tail evs)
    end.
Proof.
  intros p created wc. subst wc.
  unfold _instance_post_launch. simpl nd_node. unfold __initialize_node.
  gm_run. fold p. fold created.
  match goal with
  | |- _ = match emitted _ (seq_ran (__get_instance_private_ips env ?i ?c ?W2) _)
           with _ => _ end =>
      match goal with
      | |- context [__get_instance_private_ips env i c ?W1] =>
          change W1 with W2;
          destruct (__get_instance_private_ips env i c W2) as [g1 w1 evs1] eqn:Hips
      end
  end.
  destruct (get_instance_private_ips_frame env _ _ _ _ _ _ Hips) as [[r1 ->] _].
  destruct r1 as [ips|e]; gm_run; [|by rewrite app_nil_r].
  match goal with
  | |- context [seq_ran (getattr env p node_name ?W) ?K] =>
      destruct (seq_ran (getattr env p node_name W) K) as [g2 w2 evs2]
  end.
  reflexivity.
Qed.

(** A unit without placeholder gets its node at post-launch: a new
    object, named by the display name of the instance followed by the
    domain of the installer's host name, tracked by the session and,
    once the addresses are resolved, committed as Provisioned with its
    interfaces, whether the post-launch then returns or raises. *)
Theorem post_launch_wildcard
    (instance : Instance) (node_spec : NodeSpec) (ips : list string)
    (w w2 : World env) (evs2 : list Event) (host domain : string) :
  next_ref (db w) ∉ doomed (db w) ->
  __get_instance_private_ips env (instance_id instance) (compartment_id instance) w
    = Run (Done (Ok ips)) w2 evs2 ->
  installer_public_hostname env = host ++ "." ++ domain ->
  dotless host = true ->
  let node := next_ref (db w) in
  let n' := {| node_name := display_name instance ++ "." ++ domain;
               node_state := Some "Provisioned";
               softwareprofile := db_software_profile node_spec;
               hardwareprofile := db_hardware_profile node_spec;
               isIdle := false;
               addHostSession := add_host_session env;
               node_nics := map (fun ip => mkNic ip true) ips |} in
  let r := outcome_bind (getitem (configDict node_spec) "shape") (fun shape =>
           outcome_bind (last_segment shape) (fun _ =>
           outcome_bind (first_item ips) (fun _ =>
           outcome_bind (profile_name_of (db_software_profile node_spec)) (fun _ =>
           Ok node)))) in
  exists w' evs,
    _instance_post_launch env instance (mkNodeDict None) node_spec w
      = Run (Done r) w' evs
    /\ rows (db w') !! node = Some n'
    /\ heap (db w') !! node = Some n'
    /\ EvDbAdd node ∈ evs.
Proof.
  intros Hfresh Hips Hinst Hhost node n' r.
  set (created :=
         {| node_name := PyStr.join "."
                           (display_name instance
                            :: tail (PyStr.split "." (installer_public_hostname env)));
            node_state := None;
            softwareprofile := db_software_profile node_spec;
            hardwareprofile := db_hardware_profile node_spec;
            isIdle := false;
            addHostSession := add_host_session env;
            node_nics := [] |}).
  set (wc := with_db env w (registry_add node (registry_new created (db w)).2)).
  rewrite post_launch_wildcard_eq.
  assert (Hips' : __get_instance_private_ips env (instance_id instance)
                    (compartment_id instance) wc
                  = Run (Done (Ok ips)) (with_ext env wc (ext w2)) evs2)
    by (by apply (get_instance_private_ips_ext env _ _ w wc)).
  destruct (post_launch_run instance node_spec node created ips wc
              (with_ext env wc (ext w2)) evs2)
    as (w' & evs & Hrun & Hrow & Hheap & _ & _).
  { subst wc. simpl. apply lookup_insert_eq. }
  { subst wc. simpl. apply elem_of_union. left. by apply elem_of_singleton. }
  { done. }
  { exact Hips'. }
  match goal with
  | |- context [match ?T with Run _ _ _ => _ end] =>
      match type of Hrun with
      | _ = ?R => assert (Hrun' : T = R) by exact Hrun; rewrite Hrun'
      end
  end.
  assert (Hname : set_nics (map (fun ip => mkNic ip true) ips)
                    (set_state "Provisioned" created) = n').
  { subst created n'. unfold set_nics, set_state. simpl. f_equal.
    rewrite Hinst. by apply join_label_domain. }
  rewrite Hname in Hrow, Hheap.
  eexists _, _. split; [reflexivity|]. split; [done|]. split; [done|].
  apply list_elem_of_further, list_elem_of_here.
Qed.

(** The run of a post-launch whose address resolution raises. *)
Lemma post_launch_fails_run
    (instance : Instance) (node_spec : NodeSpec) (node : NodeRef) (e : exn)
    (w w2 : World env) (evs2 : list Event) :
  __get_instance_private_ips env (instance_id instance) (compartment_id instance) w
    = Run (Done (Exc e)) w2 evs2 ->
  exists w',
    _instance_post_launch env instance (mkNodeDict (Some node)) node_spec w
      = Run (Done (Exc e)) w'
            (EvLog Debug (MPostLaunch (instance_id instance)) :: evs2)
    /\ rows (db w') = rows (db w)
    /\ attached (db w') = attached (db w)
    /\ doomed (db w') = doomed (db w)
    /\ cache w' = cache w
    /\ heap (db w') !! node = set_state "Provisioned" <$> heap (db w) !! node
    /\ db w' = registry_update node (set_state "Provisioned") (db w).
Proof.
  intros Hips.
  apply (get_instance_private_ips_ext env _ _ w
           (with_db env w (registry_update node (set_state "Provisioned") (db w))))
    in Hips as Hips1; [|done].
  unfold _instance_post_launch. simpl nd_node. gm_run.
  rewrite Hips1. gm_run.
  eexists. split; [by rewrite app_nil_r|].
  split; [done|]. split; [done|]. split; [done|]. split; [done|].
  split; [|done]. simpl. apply lookup_alter_eq.
Qed.

(** For a unit that has a placeholder, an error of the provider while
    the addresses are resolved ends the post-launch with that error.
    Nothing was committed and nothing is rolled back: the rows of the
    registry and the cache are as they were, and the object of the
    placeholder says Provisioned. *)
Theorem post_launch_resolution_fails
    (instance : Instance) (node_spec : NodeSpec) (node : NodeRef) (e : exn)
    (w w2 : World env) (evs2 : list Event) :
  __get_instance_private_ips env (instance_id instance) (compartment_id instance) w
    = Run (Done (Exc e)) w2 evs2 ->
  exists w',
    _instance_post_launch env instance (mkNodeDict (Some node)) node_spec w
      = Run (Done (Exc e)) w'
            (EvLog Debug (MPostLaunch (instance_id instance)) :: evs2)
    /\ rows (db w') = rows (db w)
    /\ attached (db w') = attached (db w)
    /\ doomed (db w') = doomed (db w)
    /\ cache w' = cache w
    /\ heap (db w') !! node = set_state "Provisioned" <$> heap (db w) !! node.
Proof.
  intros Hips.
  destruct (post_launch_fails_run instance node_spec node e w w2 evs2 Hips)
    as (w' & Hrun & Hrows & Hatt & Hdoom & Hcache & Hheap & _).
  by exists w'.
Qed.

End PostLaunchExtras.

(** The first instance of the scenario: two attachments, one attached. *)
Lemma private_ips_queries_witness :
  exists vnics x,
    list_vnic_attachments Scenario.env "compartment-1" Scenario.ext0 = (Ok vnics, x)
    /\ let mine := List.filter
                     (fun a => String.eqb (va_instance_id a) "i1"
                               && String.eqb (va_lifecycle_state a) "ATTACHED")
                     vnics in
       [ EvListVnicAttachments "compartment-1"; EvGetVnic "v1" ]
       = EvListVnicAttachments "compartment-1"
         :: map (fun a => EvGetVnic (va_vnic_id a)) mine
       /\ (length [ "10.0.0.5" ] <= length mine)%nat.
Proof.
  apply (private_ips_queries Scenario.env "i1" "compartment-1" Scenario.w0
           Scenario.w0 [ "10.0.0.5" ]).
  reflexivity.
Defined.

(** The placeholder of the scenario, the instance [i1] and an adapter
    configuration without shape: the post-launch raises [KeyError], and
    the node is committed as Provisioned. *)
Lemma post_launch_commits_witness :
  let n' := set_nics [ mkNic "10.0.0.5" true ]
                     (set_state "Provisioned" Scenario.placeholder0) in
  exists w' evs,
    _instance_post_launch Scenario.env Scenario.i1 (mkNodeDict (Some 0%nat))
      Scenario.node_spec_no_shape (Scenario.launching Scenario.ext0)
      = Run (Done (Exc (KeyError "shape"))) w' evs
    /\ rows (db w') !! 0%nat = Some n'
    /\ heap (db w') !! 0%nat = Some n'
    /\ (configDict Scenario.node_spec_no_shape !! "shape" = None ->
        cache w' = cache (Scenario.launching Scenario.ext0))
    /\ (forall e, (Exc (KeyError "shape") : Outcome NodeRef) = Exc e ->
        forall name hw sw ip, EvPreAddHost name hw sw ip ∉ evs).
Proof.
  apply (post_launch_commits Scenario.env Scenario.i1 Scenario.node_spec_no_shape
           0%nat Scenario.placeholder0 [ "10.0.0.5" ]
           (Scenario.launching Scenario.ext0) (Scenario.launching Scenario.ext0)
           [ EvListVnicAttachments "compartment-1"; EvGetVnic "v1" ]).
  - reflexivity.
  - simpl. apply elem_of_singleton. reflexivity.
  - simpl. apply not_elem_of_empty.
  - reflexivity.
Defined.

(** The instance [i1] of the scenario, in a unit without placeholder. *)
Lemma post_launch_wildcard_witness :
  let n' := {| node_name := "inst-i1.example.com";
               node_state := Some "Provisioned";
               softwareprofile := Scenario.sw;
               hardwareprofile := Scenario.hw_wildcard;
               isIdle := false;
               addHostSession := "session-1";
               node_nics := [ mkNic "10.0.0.5" true ] |} in
  exists w' evs,
    _instance_post_launch Scenario.env Scenario.i1 (mkNodeDict None)
      Scenario.node_spec_wildcard Scenario.w0
      = Run (Done (Ok 0%nat)) w' evs
    /\ rows (db w') !! 0%nat = Some n'
    /\ heap (db w') !! 0%nat = Some n'
    /\ EvDbAdd 0%nat ∈ evs.
Proof.
  apply (post_launch_wildcard Scenario.env Scenario.i1 Scenario.node_spec_wildcard
           [ "10.0.0.5" ] Scenario.w0 Scenario.w0
           [ EvListVnicAttachments "compartment-1"; EvGetVnic "v1" ]
           "installer" "example.com").
  - simpl. apply not_elem_of_empty.
  - reflexivity.
  - reflexivity.
  - reflexivity.
Defined.

(** The provider fails to list the VNIC attachments. *)
Lemma post_launch_resolution_fails_witness :
  exists w',
    _instance_post_launch Scenario.env_no_listing Scenario.i1
      (mkNodeDict (Some 0%nat)) Scenario.node_spec Scenario.launching_no_listing
      = Run (Done (Exc (ServiceError 500))) w'
            [ EvLog Debug (MPostLaunch "i1");
              EvListVnicAttachments "compartment-1" ]
    /\ rows (db w') = rows (db Scenario.launching_no_listing)
    /\ attached (db w') = attached (db Scenario.launching_no_listing)
    /\ doomed (db w') = doomed (db Scenario.launching_no_listing)
    /\ cache w' = cache Scenario.launching_no_listing
    /\ heap (db w') !! 0%nat
       = set_state "Provisioned" <$> heap (db Scenario.launching_no_listing) !! 0%nat.
Proof.
  apply (post_launch_resolution_fails Scenario.env_no_listing Scenario.i1
           Scenario.node_spec 0%nat (ServiceError 500)
           Scenario.launching_no_listing Scenario.launching_no_listing).
  reflexivity.
Defined.

(** ** More on launch units *)

Section UnitExtras.
Context (env : Env).

Local Open Scope gm_scope.

(** A unit whose launch step returned: it ends as its post-launch
    does. *)
Lemma add_node_launched
    (fuel : nat) (node_spec : NodeSpec)
    (others : list (World env -> World env))
    (w w1 w2 w3 : World env) (evs1 evs2 evs3 : list Event) (nd : NodeDict)
    (instance : Instance) (r : Outcome NodeRef) :
  __oci_pre_launch_instance env node_spec w = Run (Done (Ok nd)) w1 evs1 ->
  resume env others (_launch_instance env fuel nd node_spec w1)
    = Run (Done (Ok instance)) w2 evs2 ->
  _instance_post_launch env instance nd node_spec w2 = Run (Done r) w3 evs3 ->
  resume env others (__oci_add_node env fuel node_spec w)
    = Run (Done match r with
                | Ok node => Ok (Some node)
                | Exc e => Exc e
                end) w3 (evs1 ++ evs2 ++ evs3)%list.
Proof.
  intros Hpre Hlaunch Hpost.
  unfold __oci_add_node. rewrite bind_eq, Hpre, seq_ran_done.
  rewrite resume_emitted. cbv beta iota. rewrite bind_eq, try_except_eq, bind_eq.
  match goal with
  | |- context [resume env others (seq_ran (seq_ran (seq_ran ?L ?f1) ?f2) ?f3)] =>
      eassert (R1 : resume env others (seq_ran L f1) = _)
        by (eapply resume_seq_ran_done;
            [exact Hlaunch|cbv beta iota; gm_run; reflexivity]);
      eassert (R2 : resume env others (seq_ran (seq_ran L f1) f2) = _)
        by (eapply resume_seq_ran_done;
            [exact R1|cbv beta iota; gm_run; reflexivity]);
      eassert (R3 : resume env others (seq_ran (seq_ran (seq_ran L f1) f2) f3)
                    = Run (Done match r with
                                | Ok node => Ok (Some node)
                                | Exc e => Exc e
                                end) w3 (((evs2 ++ []) ++ []) ++ evs3)%list)
        by (eapply resume_seq_ran_done;
            [exact R2
            |cbv beta iota; rewrite bind_eq, Hpost; destruct r; gm_run;
             by rewrite ?app_nil_r]);
      rewrite R3
  end.
  simpl. by rewrite !app_nil_r.
Qed.

(** Only the launch step of a unit is guarded. When the launch step has
    returned an instance and the post-launch raises, the exception
    leaves the unit: the handler does not run, so nothing is deleted
    and no error is logged, and the unit ends in the world the
    post-launch left, with no node to return. *)
Theorem add_node_post_launch_raises
    (fuel : nat) (node_spec : NodeSpec)
    (others : list (World env -> World env))
    (w w1 w2 w3 : World env) (evs1 evs2 evs3 : list Event) (nd : NodeDict)
    (instance : Instance) (e : exn) :
  __oci_pre_launch_instance env node_spec w = Run (Done (Ok nd)) w1 evs1 ->
  resume env others (_launch_instance env fuel nd node_spec w1)
    = Run (Done (Ok instance)) w2 evs2 ->
  _instance_post_launch env instance nd node_spec w2 = Run (Done (Exc e)) w3 evs3 ->
  resume env others (__oci_add_node env fuel node_spec w)
    = Run (Done (Exc e)) w3 (evs1 ++ evs2 ++ evs3)%list
  /\ value env (Done (Exc e)) = @None NodeRef.
Proof.
  intros Hpre Hlaunch Hpost. split; [|done].
  exact (add_node_launched _ _ _ _ _ _ _ _ _ _ _ _ _ Hpre Hlaunch Hpost).
Qed.

(** A unit whose three steps succeed returns the node of its
    post-launch, and has emitted the events of the three steps in
    order: no step runs twice, and the handler does not run. *)
Theorem add_node_succeeds
    (fuel : nat) (node_spec : NodeSpec)
    (others : list (World env -> World env))
    (w w1 w2 w3 : World env) (evs1 evs2 evs3 : list Event) (nd : NodeDict)
    (instance : Instance) (node : NodeRef) :
  __oci_pre_launch_instance env node_spec w = Run (Done (Ok nd)) w1 evs1 ->
  resume env others (_launch_instance env fuel nd node_spec w1)
    = Run (Done (Ok instance)) w2 evs2 ->
  _instance_post_launch env instance nd node_spec w2
    = Run (Done (Ok node)) w3 evs3 ->
  resume env others (__oci_add_node env fuel node_spec w)
    = Run (Done (Ok (Some node))) w3 (evs1 ++ evs2 ++ evs3)%list.
Proof.
  intros Hpre Hlaunch Hpost.
  exact (add_node_launched _ _ _ _ _ _ _ _ _ _ _ _ _ Hpre Hlaunch Hpost).
Qed.

(** A unit whose pre-launch raises ends with that exception at once:
    nothing is launched. *)
Theorem add_node_pre_launch_raises
    (fuel : nat) (node_spec : NodeSpec) (w w1 : World env)
    (evs1 : list Event) (e : exn) :
  __oci_pre_launch_instance env node_spec w = Run (Done (Exc e)) w1 evs1 ->
  __oci_add_node env fuel node_spec w = Run (Done (Exc e)) w1 evs1.
Proof.
  intros Hpre. unfold __oci_add_node. rewrite bind_eq, Hpre. gm_run.
  by rewrite app_nil_r.
Qed.

End UnitExtras.

(** A unit of the scenario whose adapter configuration has no shape:
    the instance is launched with the default shape, and the
    post-launch raises. *)
Lemma add_node_post_launch_raises_witness :
  exists w3 evs1 evs2 evs3,
    resume Scenario.env []
      (__oci_add_node Scenario.env 5 Scenario.node_spec_no_shape
         (Sim.world Scenario.ext_running))
    = Run (Done (Exc (KeyError "shape"))) w3 (evs1 ++ evs2 ++ evs3)%list
    /\ value Scenario.env (Done (Exc (KeyError "shape"))) = @None NodeRef.
Proof.
  eexists _, _, _, _.
  eapply (add_node_post_launch_raises Scenario.env 5 Scenario.node_spec_no_shape []
            (Sim.world Scenario.ext_running)).
  - vm_compute. reflexivity.
  - vm_compute. reflexivity.
  - vm_compute. reflexivity.
Defined.

(** A unit of the scenario that succeeds. *)
Lemma add_node_succeeds_witness :
  exists w3 evs1 evs2 evs3,
    resume Scenario.env []
      (__oci_add_node Scenario.env 5 Scenario.node_spec
         (Sim.world Scenario.ext_running))
    = Run (Done (Ok (Some 0%nat))) w3 (evs1 ++ evs2 ++ evs3)%list.
Proof.
  eexists _, _, _, _.
  eapply (add_node_succeeds Scenario.env 5 Scenario.node_spec []
            (Sim.world Scenario.ext_running)).
  - vm_compute. reflexivity.
  - vm_compute. reflexivity.
  - vm_compute. reflexivity.
Defined.

(** A unit on the installation whose installer has no domain. *)
Lemma add_node_pre_launch_raises_witness :
  __oci_add_node Scenario.env_nodomain 5 Scenario.node_spec
    (Sim.world (e:=Scenario.env_nodomain) Scenario.ext0)
  = Run (Done (Exc ValueError))
        (with_ext Scenario.env_nodomain
           (Sim.world (e:=Scenario.env_nodomain) Scenario.ext0)
           (Sim.mkSimExt [] [] 1))
        [ EvGenerateNodeName "compute-#NN" ].
Proof.
  apply (add_node_pre_launch_raises Scenario.env_nodomain 5 Scenario.node_spec).
  reflexivity.
Defined.

(** ** What the launch step leaves alone *)

Section QuietFacts.
Context (env : Env).

Local Abbreviation M := (@GM env).
Local Open Scope gm_scope.

(** Induction on what is left of a greenlet. *)
Lemma G_tree_ind {A} (P : G (env:=env) A -> Prop) :
  (forall r, P (Done r)) ->
  P Hang ->
  (forall k, (forall w, match k w with Run g _ _ => P g end) -> P (Susp k)) ->
  forall g, P g.
Proof.
  intros Hd Hh Hs. fix IH 1. intros [r| |k]; [apply Hd|apply Hh|].
  apply Hs. intros w. destruct (k w) as [g w' evs]. apply IH.
Qed.

Lemma ran_runs_emitted {A} Seg Fin w0 evs (r : Ran (env:=env) A) :
  ran_runs env Seg Fin w0 (emitted evs r) <-> ran_runs env Seg Fin w0 r.
Proof. by destruct r. Qed.

Lemma runs_susp {A} Seg Fin (k : World env -> Ran A) :
  runs env Seg Fin (Susp k) <-> forall w, ran_runs env Seg Fin w (k w).
Proof. reflexivity. Qed.

Lemma quiet_step_refl (w : World env) : quiet_step env w w.
Proof. by split. Qed.

Lemma quiet_step_trans (w1 w2 w3 : World env) :
  quiet_step env w1 w2 -> quiet_step env w2 w3 -> quiet_step env w1 w3.
Proof. intros [H1 H2] [H3 H4]. split; congruence. Qed.

(** A run that is quiet from [w] is quiet from a world that a quiet
    step leads to [w]. *)
Lemma quiet_ran_from {A} (w0 w : World env) (r : Ran A) :
  quiet_step env w0 w ->
  ran_runs env (quiet_step env) (fun w (_ : Outcome A) w' => quiet_step env w w') w r ->
  ran_runs env (quiet_step env) (fun w (_ : Outcome A) w' => quiet_step env w w') w0 r.
Proof.
  intros H0. destruct r as [[r| |k] w' evs]; simpl.
  - by apply quiet_step_trans.
  - by apply quiet_step_trans.
  - intros [H1 H2]. split; [by eapply quiet_step_trans|done].
Qed.

(** The end of a quiet segment is a quiet step away from its start. *)
Lemma quiet_ran_step {A} (w0 : World env) (g : G A) w evs :
  ran_runs env (quiet_step env) (fun w (_ : Outcome A) w' => quiet_step env w w') w0
           (Run g w evs) ->
  quiet_step env w0 w
  /\ runs env (quiet_step env) (fun w (_ : Outcome A) w' => quiet_step env w w') g.
Proof. destruct g as [r| |k]; simpl; [done|done|]. by intros [? ?]. Qed.

Lemma quiet_and_then {A B} (f : Outcome A -> M B) :
  (forall r, quiet env (f r)) ->
  forall (g : G A) (w0 w : World env),
    quiet_step env w0 w ->
    runs env (quiet_step env) (fun w (_ : Outcome A) w' => quiet_step env w w') g ->
    ran_runs env (quiet_step env) (fun w (_ : Outcome B) w' => quiet_step env w w')
             w0 (and_then g f w).
Proof.
  intros Hf g. induction g as [r| |k IH] using G_tree_ind; intros w0 w H0 Hg.
  - simpl. eapply quiet_ran_from; [exact H0|]. apply Hf.
  - simpl. exact H0.
  - simpl. split; [exact H0|]. intros w1.
    specialize (IH w1). specialize (Hg w1).
    change (ran_runs env (quiet_step env)
              (fun w (_ : Outcome A) w' => quiet_step env w w') w1 (k w1)) in Hg.
    destruct (k w1) as [g1 w2 evs].
    apply quiet_ran_step in Hg as [H12 Hg1].
    change (ran_runs env (quiet_step env)
              (fun w (_ : Outcome B) w' => quiet_step env w w') w1
              (emitted evs (and_then g1 f w2))).
    apply ran_runs_emitted. by apply IH.
Qed.

Lemma quiet_seq_gm {A B} (m : M A) (f : Outcome A -> M B) :
  quiet env m -> (forall r, quiet env (f r)) -> quiet env (seq_gm m f).
Proof.
  intros Hm Hf w. unfold seq_gm, seq_ran. specialize (Hm w).
  destruct (m w) as [g w1 evs]. apply quiet_ran_step in Hm as [H1 Hg].
  apply ran_runs_emitted. by apply quiet_and_then.
Qed.

Lemma quiet_atomic {A} (m : M A) :
  (forall w, exists r w' evs, m w = Run (Done r) w' evs /\ quiet_step env w w') ->
  quiet env m.
Proof. intros H w. destruct (H w) as (r & w' & evs & -> & Hq). exact Hq. Qed.

Lemma quiet_ret {A} (a : A) : quiet env (ret a).
Proof. apply quiet_atomic. intros w. eexists _, _, _. split; [reflexivity|apply quiet_step_refl]. Qed.

Lemma quiet_raise {A} e : quiet env (raise (A:=A) e).
Proof. apply quiet_atomic. intros w. eexists _, _, _. split; [reflexivity|apply quiet_step_refl]. Qed.

Lemma quiet_lift_outcome {A} (r : Outcome A) : quiet env (lift_outcome r).
Proof. apply quiet_atomic. intros w. eexists _, _, _. split; [reflexivity|apply quiet_step_refl]. Qed.

Lemma quiet_log lvl m : quiet env (log env lvl m).
Proof. apply quiet_atomic. intros w. eexists _, _, _. split; [reflexivity|apply quiet_step_refl]. Qed.

Lemma quiet_log_adapter_debug ocid text : quiet env (log_adapter_debug env ocid text).
Proof. apply quiet_log. Qed.

Lemma quiet_peek {A} (op : Ext env -> Outcome A) : quiet env (peek env op).
Proof. apply quiet_atomic. intros w. eexists _, _, _. split; [reflexivity|apply quiet_step_refl]. Qed.

Lemma quiet_call {A} ev (op : Ext env -> Outcome A * Ext env) : quiet env (call env ev op).
Proof.
  apply quiet_atomic. intros w. unfold call. destruct (op (ext w)) as [r x].
  eexists _, _, _. split; [reflexivity|]. by split.
Qed.

Lemma quiet_client_get_instance ocid : quiet env (client_get_instance env ocid).
Proof.
  apply quiet_atomic. intros w. unfold client_get_instance.
  destruct (get_instance env ocid (ext w)) as [r x].
  eexists _, _, _. split; [reflexivity|]. by split.
Qed.

Lemma quiet_getattr {A} ref (f : Node -> A) : quiet env (getattr env ref f).
Proof.
  apply quiet_atomic. intros w. unfold getattr.
  destruct (heap (db w) !! ref); eexists _, _, _;
    (split; [reflexivity|apply quiet_step_refl]).
Qed.

Lemma quiet_sleep d : quiet env (sleep d).
Proof.
  intros w. simpl. split; [apply quiet_step_refl|]. intros w'. apply quiet_step_refl.
Qed.

Lemma quiet_hang {A} : quiet env (hang (A:=A)).
Proof. intros w. apply quiet_step_refl. Qed.

Lemma quiet_bind {A B} (m : M A) (f : A -> M B) :
  quiet env m -> (forall a, quiet env (f a)) -> quiet env (bind m f).
Proof.
  intros Hm Hf. apply quiet_seq_gm; [done|].
  intros [a|e]; [apply Hf|apply quiet_raise].
Qed.

(** An assignment to a field of the adapter. *)
Lemma quiet_modify {B} (upd : World env -> World env) (k : M B) :
  (forall w, quiet_step env w (upd w)) ->
  quiet env k ->
  quiet env (w <- get_world ;; put_world (upd w) ;;; k).
Proof.
  intros Hupd Hk w. gm_run.
  eapply quiet_ran_from; [apply Hupd|apply Hk].
Qed.

Lemma quiet_get_installer_ip : quiet env (__get_installer_ip env).
Proof.
  apply quiet_atomic. intros w. unfold __get_installer_ip. gm_run.
  destruct (adapter_installer_ip w); gm_run; eexists _, _, _;
    (split; [reflexivity|]); by split.
Qed.

Lemma quiet_open_readlines fn : quiet env (open_readlines env fn).
Proof. destruct fn; simpl; first [apply quiet_call|apply quiet_raise]. Qed.

(** Solve [quiet] goals on code built from the primitives. *)
Ltac quiet_tac :=
  repeat first
    [ apply quiet_ret | apply quiet_raise | apply quiet_lift_outcome
    | apply quiet_log | apply quiet_log_adapter_debug | apply quiet_peek
    | apply quiet_call | apply quiet_client_get_instance | apply quiet_getattr
    | apply quiet_sleep | apply quiet_hang | apply quiet_get_installer_ip
    | apply quiet_open_readlines
    | apply quiet_bind; [|intros ?]
    | match goal with
      | |- quiet _ (if ?b then _ else _) => destruct b
      | |- quiet _ (match ?x with Some _ => _ | None => _ end) => destruct x
      end ].

Lemma quiet_get_user_data cfg : quiet env (__get_user_data env cfg).
Proof.
  unfold __get_user_data, __get_common_user_data_settings. quiet_tac.
Qed.

Lemma quiet_logging_callback i s : quiet env (logging_callback env i s).
Proof. apply quiet_log_adapter_debug. Qed.

Lemma quiet_wait fuel ocid target callback :
  (forall cb i s, callback = Some cb -> quiet env (cb i s)) ->
  forall n, quiet env (_wait_for_instance_state env fuel ocid target callback n).
Proof.
  intros Hcb. induction fuel as [|fuel IH]; intros n; simpl.
  - apply quiet_hang.
  - apply quiet_bind; [apply quiet_client_get_instance|]. intros i.
    destruct (String.eqb _ target); [apply quiet_ret|].
    apply quiet_bind.
    { destruct callback as [cb|]; [by apply Hcb|apply quiet_ret]. }
    intros _. apply quiet_bind; [apply quiet_sleep|]. intros _. apply IH.
Qed.

(** The launch step is quiet. *)
Lemma quiet_launch_instance
    (fuel : nat) (node_dict : NodeDict) (node_spec : NodeSpec) :
  quiet env (_launch_instance env fuel node_dict node_spec).
Proof.
  unfold _launch_instance.
  apply quiet_bind; [apply quiet_peek|]. intros session.
  apply quiet_bind; [apply quiet_get_user_data|]. intros user_data.
  apply quiet_bind; [apply quiet_lift_outcome|]. intros session'.
  apply quiet_bind; [apply quiet_lift_outcome|]. intros vcpus.
  apply quiet_bind; [quiet_tac|]. intros vcpus'.
  apply quiet_modify; [by intros w|].
  apply quiet_bind; [apply quiet_lift_outcome|]. intros n.
  apply quiet_bind; [apply quiet_log|]. intros _.
  apply quiet_bind; [quiet_tac|]. intros lc.
  apply quiet_bind; [apply quiet_call|]. intros ocid.
  apply quiet_bind; [apply quiet_log_adapter_debug|]. intros _.
  apply quiet_bind.
  { apply quiet_wait. intros cb i s [= <-]. apply quiet_logging_callback. }
  intros _.
  apply quiet_bind; [apply quiet_log_adapter_debug|]. intros _.
  apply quiet_client_get_instance.
Qed.

(** The launch step never touches the registry or the instance cache:
    in every segment of [_launch_instance], whatever the others did
    before it, the registry and the cache at its end are those at its
    start. *)
Theorem launch_instance_quiet
    (fuel : nat) (node_dict : NodeDict) (node_spec : NodeSpec) :
  quiet env (_launch_instance env fuel node_dict node_spec).
Proof. apply quiet_launch_instance. Qed.

End QuietFacts.

(** ** The nodes a request returns *)

Section PoolInvariant.
Context (env : Env).

Local Abbreviation M := (@GM env).
Local Open Scope gm_scope.

(** *** The records of the others *)

Lemma others_kept_same own (w w' : World env) :
  db w' = db w -> others_kept env own w w'.
Proof. intros Hdb q _ _. by rewrite Hdb. Qed.

Lemma others_kept_weaken own (w w' : World env) :
  others_kept env None w w' -> others_kept env own w w'.
Proof. intros H q Hq _. by apply H. Qed.

Lemma others_kept_from own (w0 w w' : World env) :
  db w = db w0 -> others_kept env own w w' -> others_kept env own w0 w'.
Proof. intros Hdb H q Hq Hne. rewrite <- Hdb in *. by apply H. Qed.

Lemma others_kept_trans own (w w1 w2 : World env) :
  doomed (db w1) = ∅ ->
  (next_ref (db w) <= next_ref (db w1))%nat ->
  others_kept env own w w1 -> others_kept env own w1 w2 ->
  others_kept env own w w2.
Proof.
  intros Hd Hle H1 H2 q Hq Hne.
  destruct (H1 q Hq Hne) as (Hh1 & Ha1 & Hr1).
  destruct (H2 q ltac:(lia) Hne) as (Hh2 & Ha2 & Hr2).
  split; [congruence|]. split; [tauto|].
  intros Hc.
  assert (Hc1 : clean q (db w1)).
  { split; [rewrite Hd; apply not_elem_of_empty|].
    intros Ha. etransitivity; [by apply Hr1|].
    etransitivity; [|symmetry; exact Hh1].
    destruct Hc as [_ Hc]. apply Hc. tauto. }
  etransitivity; [by apply Hr2|by apply Hr1].
Qed.

Lemma cache_kept_same (w w' : World env) : cache w' = cache w -> cache_kept env w w'.
Proof. intros Hc name. by rewrite Hc. Qed.

Lemma cache_kept_trans (w w1 w2 : World env) :
  cache_kept env w w1 -> cache_kept env w1 w2 -> cache_kept env w w2.
Proof. intros H1 H2 name Hn. by apply H2, H1. Qed.

(** A commit after operations on the record [p] alone. *)
Lemma commit_others (p : nat) (r r1 : Registry) :
  rows r1 = rows r ->
  (forall q, q <> p ->
     heap r1 !! q = heap r !! q
     /\ (q ∈ attached r1 <-> q ∈ attached r)
     /\ (q ∈ doomed r1 <-> q ∈ doomed r)) ->
  forall q, q <> p ->
    heap (registry_commit r1) !! q = heap r !! q
    /\ (clean q r ->
        (q ∈ attached (registry_commit r1) <-> q ∈ attached r)
        /\ rows (registry_commit r1) !! q = rows r !! q).
Proof.
  intros Hrows Hsame q Hne. destruct (Hsame q Hne) as (Hh & Ha & Hd).
  split; [exact Hh|]. intros [Hnd Hc].
  assert (Hc1 : clean q r1).
  { split; [tauto|]. intros Ha1.
    etransitivity; [rewrite Hrows; apply Hc; tauto|symmetry; exact Hh]. }
  split.
  - simpl. rewrite elem_of_difference. tauto.
  - simpl. rewrite (commit_rows_clean r1 q Hc1). by rewrite Hrows.
Qed.

(** *** The end of a unit *)

Lemma unit_end_from own (w0 w1 : World env) r w' :
  quiet_step env w0 w1 -> unit_end env own w1 r w' -> unit_end env own w0 r w'.
Proof.
  intros [Hdb Hc] H Hown.
  assert (Hown1 : owned env own w1) by (unfold owned in *; by rewrite Hdb).
  destruct (H Hown1) as (Hd & Hn & Hk & Hck & Hnode).
  split; [done|]. split; [by rewrite <- Hdb|].
  split; [by eapply others_kept_from|].
  split; [intros name; rewrite <- Hc; apply Hck|].
  intros node Hr. rewrite <- Hdb. by apply Hnode.
Qed.

(** The handler of [__oci_add_node]. *)
Lemma handler_run nd e (w : World env) :
  (match nd_node nd with
   | Some node => db_session_delete env node ;;; db_session_commit env
   | None => ret tt
   end ;;;
   log env Error (MLaunchError e) ;;;
   ret None) w
  = Run (Done (Ok (@None Instance))) (handled env nd w) (handler_events nd e).
Proof.
  unfold handled, handler_events. destruct (nd_node nd); gm_run; reflexivity.
Qed.

Lemma handler_end nd (w : World env) :
  unit_end env (nd_node nd) w (Ok None) (handled env nd w).
Proof.
  intros [Hd Hown]. unfold handled. destruct (nd_node nd) as [p|].
  - split; [reflexivity|]. split; [reflexivity|].
    split; [|split; [by apply cache_kept_same|done]].
    intros q Hq Hne.
    assert (Hqp : q <> p) by (intros ->; by apply Hne).
    destruct (commit_others p (db w) (registry_delete p (db w)) eq_refl) with (q := q)
      as (Hh & Hc); [|done|].
    { intros q' Hq'. split; [done|]. split; [done|]. simpl.
      rewrite elem_of_union, elem_of_singleton. tauto. }
    split; [exact Hh|].
    assert (Hclean : q ∉ doomed (db w)) by (rewrite Hd; apply not_elem_of_empty).
    split.
    + simpl. rewrite elem_of_difference, elem_of_union, elem_of_singleton. tauto.
    + intros Hcl. by apply Hc.
  - split; [done|]. split; [done|]. split; [by apply others_kept_same|].
    split; [by apply cache_kept_same|done].
Qed.

(** The post-launch of a unit that has a placeholder. *)
Lemma post_launch_end_some instance (p : NodeRef) node_spec (w : World env) r w' evs :
  _instance_post_launch env instance (mkNodeDict (Some p)) node_spec w
    = Run (Done r) w' evs ->
  unit_end env (Some p) w
    match r with Ok node => Ok (Some node) | Exc e => Exc e end w'.
Proof.
  intros Hrun [Hd (Hlt & [n Hn] & Hatt)].
  assert (Hnd : p ∉ doomed (db w)) by (rewrite Hd; apply not_elem_of_empty).
  destruct (__get_instance_private_ips env (instance_id instance)
              (compartment_id instance) w) as [gi wi evsi] eqn:Hips.
  destruct (get_instance_private_ips_frame env _ _ _ _ _ _ Hips) as [[ri ->] _].
  destruct ri as [ips|e].
  - destruct (post_launch_run env instance node_spec p n ips w wi evsi
                Hn Hatt Hnd Hips)
      as (w1 & evs1 & Hrun1 & Hrow & Hheap & _ & _ & Hdb & Hck & Hok).
    rewrite Hrun in Hrun1. injection Hrun1 as Hr <- <-.
    split; [by rewrite Hdb|]. split; [by rewrite Hdb|].
    split; [|split; [exact Hck|]].
    + intros q Hq Hne.
      assert (Hqp : q <> p) by (intros ->; by apply Hne).
      rewrite Hdb.
      match goal with
      | |- context [registry_commit ?r1] =>
          destruct (commit_others p (db w) r1 eq_refl) with (q := q) as (Hh & Hc);
            [|done|]
      end.
      { intros q' Hq'. simpl. unfold NodeRef in *.
        rewrite !lookup_alter_ne by done. done. }
      split; [exact Hh|]. split.
      * simpl. rewrite Hd, elem_of_difference. split; [tauto|].
        intros Ha. split; [done|apply not_elem_of_empty].
      * intros Hcl. by apply Hc.
    + intros node Hnode. destruct r as [node'|e]; [|done].
      injection Hnode as ->.
      destruct (Hok node (eq_sym Hr)) as (-> & Hips_ne & Hentry).
      split; [by left|].
      split; [by rewrite Hdb|].
      eexists. split; [exact Hheap|]. split; [exact Hrow|].
      split; [rewrite Hdb; simpl; rewrite Hd, elem_of_difference;
              split; [done|apply not_elem_of_empty]|].
      split; [done|]. split; [|exact Hentry].
      simpl. by destruct ips.
  - destruct (post_launch_fails_run env instance node_spec p e w wi evsi Hips)
      as (w1 & Hrun1 & _ & _ & _ & Hc & _ & Hdb).
    rewrite Hrun in Hrun1. injection Hrun1 as -> <- _.
    split; [by rewrite Hdb|]. split; [by rewrite Hdb|].
    split; [|split; [by apply cache_kept_same|done]].
    intros q Hq Hne. assert (Hqp : q <> p) by (intros ->; by apply Hne).
    rewrite Hdb. simpl. unfold NodeRef in *. by rewrite lookup_alter_ne.
Qed.

(** Post-launch runs without a switch to another greenlet. *)
Lemma atomic_bind {A B} (m : M A) (f : A -> M B) :
  (forall w, exists r w' evs, m w = Run (Done r) w' evs) ->
  (forall a w, exists r w' evs, f a w = Run (Done r) w' evs) ->
  forall w, exists r w' evs, bind m f w = Run (Done r) w' evs.
Proof.
  intros Hm Hf w. destruct (Hm w) as (r & w1 & evs1 & Hr).
  rewrite bind_eq, Hr, seq_ran_done. destruct r as [a|e].
  - destruct (Hf a w1) as (r2 & w2 & evs2 & ->). by eexists _, _, _.
  - by eexists _, _, _.
Qed.

Lemma atomic_getattr {A} ref (f : Node -> A) (w : World env) :
  exists r w' evs, getattr env ref f w = Run (Done r) w' evs.
Proof. unfold getattr. destruct (heap (db w) !! ref); by eexists _, _, _. Qed.

Lemma atomic_private_ips i c (w : World env) :
  exists r w' evs, __get_instance_private_ips env i c w = Run (Done r) w' evs.
Proof.
  destruct (__get_instance_private_ips env i c w) as [g w' evs] eqn:H.
  destruct (get_instance_private_ips_frame env _ _ _ _ _ _ H) as [[r ->] _].
  by eexists _, _, _.
Qed.

Ltac atomic_tac :=
  repeat first
    [ apply atomic_getattr | apply atomic_private_ips
    | apply atomic_bind; [intros ?|intros ? ?]
    | (by eexists _, _, _)
    | match goal with
      | |- exists _ _ _, (match ?x with Some _ => _ | None => _ end) _ = _ =>
          destruct x
      end ].

Lemma post_launch_atomic instance nd node_spec (w : World env) :
  exists r w' evs,
    _instance_post_launch env instance nd node_spec w = Run (Done r) w' evs.
Proof.
  unfold _instance_post_launch, __initialize_node. revert w. atomic_tac.
Qed.

(** The post-launch of any unit. *)
Lemma post_launch_end instance nd node_spec (w : World env) r w' evs :
  _instance_post_launch env instance nd node_spec w = Run (Done r) w' evs ->
  unit_end env (nd_node nd) w
    match r with Ok node => Ok (Some node) | Exc e => Exc e end w'.
Proof.
  destruct nd as [[p|]]; [apply post_launch_end_some|]. simpl nd_node.
  rewrite post_launch_wildcard_eq.
  match goal with
  | |- match _instance_post_launch env instance _ node_spec ?W with _ => _ end = _ -> _ =>
      set (wc := W);
      destruct (_instance_post_launch env instance (mkNodeDict (Some (next_ref (db w))))
                  node_spec wc) as [g1 w1 evs1] eqn:H1
  end.
  intros [= -> -> _]. apply post_launch_end_some in H1.
  intros [Hd _].
  destruct H1 as (Hd' & Hn' & Hk' & Hck' & Hnode').
  { split; [exact Hd|]. split; [simpl; lia|].
    split; [simpl; rewrite lookup_insert_eq; by eexists|].
    simpl. apply elem_of_union. left. by apply elem_of_singleton. }
  split; [exact Hd'|]. split; [simpl in Hn'; lia|].
  split; [|split; [exact Hck'|]].
  - intros q Hq _.
    assert (Hqp : q <> next_ref (db w)) by lia.
    destruct (Hk' q) as (Hh & Ha & Hr); [simpl; lia|by intros [= ->]|].
    split; [|split].
    + etransitivity; [exact Hh|]. simpl. by rewrite lookup_insert_ne.
    + rewrite Ha. simpl. rewrite elem_of_union, elem_of_singleton. tauto.
    + intros [Hnd Hc]. etransitivity; [apply Hr|done].
      split; [exact Hnd|]. intros Hatt. simpl in Hatt.
      apply elem_of_union in Hatt as [Hatt%elem_of_singleton|Hatt]; [done|].
      simpl. rewrite lookup_insert_ne by done. by apply Hc.
  - intros node Hr. destruct (Hnode' node Hr) as [[Hown|[Hown _]] Hprov];
      [|discriminate Hown].
    injection Hown as <-. split; [by right|exact Hprov].
Qed.

(** *** The segments of a unit *)

Lemma runs_and_then_atomic {A B} Seg (Fin : World env -> Outcome A -> World env -> Prop)
    (Fin' : World env -> Outcome B -> World env -> Prop) (f : Outcome A -> M B) :
  (forall r w0 w1, Fin w0 r w1 ->
     exists r' w' evs, f r w1 = Run (Done r') w' evs /\ Fin' w0 r' w') ->
  forall (g : G A) (w0 w : World env),
    ran_runs env Seg Fin w0 (Run g w []) ->
    ran_runs env Seg Fin' w0 (and_then g f w).
Proof.
  intros Hf g. induction g as [r| |k IH] using (G_tree_ind env); intros w0 w H.
  - simpl in H. destruct (Hf r w0 w H) as (r' & w' & evs & Heq & HF).
    simpl. rewrite Heq. exact HF.
  - exact H.
  - destruct H as [HS H]. simpl. split; [exact HS|]. intros w1.
    specialize (H w1). specialize (IH w1).
    destruct (k w1) as [g1 w2 evs].
    change (ran_runs env Seg Fin' w1 (emitted evs (and_then g1 f w2))).
    apply ran_runs_emitted. apply IH. exact H.
Qed.

Lemma ran_runs_seq_atomic {A B} Seg (Fin : World env -> Outcome A -> World env -> Prop)
    (Fin' : World env -> Outcome B -> World env -> Prop) (f : Outcome A -> M B)
    (w0 : World env) (r : Ran A) :
  (forall r w0 w1, Fin w0 r w1 ->
     exists r' w' evs, f r w1 = Run (Done r') w' evs /\ Fin' w0 r' w') ->
  ran_runs env Seg Fin w0 r ->
  ran_runs env Seg Fin' w0 (seq_ran r f).
Proof.
  intros Hf H. destruct r as [g w evs]. unfold seq_ran.
  apply ran_runs_emitted. by apply (runs_and_then_atomic Seg Fin Fin').
Qed.

(** A unit after its pre-launch: quiet segments, and a last segment that
    ends the unit. *)
Lemma unit_rest_runs fuel node_spec nd (w w1 : World env) evs1 :
  __oci_pre_launch_instance env node_spec w = Run (Done (Ok nd)) w1 evs1 ->
  exists R,
    __oci_add_node env fuel node_spec w = emitted evs1 R
    /\ ran_runs env (quiet_step env) (unit_end env (nd_node nd)) w1 R.
Proof.
  intros Hpre. unfold __oci_add_node. rewrite bind_eq, Hpre, seq_ran_done.
  eexists. split; [reflexivity|]. cbv beta iota.
  rewrite bind_eq, try_except_eq, bind_eq.
  apply (ran_runs_seq_atomic (quiet_step env)
           (fun w0 (r : Outcome (option Instance)) w' =>
              match r with
              | Ok (Some _) => quiet_step env w0 w'
              | Ok None => exists w1, quiet_step env w0 w1 /\ w' = handled env nd w1
              | Exc _ => False
              end)).
  { intros [[instance|]|e] w0 w2 H; [| |done].
    - destruct (post_launch_atomic instance nd node_spec w2) as (r & w3 & evs3 & Hpost).
      rewrite bind_eq, Hpost, seq_ran_done.
      exists match r with Ok node => Ok (Some node) | Exc e => Exc e end, w3.
      eexists. split; [destruct r; gm_run; reflexivity|].
      eapply unit_end_from; [exact H|]. by eapply post_launch_end.
    - destruct H as (w3 & Hq & ->).
      eexists _, _, _. split; [reflexivity|].
      eapply unit_end_from; [exact Hq|]. apply handler_end. }
  apply (ran_runs_seq_atomic (quiet_step env)
           (fun w0 (r : Outcome (option Instance)) w' =>
              quiet_step env w0 w' /\ r <> Ok None)).
  { intros [[instance|]|e] w0 w2 [Hq Hne]; [|done|].
    - eexists _, _, _. split; [reflexivity|]. exact Hq.
    - rewrite handler_run. eexists _, _, _. split; [reflexivity|].
      by exists w2. }
  apply (ran_runs_seq_atomic (quiet_step env)
           (fun w0 (_ : Outcome Instance) w' => quiet_step env w0 w')).
  { intros [instance|e] w0 w2 Hq; eexists _, _, _; (split; [reflexivity|]);
      by split. }
  apply quiet_launch_instance.
Qed.

Lemma pre_launch_step node_spec (w : World env) :
  exists r w1 evs1,
    __oci_pre_launch_instance env node_spec w = Run (Done r) w1 evs1
    /\ cache w1 = cache w
    /\ match r with
       | Ok nd =>
           match nd_node nd with
           | Some p =>
               p = next_ref (db w)
               /\ exists n,
                    db w1 = registry_commit
                              (registry_add p
                                 (registry_update p (set_state "Launching")
                                    (registry_new n (db w)).2))
           | None => db w1 = db w
           end
       | Exc _ => db w1 = db w
       end.
Proof.
  unfold __oci_pre_launch_instance.
  destruct (String.eqb _ "*"); [by eexists _, _, _|].
  gm_run. unfold call.
  destruct (generate_node_name env _ _ _ (ext w)) as [[fqdn|e'] x] eqn:Hgen;
    gm_run; [|by eexists _, _, _].
  destruct (unpack2 (PyStr.split1 "." fqdn)) as [[label zone]|e'] eqn:Hf;
    gm_run; [|by eexists _, _, _].
  destruct (unpack2 (PyStr.split1 "." (installer_public_hostname env)))
    as [[host domain]|e'] eqn:Hi; gm_run; [|by eexists _, _, _].
  unfold __initialize_node. gm_run.
  eexists _, _, _. split; [reflexivity|]. split; [done|]. simpl.
  split; [done|]. by eexists.
Qed.

(** One segment, from what [runs] says of it. *)
Lemma ran_step fuel node_spec own (w : World env) g' w' evs :
  owned env own w ->
  ran_runs env (quiet_step env) (unit_end env own) w (Run g' w' evs) ->
  exists own', unit_step env fuel node_spec own w g' own' w'.
Proof.
  intros Hown H.
  assert (Hbound : forall w2 : World env, (next_ref (db w) <= next_ref (db w2))%nat ->
            match own with
            | Some p => (p < next_ref (db w2))%nat
            | None => True
            end).
  { intros w2 Hle. destruct own as [p|]; [|done]. destruct Hown as (_ & Hlt & _). lia. }
  destruct g' as [r| |k]; simpl in H.
  - destruct (H Hown) as (Hd & Hn & Hk & Hck & Hnode).
    destruct r as [[node|]|e].
    + destruct (Hnode node eq_refl) as [Hcase Hprov]. exists (Some node).
      split; [destruct Hcase as [->|[-> ->]]; [by left|by right]|].
      split; [done|]. split; [done|].
      split; [destruct Hcase as [->|[-> _]]; [done|by apply others_kept_weaken]|].
      split; [done|]. split; [apply Hprov|]. by split.
    + exists own. split; [by left|]. split; [done|]. split; [done|].
      split; [done|]. split; [done|]. split; [by apply Hbound|done].
    + exists own. split; [by left|]. split; [done|]. split; [done|].
      split; [done|]. split; [done|]. split; [by apply Hbound|done].
  - destruct H as [Hdb Hc]. exists own. split; [by left|].
    split; [rewrite Hdb; apply Hown|]. split; [by rewrite Hdb|].
    split; [by apply others_kept_same|]. split; [by apply cache_kept_same|].
    split; [apply Hbound; by rewrite Hdb|done].
  - destruct H as [[Hdb Hc] Hruns]. exists own. split; [by left|].
    split; [rewrite Hdb; apply Hown|]. split; [by rewrite Hdb|].
    split; [by apply others_kept_same|]. split; [by apply cache_kept_same|].
    split; [apply Hbound; by rewrite Hdb|].
    right. split; [exact Hruns|]. unfold owned. by rewrite Hdb.
Qed.

(** A segment of a unit that has started. *)
Lemma unit_later fuel node_spec own k (w : World env) g' w' evs :
  runs env (quiet_step env) (unit_end env own) (Susp k) ->
  owned env own w ->
  k w = Run g' w' evs ->
  exists own', unit_step env fuel node_spec own w g' own' w'.
Proof.
  intros Hruns Hown Hk. apply (ran_step fuel node_spec own w g' w' evs Hown).
  specialize (Hruns w). rewrite Hk in Hruns. exact Hruns.
Qed.

(** The first segment of a unit. *)
Lemma unit_first fuel node_spec (w : World env) g' w' evs :
  doomed (db w) = ∅ ->
  __oci_add_node env fuel node_spec w = Run g' w' evs ->
  exists own', unit_step env fuel node_spec None w g' own' w'.
Proof.
  intros Hd Hrun.
  destruct (pre_launch_step node_spec w) as (r & w1 & evs1 & Hpre & Hc & Hr).
  destruct r as [nd|e].
  - destruct (unit_rest_runs fuel node_spec nd w w1 evs1 Hpre) as (R & Heq & HR).
    rewrite Heq in Hrun. destruct R as [g2 w2 evs2]. simpl in Hrun.
    injection Hrun as -> -> _.
    destruct (nd_node nd) as [p|] eqn:Hnd.
    + destruct Hr as (-> & n & Hdb).
      assert (Hown : owned env (Some (next_ref (db w))) w1).
      { unfold owned. rewrite Hdb. split; [reflexivity|]. split; [simpl; lia|].
        split.
        - simpl. unfold NodeRef. rewrite lookup_alter_eq, lookup_insert_eq. by eexists.
        - simpl. rewrite Hd, elem_of_difference. split; [|apply not_elem_of_empty].
          apply elem_of_union. left. by apply elem_of_singleton. }
      destruct (ran_step fuel node_spec _ w1 g' w' evs2 Hown HR)
        as (own' & Hcase & Hd' & Hn' & Hk' & Hck' & Hst).
      destruct Hcase as [->|[Hno _]]; [|discriminate Hno].
      exists (Some (next_ref (db w))).
      assert (Hle : (next_ref (db w) <= next_ref (db w1))%nat)
        by (rewrite Hdb; simpl; lia).
      split; [by right|]. split; [done|]. split; [lia|].
      split; [|split; [|done]].
      * apply (others_kept_trans _ w w1 w'); [by rewrite Hdb|done| |done].
        intros q Hq Hne. assert (Hqp : q <> next_ref (db w)) by lia.
        rewrite Hdb.
        match goal with
        | |- context [registry_commit ?r1] =>
            destruct (commit_others (next_ref (db w)) (db w) r1 eq_refl)
              with (q := q) as (Hh & Hcl); [|done|]
        end.
        { intros q' Hq'. simpl. unfold NodeRef.
          rewrite lookup_alter_ne, lookup_insert_ne by done.
          split; [done|]. split; [|done].
          rewrite elem_of_union, elem_of_singleton. tauto. }
        split; [exact Hh|]. split.
        -- simpl. rewrite Hd, elem_of_difference, elem_of_union, elem_of_singleton.
           split; [tauto|]. intros Ha. split; [by right|apply not_elem_of_empty].
        -- intros Hclean. by apply Hcl.
      * intros name. rewrite <- Hc. apply Hck'.
    + assert (Hown : owned env None w1) by (unfold owned; by rewrite Hr).
      destruct (ran_step fuel node_spec _ w1 g' w' evs2 Hown HR)
        as (own' & Hcase & Hd' & Hn' & Hk' & Hck' & Hst).
      exists own'. rewrite Hr in Hcase, Hn'.
      split; [done|]. split; [done|]. split; [done|].
      split; [by eapply others_kept_from|]. split; [|done].
      intros name. rewrite <- Hc. apply Hck'.
  - unfold __oci_add_node in Hrun. rewrite bind_eq, Hpre in Hrun. gm_run_in Hrun.
    injection Hrun as <- <- _. exists None.
    split; [by left|]. split; [by rewrite Hr|]. split; [by rewrite Hr|].
    split; [by apply others_kept_same|]. split; [by apply cache_kept_same|].
    by split.
Qed.

(** *** The pool *)

(** What a segment of another unit keeps of a unit. *)
Lemma status_kept fuel node_spec g own own' (w w' : World env) :
  unit_status env fuel node_spec g own w ->
  doomed (db w) = ∅ ->
  doomed (db w') = ∅ ->
  (next_ref (db w) <= next_ref (db w'))%nat ->
  others_kept env own' w w' ->
  cache_kept env w w' ->
  (forall p, own = Some p -> own' <> Some p) ->
  unit_status env fuel node_spec g own w'.
Proof.
  intros [Hb Hs] Hd Hd' Hle Hk Hck Hne.
  assert (Hb' : match own with
                | Some p => (p < next_ref (db w'))%nat
                | None => True
                end) by (destruct own; [lia|done]).
  split; [exact Hb'|].
  assert (Hkeep : forall p, own = Some p ->
            heap (db w') !! p = heap (db w) !! p
            /\ (p ∈ attached (db w') <-> p ∈ attached (db w))
            /\ (clean p (db w) -> rows (db w') !! p = rows (db w) !! p)).
  { intros p ->. apply Hk; [exact Hb|]. intros Heq. by apply (Hne p). }
  destruct g as [[[node|]|e]| |k]; try done.
  - destruct Hs as (-> & Hlt & n & Hh & Hr & Ha & Hst & Hn & Hc).
    destruct (Hkeep node eq_refl) as (Hh' & Ha' & Hr').
    split; [done|]. split; [lia|]. exists n.
    split; [by rewrite Hh'|]. split.
    { rewrite Hr'; [done|]. split; [rewrite Hd; apply not_elem_of_empty|].
      intros _. by rewrite Hh, Hr. }
    split; [tauto|]. split; [done|]. split; [done|]. by apply Hck.
  - destruct Hs as [Hs|[Hruns Hown]]; [by left|]. right. split; [done|].
    split; [done|]. destruct own as [p|]; [|done].
    destruct Hown as (_ & Hlt & Hh & Ha).
    destruct (Hkeep p eq_refl) as (Hh' & Ha' & _).
    split; [lia|]. split; [by rewrite Hh'|tauto].
Qed.

(** The pool after a segment of one of its units. *)
Lemma pool_step fuel node_spec pool owns (w : World env) i k g' w' evs :
  pool_inv env fuel node_spec pool owns w ->
  pool !! i = Some (Susp k) ->
  k w = Run g' w' evs ->
  exists own own',
    owns !! i = Some own
    /\ unit_step env fuel node_spec own w g' own' w'
    /\ pool_inv env fuel node_spec (<[i := g']> pool) (<[i := own']> owns) w'.
Proof.
  intros (Hd & Hlen & Hst & Hdist) Hi Hk.
  assert (Hlt : (i < length owns)%nat)
    by (rewrite Hlen; by eapply lookup_lt_Some).
  destruct (lookup_lt_is_Some_2 owns i Hlt) as [own Hown].
  destruct (Hst i _ own Hi Hown) as [Hb Hs].
  assert (Hstep : exists own', unit_step env fuel node_spec own w g' own' w').
  { destruct Hs as [[Hsp ->]|[Hruns Howned]].
    - unfold spawn in Hsp. injection Hsp as Hsp. subst k.
      exact (unit_first fuel node_spec w g' w' evs Hd Hk).
    - exact (unit_later fuel node_spec own k w g' w' evs Hruns Howned Hk). }
  destruct Hstep as (own' & Hstep).
  exists own, own'. split; [exact Hown|]. split; [exact Hstep|].
  destruct Hstep as (Hcase & Hd' & Hle & Hkept & Hck & Hst').
  assert (Hfresh : forall j p, j <> i -> owns !! j = Some (Some p) -> own' <> Some p).
  { intros j p Hj Hp Heq. destruct Hcase as [->|[-> ->]].
    - apply Hj. apply (Hdist j i p); [done|]. by rewrite Hown, Heq.
    - injection Heq as <-.
      assert (Hpj : exists g, pool !! j = Some g).
      { apply lookup_lt_is_Some_2. rewrite <- Hlen. by eapply lookup_lt_Some. }
      destruct Hpj as [g Hg]. destruct (Hst j g _ Hg Hp) as [Hbj _]. simpl in Hbj. lia. }
  split; [exact Hd'|]. split; [by rewrite !length_insert|]. split.
  - intros j g ownj Hg Hoj. destruct (decide (j = i)) as [->|Hj].
    + rewrite list_lookup_insert_eq in Hg by (by eapply lookup_lt_Some).
      rewrite list_lookup_insert_eq in Hoj by done.
      injection Hg as <-. injection Hoj as <-. exact Hst'.
    + rewrite list_lookup_insert_ne in Hg by done.
      rewrite list_lookup_insert_ne in Hoj by done.
      apply (status_kept fuel node_spec g ownj own' w w'); try done.
      * by apply (Hst j).
      * intros p ->. by apply (Hfresh j).
  - intros a b p Ha Hb'.
    destruct (decide (a = i)) as [->|Hai], (decide (b = i)) as [->|Hbi]; [done| | |].
    + rewrite list_lookup_insert_eq in Ha by done. injection Ha as Ha.
      rewrite list_lookup_insert_ne in Hb' by done.
      exfalso. by apply (Hfresh b p).
    + rewrite list_lookup_insert_eq in Hb' by done. injection Hb' as Hb'.
      rewrite list_lookup_insert_ne in Ha by done.
      exfalso. by apply (Hfresh a p).
    + rewrite list_lookup_insert_ne in Ha, Hb' by done. by apply (Hdist a b p).
Qed.

(** The hub keeps the pool as it should be, whatever the schedule. *)
Lemma run_greenlets_pool_inv fuel node_spec sched :
  forall pool fin (w : World env) owns pool' fin' w' evs,
    pool_inv env fuel node_spec pool owns w ->
    run_greenlets env sched pool fin w = (pool', fin', w', evs) ->
    exists owns', pool_inv env fuel node_spec pool' owns' w'.
Proof.
  induction sched as [|i sched IH]; intros pool fin w owns pool' fin' w' evs Hinv; simpl.
  { intros [= <- <- <- <-]. by exists owns. }
  destruct (pool !! i) as [[r| |k]|] eqn:Hi;
    [by eapply IH|by eapply IH| |by eapply IH].
  destruct (k w) as [g w1 evs1] eqn:Hk.
  destruct (run_greenlets env sched _ _ w1) as [[[pool1 fin1] w2] evs2] eqn:Hrun.
  intros [= <- <- <- <-].
  destruct (pool_step fuel node_spec pool owns w i k g w1 evs1 Hinv Hi Hk)
    as (own & own' & _ & _ & Hinv1).
  by eapply IH.
Qed.

(** ... and the units keep the records that are not theirs: those below
    [N], when every record a unit owns is at [N] or above. *)
Lemma run_greenlets_keeps fuel node_spec (N : nat) sched :
  forall pool fin (w : World env) owns pool' fin' w' evs,
    pool_inv env fuel node_spec pool owns w ->
    (N <= next_ref (db w))%nat ->
    (forall i (p : NodeRef), owns !! i = Some (Some p) -> (N <= p)%nat) ->
    run_greenlets env sched pool fin w = (pool', fin', w', evs) ->
    doomed (db w') = ∅
    /\ cache_kept env w w'
    /\ forall q : nat, (q < N)%nat ->
         heap (db w') !! q = heap (db w) !! q
         /\ (q ∈ attached (db w') <-> q ∈ attached (db w))
         /\ (clean q (db w) -> rows (db w') !! q = rows (db w) !! q).
Proof.
  induction sched as [|i sched IH];
    intros pool fin w owns pool' fin' w' evs Hinv HN Howns; simpl.
  { intros [= <- <- <- <-]. split; [apply Hinv|]. split; [by apply cache_kept_same|].
    done. }
  destruct (pool !! i) as [[r| |k]|] eqn:Hi;
    [by eapply IH|by eapply IH| |by eapply IH].
  destruct (k w) as [g w1 evs1] eqn:Hk.
  destruct (run_greenlets env sched _ _ w1) as [[[pool1 fin1] w2] evs2] eqn:Hrun.
  intros [= <- <- <- <-].
  destruct (pool_step fuel node_spec pool owns w i k g w1 evs1 Hinv Hi Hk)
    as (own & own' & Hown & (Hcase & Hd1 & Hle & Hkept & Hck & _) & Hinv1).
  assert (Hown' : forall p : NodeRef, own' = Some p -> (N <= p)%nat).
  { intros p ->. destruct Hcase as [<-|[_ [= ->]]]; [by apply (Howns i)|done]. }
  assert (HN1 : (N <= next_ref (db w1))%nat) by lia.
  assert (Howns1 : forall j (p : NodeRef),
            <[i := own']> owns !! j = Some (Some p) -> (N <= p)%nat).
  { intros j p Hj. destruct (decide (j = i)) as [->|Hne].
    - apply lookup_lt_Some in Hown as Hlt.
      rewrite list_lookup_insert_eq in Hj by done. injection Hj as Hj.
      by apply Hown'.
    - rewrite list_lookup_insert_ne in Hj by done. by apply (Howns j). }
  destruct (IH _ _ _ _ _ _ _ _ Hinv1 HN1 Howns1 Hrun) as (Hd2 & Hck2 & Hk2).
  split; [exact Hd2|]. split; [by eapply cache_kept_trans|].
  intros q Hq.
  destruct (Hkept q) as (Hh1 & Ha1 & Hr1); [lia| |].
  { intros Heq. symmetry in Heq. apply Hown' in Heq. lia. }
  destruct (Hk2 q Hq) as (Hh2 & Ha2 & Hr2).
  split; [congruence|]. split; [tauto|].
  intros Hc.
  assert (Hc1 : clean q (db w1)).
  { split; [rewrite Hd1; apply not_elem_of_empty|].
    intros Ha. etransitivity; [by apply Hr1|].
    etransitivity; [|symmetry; exact Hh1].
    destruct Hc as [_ Hc]. apply Hc. tauto. }
  etransitivity; [by apply Hr2|by apply Hr1].
Qed.

Lemma pool_inv_spawned fuel node_spec n (w : World env) :
  doomed (db w) = ∅ ->
  pool_inv env fuel node_spec
    (replicate n (spawn env (__oci_add_node env fuel node_spec)))
    (replicate n None) w.
Proof.
  intros Hd. split; [exact Hd|]. split; [by rewrite !length_replicate|]. split.
  - intros i g own [-> _]%lookup_replicate [-> _]%lookup_replicate.
    split; [done|]. by left.
  - intros i j p [Hp _]%lookup_replicate. discriminate Hp.
Qed.

Lemma NoDup_omap_inj {A B} (f : A -> option B) (l : list A) :
  NoDup l ->
  (forall x y z, x ∈ l -> y ∈ l -> f x = Some z -> f y = Some z -> x = y) ->
  NoDup (omap f l).
Proof.
  induction 1 as [|a l Ha Hl IH]; intros Hinj; simpl; [constructor|].
  assert (IH' : NoDup (omap f l)).
  { apply IH. intros x y z Hx Hy. apply Hinj; by apply list_elem_of_further. }
  destruct (f a) as [b|] eqn:Hfa; [|exact IH'].
  constructor; [|exact IH'].
  intros (x & Hx & Hfx)%list_elem_of_omap. apply Ha.
  assert (a = x) as ->; [|done].
  apply (Hinj a x b); [apply list_elem_of_here|by apply list_elem_of_further|done|done].
Qed.

(** What the units of a request that returned a node left. *)
Lemma oci_add_nodes_provisioned fuel sched count node_spec
    (w : World env) pool fin w' evs :
  doomed (db w) = ∅ ->
  run_greenlets env sched
    (replicate (Z.to_nat count) (spawn env (__oci_add_node env fuel node_spec)))
    [] w = (pool, fin, w', evs) ->
  NoDup (iwait_values env pool fin)
  /\ forall node, node ∈ iwait_values env pool fin -> node_provisioned env node w'.
Proof.
  intros Hd Hrun.
  destruct (run_greenlets_pool_inv fuel node_spec sched _ _ _ _ _ _ _ _
              (pool_inv_spawned fuel node_spec _ w Hd) Hrun)
    as (owns & _ & Hlen & Hst & Hdist).
  apply run_greenlets_inv in Hrun as [[Hnd _] _]; [|apply fin_ok_spawned].
  assert (Hval : forall i node, pool !! i ≫= value env = Some node ->
            owns !! i = Some (Some node) /\ node_provisioned env node w').
  { intros i node Hv.
    destruct (pool !! i) as [g|] eqn:Hg; [|discriminate Hv]. simpl in Hv.
    destruct (lookup_lt_is_Some_2 owns i) as [own Hown].
    { rewrite Hlen. by eapply lookup_lt_Some. }
    destruct (Hst i g own Hg Hown) as [_ Hs].
    destruct g as [[[node'|]|e]| |k]; try discriminate Hv.
    injection Hv as ->. destruct Hs as [-> Hp]. by split. }
  split.
  - apply NoDup_omap_inj; [exact Hnd|].
    intros x y z _ _ Hx Hy.
    destruct (Hval x z Hx) as [Hox _]. destruct (Hval y z Hy) as [Hoy _].
    by apply (Hdist x y z).
  - intros node (i & _ & Hv)%list_elem_of_omap. by apply (Hval i node).
Qed.

(** Whatever the hub does, the nodes that [start] returns are distinct
    and each of them is, when [start] returns, a row of the registry in
    state Provisioned that is the object the session tracks, with at
    least one interface and with an entry of the instance cache under
    its name. The session has nothing marked for deletion when the
    request starts. *)
Theorem start_nodes_provisioned
    (fuel : nat) (sched : list nat) (count : Z)
    (hw : Profile) (sw : option Profile) (w w' : World env)
    (nodes : list NodeRef) (evs : list Event) :
  doomed (db w) = ∅ ->
  start env fuel sched count hw sw w = Run (Done (Ok nodes)) w' evs ->
  NoDup nodes /\ forall node, node ∈ nodes -> node_provisioned env node w'.
Proof.
  intros Hd Hstart.
  unfold start, __add_nodes in Hstart. gm_run_in Hstart.
  destruct (getResourceAdapterConfig_atomic env w) as [r Hr].
  rewrite Hr in Hstart. gm_run_in Hstart.
  destruct r as [cfg|e]; [|discriminate Hstart].
  unfold __oci_add_nodes in Hstart.
  destruct (run_greenlets env sched _ [] w) as [[[pool fin] w1] evs1] eqn:Hrun.
  destruct (forallb (is_done env) pool); gm_run_in Hstart; [|discriminate Hstart].
  destruct (oci_add_nodes_provisioned fuel sched count _ w pool fin w1 evs1 Hd Hrun)
    as [Hnd Hprov].
  destruct (_ <? count); gm_run_in Hstart; by injection Hstart as <- <- _.
Qed.

(** Whatever the hub does and however the units end, a request changes
    no record that was there before it: the object of such a record and
    whether the session tracks it are as they were and, if the record
    had nothing pending, so is its row; and every entry of the instance
    cache is still there. The session has nothing marked for deletion
    when the request starts. *)
Theorem start_keeps_existing
    (fuel : nat) (sched : list nat) (count : Z)
    (hw : Profile) (sw : option Profile) (w w' : World env)
    (g : G (list NodeRef)) (evs : list Event) :
  doomed (db w) = ∅ ->
  start env fuel sched count hw sw w = Run g w' evs ->
  others_kept env None w w' /\ cache_kept env w w'.
Proof.
  intros Hd Hstart.
  unfold start, __add_nodes in Hstart. gm_run_in Hstart.
  destruct (getResourceAdapterConfig_atomic env w) as [r Hr].
  rewrite Hr in Hstart. gm_run_in Hstart.
  destruct r as [cfg|e].
  2: { injection Hstart as _ <- _.
       split; [by apply others_kept_same|by apply cache_kept_same]. }
  unfold __oci_add_nodes in Hstart.
  destruct (run_greenlets env sched _ [] w) as [[[pool fin] w1] evs1] eqn:Hrun.
  assert (Hnone : forall i (p : NodeRef),
            replicate (Z.to_nat count) (@None NodeRef) !! i = Some (Some p) ->
            (next_ref (db w) <= p)%nat).
  { intros i p [Hp _]%lookup_replicate. discriminate Hp. }
  destruct (run_greenlets_keeps fuel (mkNodeSpec hw sw cfg) (next_ref (db w)) sched
              _ _ _ _ _ _ _ _
              (pool_inv_spawned _ _ _ w Hd) (Nat.le_refl _) Hnone Hrun)
    as (_ & Hck & Hk).
  assert (Hw : w' = w1).
  { destruct (forallb (is_done env) pool); gm_run_in Hstart.
    - destruct (_ <? count); gm_run_in Hstart; by injection Hstart as _ <- _.
    - by injection Hstart as _ <- _. }
  subst w'. split; [|exact Hck]. intros q Hq _. by apply Hk.
Qed.

End PoolInvariant.

(** The request of three nodes of the scenario, of which the provider
    rejects the second. *)
Lemma start_nodes_provisioned_witness :
  exists w' : World Scenario.env,
    NoDup [2; 0]%nat
    /\ forall node, node ∈ [2; 0]%nat -> node_provisioned Scenario.env node w'.
Proof.
  eexists.
  eapply (start_nodes_provisioned Scenario.env 5 Scenario.round_robin 3
            Scenario.hw Scenario.sw (Sim.world Scenario.ext_three)).
  - reflexivity.
  - vm_compute. reflexivity.
Defined.

(** A request of one node next to the provisioned node of the scenario:
    the provider rejects the launch, and the unit rolls back. *)
Lemma start_keeps_existing_witness :
  exists w' : World Scenario.env,
    others_kept Scenario.env None (Scenario.provisioned Scenario.ext_rejects) w'
    /\ cache_kept Scenario.env (Scenario.provisioned Scenario.ext_rejects) w'.
Proof.
  eexists.
  eapply (start_keeps_existing Scenario.env 5 [0%nat] 1 Scenario.hw Scenario.sw
            (Scenario.provisioned Scenario.ext_rejects)).
  - reflexivity.
  - vm_compute. reflexivity.
Defined.
